(** * Shallow embedding of the kitopizzas MDL and WMB loaders

    The Python loaders [src/viewer/mdl_loader.py] and
    [src/viewer/wmb_loader.py] read a whole file into a [bytes] object and
    decode it with [struct.unpack_from], slicing and indexing.  We model:
    - [bytes] as [list byte];
    - Python integers as [Z];
    - Python floats (IEEE binary64) as [spec_float] with [prec = 53],
      [emax = 1024]; a ['<f'] field is a binary32 value widened exactly;
    - exceptions raised by [struct.unpack_from] ([struct.error]), by
      indexing ([IndexError]) and by a missing dict key ([KeyError]) as the
      [Err] case of a small error monad [res];
    - the mutated [self] object as an explicit state record threaded
      through the loaders together with the read [offset]. *)

From Stdlib Require Import ZArith List String Bool Lia.
From Stdlib Require Import Strings.Byte.
From Stdlib Require Import Floats.SpecFloat.
Import ListNotations.
Open Scope Z_scope.

(* ------------------------------------------------------------------ *)
(** ** Python runtime: errors, bytes, struct *)

Module Py.

Inductive exn := StructError | IndexError | KeyError.

Inductive res (A : Type) : Type :=
| Ok (a : A)
| Err (e : exn).
Arguments Ok {A} a.
Arguments Err {A} e.

Definition bind {A B} (m : res A) (k : A -> res B) : res B :=
  match m with
  | Ok a => k a
  | Err e => Err e
  end.

Notation "'let*' x ':=' m 'in' k" := (bind m (fun x => k))
  (at level 200, x name, m at level 100, k at level 200).

Definition bytes := list byte.

Definition u8 (b : byte) : Z := Z.of_N (Byte.to_N b).

(** Python's normalisation of a slice bound [i] for a sequence of
    length [len] (step 1). *)
Definition slice_bound (len i : Z) : Z :=
  if i <? 0 then Z.max 0 (i + len) else Z.min i len.

(** [data[a:b]]: never fails, returns the bytes that are there. *)
Definition slice (data : bytes) (a b : Z) : bytes :=
  let len := Z.of_nat (List.length data) in
  let a' := slice_bound len a in
  let b' := slice_bound len b in
  firstn (Z.to_nat (b' - a')) (skipn (Z.to_nat a') data).

(** [bs[k]] on a [bytes] object: an [int], or [IndexError]. *)
Definition index (bs : bytes) (k : Z) : res Z :=
  let len := Z.of_nat (List.length bs) in
  let k' := if k <? 0 then k + len else k in
  if (0 <=? k') && (k' <? len) then Ok (u8 (nth (Z.to_nat k') bs Byte.x00))
  else Err IndexError.

(** Fields of little-endian ([<]) struct formats, standard sizes. *)
Inductive field := FB | Fh | FH | Fi | FI | Ff | Fs (n : nat).

Definition field_size (f : field) : Z :=
  match f with
  | FB => 1 | Fh => 2 | FH => 2 | Fi => 4 | FI => 4 | Ff => 4
  | Fs n => Z.of_nat n
  end.

Definition calcsize (fmt : list field) : Z :=
  fold_right (fun f acc => field_size f + acc) 0 fmt.

Definition rep (n : nat) (f : field) : list field := repeat f n.

(** Little-endian unsigned value of a byte string. *)
Fixpoint le_uint (bs : bytes) : Z :=
  match bs with
  | [] => 0
  | b :: bs' => u8 b + 256 * le_uint bs'
  end.

Definition to_signed (bits x : Z) : Z :=
  if x <? 2 ^ (bits - 1) then x else x - 2 ^ bits.

(** Python floats: IEEE binary64. *)
Definition prec : Z := 53.
Definition emax : Z := 1024.
Definition float := spec_float.

(** [float(z)] for an integer [z] (round to nearest even). *)
Definition float_of_Z (z : Z) : float := binary_normalize prec emax z 0 false.

Definition fmul (x y : float) : float := SFmul prec emax x y.
Definition fadd (x y : float) : float := SFadd prec emax x y.

(** A ['<f'] field: binary32 bits widened exactly to a Python float
    (NaN payloads are not represented by [spec_float]). *)
Definition f32_decode (w : Z) : float :=
  let sgn := Z.testbit w 31 in
  let e := Z.land (Z.shiftr w 23) 255 in
  let m := Z.land w (2 ^ 23 - 1) in
  if e =? 255 then (if m =? 0 then S754_infinity sgn else S754_nan)
  else if e =? 0 then
    (if m =? 0 then S754_zero sgn
     else binary_normalize prec emax (if sgn then - m else m) (-149) false)
  else binary_normalize prec emax
         (if sgn then - (m + 2 ^ 23) else m + 2 ^ 23) (e - 150) false.

(** Values of an unpacked tuple. *)
Inductive pyval := PInt (z : Z) | PFloat (x : float) | PBytes (b : bytes).

Fixpoint decode_fields (fmt : list field) (bs : bytes) : list pyval :=
  match fmt with
  | [] => []
  | f :: fmt' =>
      let n := Z.to_nat (field_size f) in
      let here := firstn n bs in
      let v := match f with
               | FB | FH | FI => PInt (le_uint here)
               | Fh => PInt (to_signed 16 (le_uint here))
               | Fi => PInt (to_signed 32 (le_uint here))
               | Ff => PFloat (f32_decode (le_uint here))
               | Fs _ => PBytes here
               end in
      v :: decode_fields fmt' (skipn n bs)
  end.

(** [struct.unpack_from(fmt, data, offset)] as CPython implements it: a
    negative offset counts from the end; the whole span must fit. *)
Definition unpack_span (data : bytes) (off size : Z) : res bytes :=
  let len := Z.of_nat (List.length data) in
  let off' := if off <? 0 then off + len else off in
  if off' <? 0 then Err StructError
  else if len - off' <? size then Err StructError
  else Ok (firstn (Z.to_nat size) (skipn (Z.to_nat off') data)).

Definition unpack_from (fmt : list field) (data : bytes) (off : Z)
  : res (list pyval) :=
  let* bs := unpack_span data off (calcsize fmt) in
  Ok (decode_fields fmt bs).

(** Tuple projections; the format fixes the type of every slot. *)
Definition int_at (vs : list pyval) (i : nat) : Z :=
  match nth_error vs i with Some (PInt z) => z | _ => 0 end.
Definition float_at (vs : list pyval) (i : nat) : float :=
  match nth_error vs i with Some (PFloat x) => x | _ => S754_zero false end.
Definition bytes_at (vs : list pyval) (i : nat) : bytes :=
  match nth_error vs i with Some (PBytes b) => b | _ => [] end.
Definition floats_of (vs : list pyval) : list float :=
  map (fun v => match v with PFloat x => x | _ => S754_zero false end) vs.

(** [b.strip(b'\x00')]; the later [.decode('utf-8', errors='ignore')] is
    left out: names are kept as the stripped bytes. *)
Definition strip_nul (bs : bytes) : bytes :=
  let fix drop (l : bytes) := match l with
                              | Byte.x00 :: l' => drop l'
                              | _ => l
                              end in
  rev (drop (rev (drop bs))).

(** [for x in xs: body] over a threaded state. *)
Fixpoint for_each {A S} (body : A -> S -> res S) (xs : list A) (s : S) : res S :=
  match xs with
  | [] => Ok s
  | x :: xs' => let* s' := body x s in for_each body xs' s'
  end.

(** [range(n)] for a Python int [n] (empty when [n <= 0]). *)
Definition range (n : Z) : list Z := map Z.of_nat (seq 0 (Z.to_nat n)).

(** [l[i] = x] for [0 <= i < len(l)]. *)
Fixpoint list_set {A} (l : list A) (i : nat) (x : A) : list A :=
  match l, i with
  | [], _ => []
  | _ :: l', O => x :: l'
  | y :: l', S i' => y :: list_set l' i' x
  end.

(** A byte-string literal such as [b'IDPO']. *)
Definition tag (s : string) : bytes := list_byte_of_string s.

Definition bytes_eqb (a b : bytes) : bool :=
  (Nat.eqb (List.length a) (List.length b)) &&
  forallb (fun p => Byte.eqb (fst p) (snd p)) (combine a b).

End Py.

Import Py.

(* ------------------------------------------------------------------ *)
(** ** [src/viewer/mdl_loader.py]: class [MDL] *)

Module Mdl.

Definition vec3 := (float * float * float)%type.

(** [self.header] of the IDPO and MDL3/4/5 loaders (the IDPO dict has no
    ['num_skinverts'] key). *)
Record qheader := {
  q_ident : bytes; q_version : Z;
  q_scale : vec3; q_translate : vec3;
  q_boundingradius : float; q_eyeposition : vec3;
  q_num_skins : Z; q_skinwidth : Z; q_skinheight : Z;
  q_num_verts : Z; q_num_tris : Z; q_num_frames : Z;
  q_num_skinverts : option Z;
  q_synctype : Z; q_flags : Z; q_size : float }.

(** [self.header] of the MDL7 loader. *)
Record header7 := {
  h7_ident : bytes; h7_version : Z; h7_bones_num : Z; h7_groups_num : Z;
  h7_mdl7data_size : Z; h7_entlump_size : Z; h7_medlump_size : Z;
  h7_bone_stc_size : Z; h7_skin_stc_size : Z; h7_colorvalue_stc_size : Z;
  h7_material_stc_size : Z; h7_skinpoint_stc_size : Z;
  h7_triangle_stc_size : Z; h7_mainvertex_stc_size : Z;
  h7_framevertex_stc_size : Z; h7_bonetrans_stc_size : Z;
  h7_frame_stc_size : Z;
  h7_num_skins : Z; h7_skinwidth : Z; h7_skinheight : Z;
  h7_num_verts : Z; h7_num_tris : Z; h7_num_frames : Z;
  h7_num_skinverts : option Z;
  h7_scale : vec3; h7_translate : vec3 }.

Inductive mdl_header :=
| HdrEmpty                      (* {} *)
| HdrQuake (h : qheader)        (* IDPO, MDL3, MDL4, MDL5 *)
| Hdr7 (h : header7).           (* MDL7 *)

(** Entries of [self.skins]. *)
Inductive skin :=
| Skin (type : string) (data : bytes)                        (* IDPO single *)
| SkinGroup (times : list float) (data : list bytes)         (* IDPO group *)
| SkinWH (type : string) (width height : Z) (data : bytes).  (* MDL3/4/5/7 *)

(** Entries of [self.skinverts]. *)
Inductive skinvert :=
| SvInt (u v : Z)                  (* MDL3/4/5: two int16 *)
| SvFloat (s t : float).           (* MDL7: two floats *)

(** Entries of [self.triangles]. *)
Inductive triangle :=
| TriIdpo (facesfront v0 v1 v2 : Z)
| Tri6 (v0 v1 v2 uv0 uv1 uv2 : Z).

(** Entries of [self.frames] (all have ['type': 'single']). *)
Record frame := {
  fr_name : bytes;
  fr_bbox : option (list Z * list Z);     (* IDPO only *)
  fr_verts : list vec3 }.

(** The [MDL] object. *)
Record mdl := {
  header : mdl_header;
  skins : list skin;
  texcoords : list (Z * Z * Z);
  skinverts : list skinvert;
  triangles : list triangle;
  frames : list frame }.

Definition empty : mdl :=
  {| header := HdrEmpty; skins := []; texcoords := []; skinverts := [];
     triangles := []; frames := [] |}.

Definition set_header (m : mdl) (h : mdl_header) : mdl :=
  {| header := h; skins := skins m; texcoords := texcoords m;
     skinverts := skinverts m; triangles := triangles m; frames := frames m |}.
Definition add_skin (m : mdl) (s : skin) : mdl :=
  {| header := header m; skins := skins m ++ [s]; texcoords := texcoords m;
     skinverts := skinverts m; triangles := triangles m; frames := frames m |}.
Definition add_texcoord (m : mdl) (t : Z * Z * Z) : mdl :=
  {| header := header m; skins := skins m; texcoords := texcoords m ++ [t];
     skinverts := skinverts m; triangles := triangles m; frames := frames m |}.
Definition add_skinvert (m : mdl) (s : skinvert) : mdl :=
  {| header := header m; skins := skins m; texcoords := texcoords m;
     skinverts := skinverts m ++ [s]; triangles := triangles m;
     frames := frames m |}.
Definition add_triangle (m : mdl) (t : triangle) : mdl :=
  {| header := header m; skins := skins m; texcoords := texcoords m;
     skinverts := skinverts m; triangles := triangles m ++ [t];
     frames := frames m |}.
Definition set_frames (m : mdl) (fs : list frame) : mdl :=
  {| header := header m; skins := skins m; texcoords := texcoords m;
     skinverts := skinverts m; triangles := triangles m; frames := fs |}.
Definition add_frame (m : mdl) (f : frame) : mdl := set_frames m (frames m ++ [f]).

Definition vec3_at (vs : list pyval) (i : nat) : vec3 :=
  (float_at vs i, float_at vs (i + 1), float_at vs (i + 2)).

(** [packed * scale[k] + translate[k]] with Python's int * float. *)
Definition dequant (packed : Z) (scale translate : float) : float :=
  fadd (fmul (float_of_Z packed) scale) translate.

Definition dequant3 (h : qheader) (x y z : Z) : vec3 :=
  let '(s0, s1, s2) := q_scale h in
  let '(t0, t1, t2) := q_translate h in
  (dequant x s0 t0, dequant y s1 t1, dequant z s2 t2).

(** *** IDPO (Quake) *)

Definition idpo_header_fmt : list field :=
  [Fs 4; FI] ++ rep 3 Ff ++ rep 3 Ff ++ [Ff] ++ rep 3 Ff ++ rep 8 FI ++ [Ff].

Definition idpo_header_of (u : list pyval) : qheader :=
  {| q_ident := bytes_at u 0; q_version := int_at u 1;
     q_scale := vec3_at u 2; q_translate := vec3_at u 5;
     q_boundingradius := float_at u 8; q_eyeposition := vec3_at u 9;
     q_num_skins := int_at u 12; q_skinwidth := int_at u 13;
     q_skinheight := int_at u 14; q_num_verts := int_at u 15;
     q_num_tris := int_at u 16; q_num_frames := int_at u 17;
     q_num_skinverts := None;
     q_synctype := int_at u 18; q_flags := int_at u 19;
     q_size := float_at u 20 |}.

(** One single-image skin of [size] bytes: [data[offset:offset+size]]. *)
Definition single_skin (data : bytes) (type : string) (size : Z)
    (s : mdl * Z) : mdl * Z :=
  let '(m, off) := s in
  (add_skin m (Skin type (slice data off (off + size))), off + size).

(** Body of the skin loop of [_load_idpo] (lines 61-118). *)
Definition idpo_skin (data : bytes) (h : qheader) (_ : Z) (s : mdl * Z)
  : res (mdl * Z) :=
  let '(m, off) := s in
  let* vs := unpack_from [FI] data off in
  let skin_type := int_at vs 0 in
  let off := off + 4 in
  let width := q_skinwidth h in
  let height := q_skinheight h in
  if skin_type =? 0 then Ok (single_skin data "single_8bit"%string (width * height) (m, off))
  else if skin_type =? 2 then
    Ok (single_skin data "single_16bit"%string (width * height * 2) (m, off))
  else if skin_type =? 3 then
    Ok (single_skin data "single_16bit_4444"%string (width * height * 2) (m, off))
  else if skin_type =? 4 then
    Ok (single_skin data "single_24bit_888"%string (width * height * 3) (m, off))
  else if skin_type =? 5 then
    Ok (single_skin data "single_32bit_8888"%string (width * height * 4) (m, off))
  else if skin_type =? 1 then
    let* vs := unpack_from [FI] data off in
    let nb := int_at vs 0 in
    let off := off + 4 in
    let* tvs := unpack_from (rep (Z.to_nat nb) Ff) data off in
    let times := floats_of tvs in
    let off := off + nb * 4 in
    let size := width * height in
    let* gs := for_each (fun _ '(acc, o) => Ok (acc ++ [slice data o (o + size)], o + size))
                 (range nb) ([], off) in
    let '(group_skins, off) := gs in
    Ok (add_skin m (SkinGroup times group_skins), off)
  else
    (* print(f"Unknown skin type: {skin_type}, skipping skin") *)
    Ok (m, off).

Definition idpo_texcoord (data : bytes) (_ : Z) (s : mdl * Z) : res (mdl * Z) :=
  let '(m, off) := s in
  let* st := unpack_from [FI; FI; FI] data off in
  Ok (add_texcoord m (int_at st 0, int_at st 1, int_at st 2), off + 12).

Definition idpo_triangle (data : bytes) (_ : Z) (s : mdl * Z) : res (mdl * Z) :=
  let '(m, off) := s in
  let* t := unpack_from [FI; FI; FI; FI] data off in
  Ok (add_triangle m (TriIdpo (int_at t 0) (int_at t 1) (int_at t 2) (int_at t 3)),
      off + 16).

(** [for i in range(num_verts)] of a byte-packed frame: lines 163-168 of
    [_load_frames_idpo] and the textually identical lines 332-337 of
    [_load_frames_mdl345]. *)
Definition byte_packed_verts (h : qheader) (verts_data : bytes) (num_verts : Z)
  : res (list vec3) :=
  for_each (fun i acc =>
      let v_packed := slice verts_data (i * 4) (i * 4 + 4) in
      let* x := index v_packed 0 in
      let* y := index v_packed 1 in
      let* z := index v_packed 2 in
      Ok (acc ++ [dequant3 h x y z]))
    (range num_verts) [].

Definition frame_header_fmt : list field := rep 4 FB ++ rep 4 FB ++ [Fs 16].

Definition ints_of (vs : list pyval) : list Z :=
  map (fun v => match v with PInt z => z | _ => 0 end) vs.

(** [_load_frames_idpo] (lines 141-180): [n] frames still to read; a
    non-zero frame type returns at once. *)
Fixpoint load_frames_idpo_loop (n : nat) (data : bytes) (h : qheader)
    (m : mdl) (off : Z) : res (mdl * Z) :=
  match n with
  | O => Ok (m, off)
  | S n' =>
      let* vs := unpack_from [FI] data off in
      let frame_type := int_at vs 0 in
      let off := off + 4 in
      if frame_type =? 0 then
        let* fh := unpack_from frame_header_fmt data off in
        let off := off + 24 in
        let bboxmin := ints_of (firstn 4 fh) in
        let bboxmax := ints_of (firstn 4 (skipn 4 fh)) in
        let name := strip_nul (bytes_at fh 8) in
        let num_verts := q_num_verts h in
        let verts_data := slice data off (off + num_verts * 4) in
        let off := off + num_verts * 4 in
        let* frame_verts := byte_packed_verts h verts_data num_verts in
        load_frames_idpo_loop n' data h
          (add_frame m {| fr_name := name; fr_bbox := Some (bboxmin, bboxmax);
                          fr_verts := frame_verts |}) off
      else
        (* print("Group frame not implemented"); return offset *)
        Ok (m, off)
  end.

Definition load_frames_idpo (data : bytes) (h : qheader) (m : mdl) (off : Z)
  : res (mdl * Z) :=
  load_frames_idpo_loop (Z.to_nat (q_num_frames h)) data h m off.

(** [_load_idpo] (lines 30-139). *)
Definition load_idpo (data : bytes) (m : mdl) : res mdl :=
  let* u := unpack_from idpo_header_fmt data 0 in
  let off := calcsize idpo_header_fmt in
  let h := idpo_header_of u in
  let m := set_header m (HdrQuake h) in
  let* s := for_each (idpo_skin data h) (range (q_num_skins h)) (m, off) in
  let* s := for_each (idpo_texcoord data) (range (q_num_verts h)) s in
  let* s := for_each (idpo_triangle data) (range (q_num_tris h)) s in
  let '(m, off) := s in
  let* r := load_frames_idpo data h m off in
  Ok (fst r).

(** *** MDL3 / MDL4 / MDL5 (Gamestudio) *)

Definition mdl345_header_fmt : list field :=
  [Fs 4; FI] ++ rep 3 Ff ++ rep 3 Ff ++ [FI] ++ rep 3 Ff ++ rep 9 FI.

Definition mdl345_header_of (u : list pyval) : qheader :=
  {| q_ident := bytes_at u 0; q_version := 0;
     q_scale := vec3_at u 2; q_translate := vec3_at u 5;
     q_boundingradius := S754_zero false;
     q_eyeposition := (S754_zero false, S754_zero false, S754_zero false);
     q_num_skins := int_at u 12; q_skinwidth := int_at u 13;
     q_skinheight := int_at u 14; q_num_verts := int_at u 15;
     q_num_tris := int_at u 16; q_num_frames := int_at u 17;
     q_num_skinverts := Some (int_at u 18);
     q_synctype := 0; q_flags := int_at u 19; q_size := S754_zero false |}.

(** bytes per pixel and type string of a skin type's low 3 bits. *)
Definition mdl345_bpp (base_type : Z) : Z * string :=
  if base_type =? 0 then (1, "single_8bit"%string)
  else if base_type =? 2 then (2, "single_16bit_565"%string)
  else if base_type =? 3 then (2, "single_16bit_4444"%string)
  else if base_type =? 4 then (3, "single_24bit_888"%string)
  else if base_type =? 5 then (4, "single_32bit_8888"%string)
  else (1, "unknown"%string).

Definition mip_sizes (w h bpp : Z) : Z :=
  (w / 2) * (h / 2) * bpp + (w / 4) * (h / 4) * bpp + (w / 8) * (h / 8) * bpp.

(** Body of the skin loop of [_load_mdl345] (lines 220-276). *)
Definition mdl345_skin (data : bytes) (h : qheader) (_ : Z) (s : mdl * Z)
  : res (mdl * Z) :=
  let '(m, off) := s in
  let* vs := unpack_from [FI] data off in
  let skintype := int_at vs 0 in
  let off := off + 4 in
  let has_mipmaps := negb (Z.land skintype 8 =? 0) in
  let base_type := Z.land skintype 7 in
  let '(bpp, skin_type_str) := mdl345_bpp base_type in
  let* whs := if bytes_eqb (q_ident h) (tag "MDL5")
              then let* wh := unpack_from [FI; FI] data off in
                   Ok (int_at wh 0, int_at wh 1, off + 8)
              else Ok (q_skinwidth h, q_skinheight h, off) in
  let '(skin_width, skin_height, off) := whs in
  let skin_size := skin_width * skin_height * bpp in
  let skin_data := slice data off (off + skin_size) in
  let off := off + skin_size in
  let off := if has_mipmaps then off + mip_sizes skin_width skin_height bpp
             else off in
  Ok (add_skin m (SkinWH skin_type_str skin_width skin_height skin_data), off).

Definition mdl345_skinvert (data : bytes) (_ : Z) (s : mdl * Z) : res (mdl * Z) :=
  let '(m, off) := s in
  let* uv := unpack_from [Fh; Fh] data off in
  Ok (add_skinvert m (SvInt (int_at uv 0) (int_at uv 1)), off + 4).

Definition mdl345_triangle (data : bytes) (_ : Z) (s : mdl * Z) : res (mdl * Z) :=
  let '(m, off) := s in
  let* t := unpack_from (rep 6 Fh) data off in
  Ok (add_triangle m (Tri6 (int_at t 0) (int_at t 1) (int_at t 2)
                           (int_at t 3) (int_at t 4) (int_at t 5)), off + 12).

(** Word-packed vertices of [_load_frames_mdl345] (lines 344-349). *)
Definition word_packed_verts (h : qheader) (verts_data : bytes) (num_verts : Z)
  : res (list vec3) :=
  for_each (fun i acc =>
      let* v_packed := unpack_from [FH; FH; FH; FB; FB] verts_data (i * 8) in
      Ok (acc ++ [dequant3 h (int_at v_packed 0) (int_at v_packed 1)
                              (int_at v_packed 2)]))
    (range num_verts) [].

(** Body of the frame loop of [_load_frames_mdl345] (lines 302-355). *)
Definition mdl345_frame (data : bytes) (h : qheader) (_ : Z) (s : mdl * Z)
  : res (mdl * Z) :=
  let '(m, off) := s in
  let* vs := unpack_from [FI] data off in
  let frame_type := int_at vs 0 in
  let off := off + 4 in
  let bbox_fmt := if frame_type =? 0 then rep 8 FB else rep 16 FB in
  let* _bbox := unpack_from bbox_fmt data off in
  let off := off + calcsize bbox_fmt in
  let* nm := unpack_from [Fs 16] data off in
  let off := off + 16 in
  let name := strip_nul (bytes_at nm 0) in
  let num_verts := q_num_verts h in
  let* vo := if frame_type =? 0 then
               let verts_data := slice data off (off + num_verts * 4) in
               let* vs := byte_packed_verts h verts_data num_verts in
               Ok (vs, off + num_verts * 4)
             else
               let verts_data := slice data off (off + num_verts * 8) in
               let* vs := word_packed_verts h verts_data num_verts in
               Ok (vs, off + num_verts * 8) in
  let '(frame_verts, off) := vo in
  Ok (add_frame m {| fr_name := name; fr_bbox := None; fr_verts := frame_verts |},
      off).

Definition load_frames_mdl345 (data : bytes) (h : qheader) (m : mdl) (off : Z)
  : res (mdl * Z) :=
  for_each (mdl345_frame data h) (range (q_num_frames h)) (m, off).

(** [_load_mdl345] (lines 182-298). *)
Definition load_mdl345 (data : bytes) (m : mdl) : res mdl :=
  let* u := unpack_from mdl345_header_fmt data 0 in
  let off := calcsize mdl345_header_fmt in
  let h := mdl345_header_of u in
  let m := set_header m (HdrQuake h) in
  let* s := for_each (mdl345_skin data h) (range (q_num_skins h)) (m, off) in
  let sv := match q_num_skinverts h with Some n => n | None => 0 end in
  let* s := for_each (mdl345_skinvert data) (range sv) s in
  let* s := for_each (mdl345_triangle data) (range (q_num_tris h)) s in
  let '(m, off) := s in
  let* r := load_frames_mdl345 data h m off in
  Ok (fst r).

(** *** MDL7 (Gamestudio, multi-group) *)

Definition mdl7_header_fmt : list field := [Fs 4] ++ rep 6 Fi ++ rep 10 FH.

Definition zero3 : vec3 := (S754_zero false, S754_zero false, S754_zero false).
Definition one3 : vec3 := (float_of_Z 1, float_of_Z 1, float_of_Z 1).

Definition mdl7_header_of (u : list pyval) : header7 :=
  {| h7_ident := bytes_at u 0; h7_version := int_at u 1;
     h7_bones_num := int_at u 2; h7_groups_num := int_at u 3;
     h7_mdl7data_size := int_at u 4; h7_entlump_size := int_at u 5;
     h7_medlump_size := int_at u 6;
     h7_bone_stc_size := int_at u 7; h7_skin_stc_size := int_at u 8;
     h7_colorvalue_stc_size := int_at u 9; h7_material_stc_size := int_at u 10;
     h7_skinpoint_stc_size := int_at u 11; h7_triangle_stc_size := int_at u 12;
     h7_mainvertex_stc_size := int_at u 13;
     h7_framevertex_stc_size := int_at u 14;
     h7_bonetrans_stc_size := int_at u 15; h7_frame_stc_size := int_at u 16;
     h7_num_skins := 0; h7_skinwidth := 0; h7_skinheight := 0;
     h7_num_verts := 0; h7_num_tris := 0; h7_num_frames := 0;
     h7_num_skinverts := None;
     h7_scale := one3; h7_translate := zero3 |}.

(** [self.header['skinwidth'] = w; self.header['skinheight'] = h]. *)
Definition h7_set_skin_wh (h : header7) (w ht : Z) : header7 :=
  {| h7_ident := h7_ident h; h7_version := h7_version h;
     h7_bones_num := h7_bones_num h; h7_groups_num := h7_groups_num h;
     h7_mdl7data_size := h7_mdl7data_size h; h7_entlump_size := h7_entlump_size h;
     h7_medlump_size := h7_medlump_size h;
     h7_bone_stc_size := h7_bone_stc_size h; h7_skin_stc_size := h7_skin_stc_size h;
     h7_colorvalue_stc_size := h7_colorvalue_stc_size h;
     h7_material_stc_size := h7_material_stc_size h;
     h7_skinpoint_stc_size := h7_skinpoint_stc_size h;
     h7_triangle_stc_size := h7_triangle_stc_size h;
     h7_mainvertex_stc_size := h7_mainvertex_stc_size h;
     h7_framevertex_stc_size := h7_framevertex_stc_size h;
     h7_bonetrans_stc_size := h7_bonetrans_stc_size h;
     h7_frame_stc_size := h7_frame_stc_size h;
     h7_num_skins := h7_num_skins h; h7_skinwidth := w; h7_skinheight := ht;
     h7_num_verts := h7_num_verts h; h7_num_tris := h7_num_tris h;
     h7_num_frames := h7_num_frames h; h7_num_skinverts := h7_num_skinverts h;
     h7_scale := h7_scale h; h7_translate := h7_translate h |}.

(** The final count updates of lines 597-600. *)
Definition h7_set_counts (h : header7) (nv nt nf nsv : Z) : header7 :=
  {| h7_ident := h7_ident h; h7_version := h7_version h;
     h7_bones_num := h7_bones_num h; h7_groups_num := h7_groups_num h;
     h7_mdl7data_size := h7_mdl7data_size h; h7_entlump_size := h7_entlump_size h;
     h7_medlump_size := h7_medlump_size h;
     h7_bone_stc_size := h7_bone_stc_size h; h7_skin_stc_size := h7_skin_stc_size h;
     h7_colorvalue_stc_size := h7_colorvalue_stc_size h;
     h7_material_stc_size := h7_material_stc_size h;
     h7_skinpoint_stc_size := h7_skinpoint_stc_size h;
     h7_triangle_stc_size := h7_triangle_stc_size h;
     h7_mainvertex_stc_size := h7_mainvertex_stc_size h;
     h7_framevertex_stc_size := h7_framevertex_stc_size h;
     h7_bonetrans_stc_size := h7_bonetrans_stc_size h;
     h7_frame_stc_size := h7_frame_stc_size h;
     h7_num_skins := h7_num_skins h; h7_skinwidth := h7_skinwidth h;
     h7_skinheight := h7_skinheight h;
     h7_num_verts := nv; h7_num_tris := nt; h7_num_frames := nf;
     h7_num_skinverts := Some nsv;
     h7_scale := h7_scale h; h7_translate := h7_translate h |}.

(** Local state of [_load_mdl7]: [self] with its header dict, the read
    offset, and the merge accumulators of lines 411-415. *)
Record acc7 := {
  a_m : mdl;
  a_hdr : header7;
  a_off : Z;
  all_skinverts : list skinvert;
  all_triangles : list triangle;
  vertex_offset : Z;
  skinvert_offset : Z }.

Definition group_fmt : list field := [FB; FB; FB; FB; Fi; Fs 16] ++ rep 5 Fi.
Definition skin7_fmt : list field := [FB; FB; FB; FB; Fi; Fi; Fs 16].

(** Body of the per-group skin loop (lines 439-512). *)
Definition mdl7_skin (data : bytes) (_ : Z) (s : header7 * mdl * Z)
  : res (header7 * mdl * Z) :=
  let '(h, m, off) := s in
  let* sk := unpack_from skin7_fmt data off in
  let off := off + h7_skin_stc_size h in
  let skin_typ := int_at sk 0 in
  let skin_width := int_at sk 4 in
  let skin_height := int_at sk 5 in
  let has_mipmaps := negb (Z.land skin_typ 8 =? 0) in
  let has_material := negb (Z.land skin_typ 16 =? 0) in
  let base_type := Z.land skin_typ 7 in
  if has_material || (base_type =? 1) then Ok (h, m, off)     (* material *)
  else if base_type =? 6 then Ok (h, m, off)                  (* DDS *)
  else if base_type =? 7 then Ok (h, m, off)                  (* external *)
  else
    let '(bpp, skin_type_str) :=
      if base_type =? 0 then (1, "single_8bit"%string)
      else if base_type =? 2 then (2, "single_16bit_565"%string)
      else if base_type =? 3 then (2, "single_16bit_4444"%string)
      else if base_type =? 4 then (3, "single_24bit_888"%string)
      else if base_type =? 5 then (4, "single_32bit_8888"%string)
      else (0, "unknown"%string) in
    if (bpp >? 0) && (skin_width >? 0) && (skin_height >? 0) then
      let pixel_size := skin_width * skin_height * bpp in
      let pixel_data := slice data off (off + pixel_size) in
      let off := off + pixel_size in
      let off := if has_mipmaps then off + mip_sizes skin_width skin_height bpp
                 else off in
      if Nat.eqb (List.length (skins m)) 0 then
        Ok (h7_set_skin_wh h skin_width skin_height,
            add_skin m (SkinWH skin_type_str skin_width skin_height pixel_data),
            off)
      else Ok (h, m, off)
    else Ok (h, m, off).

(** One skin point (lines 517-521). *)
Definition mdl7_skinpoint (data : bytes) (sz : Z) (_ : Z)
    (s : list skinvert * Z) : res (list skinvert * Z) :=
  let '(acc, off) := s in
  let* st := unpack_from [Ff; Ff] data off in
  Ok (acc ++ [SvFloat (float_at st 0) (float_at st 1)], off + sz).

(** One triangle, rebased by the running offsets (lines 527-542). *)
Definition mdl7_triangle (data : bytes) (sz vo so : Z) (_ : Z)
    (s : list triangle * Z) : res (list triangle * Z) :=
  let '(acc, off) := s in
  let* v := unpack_from [FH; FH; FH] data off in
  let* uv := unpack_from [FH; FH; FH] data (off + 6) in
  Ok (acc ++ [Tri6 (int_at v 0 + vo) (int_at v 1 + vo) (int_at v 2 + vo)
                   (int_at uv 0 + so) (int_at uv 1 + so) (int_at uv 2 + so)],
      off + sz).

(** One main vertex (lines 548-551). *)
Definition mdl7_mainvertex (data : bytes) (sz : Z) (_ : Z)
    (s : list vec3 * Z) : res (list vec3 * Z) :=
  let '(acc, off) := s in
  let* p := unpack_from [Ff; Ff; Ff] data off in
  Ok (acc ++ [vec3_at p 0], off + sz).

(** [if vert_idx < len(frame_verts): frame_verts[vert_idx] = v]. *)
Definition apply_override (fv : list vec3) (vert_idx : Z) (v : vec3) : list vec3 :=
  if vert_idx <? Z.of_nat (List.length fv) then list_set fv (Z.to_nat vert_idx) v
  else fv.

(** One frame-vertex record (lines 568-573). *)
Definition mdl7_framevertex (data : bytes) (sz : Z) (_ : Z)
    (s : list vec3 * Z) : res (list vec3 * Z) :=
  let '(fv, off) := s in
  let* p := unpack_from [Ff; Ff; Ff] data off in
  let* q := unpack_from [FH] data (off + 12) in
  let vert_idx := int_at q 0 in
  Ok (apply_override fv vert_idx (vec3_at p 0), off + sz).

(** [self.frames[frame_idx]['verts'].extend(vs)]. *)
Fixpoint extend_frame (fs : list frame) (i : nat) (vs : list vec3) : list frame :=
  match fs, i with
  | [], _ => []
  | f :: fs', O =>
      {| fr_name := fr_name f; fr_bbox := fr_bbox f; fr_verts := fr_verts f ++ vs |}
        :: fs'
  | f :: fs', S i' => f :: extend_frame fs' i' vs
  end.

(** Body of the per-group frame loop (lines 559-588). *)
Definition mdl7_frame (data : bytes) (h : header7) (group_idx : Z)
    (group_verts : list vec3) (frame_idx : Z) (s : mdl * Z) : res (mdl * Z) :=
  let '(m, off) := s in
  let* nm := unpack_from [Fs 16] data off in
  let frame_name := strip_nul (bytes_at nm 0) in
  let* cnt := unpack_from [Fi; Fi] data (off + 16) in
  let verts_count := int_at cnt 0 in
  let trans_count := int_at cnt 1 in
  let off := off + h7_frame_stc_size h in
  let* r := for_each (mdl7_framevertex data (h7_framevertex_stc_size h))
              (range verts_count) (group_verts, off) in
  let '(frame_verts, off) := r in
  let off := off + trans_count * h7_bonetrans_stc_size h in
  if group_idx =? 0 then
    Ok (add_frame m {| fr_name := frame_name; fr_bbox := None;
                       fr_verts := frame_verts |}, off)
  else if frame_idx <? Z.of_nat (List.length (frames m)) then
    Ok (set_frames m (extend_frame (frames m) (Z.to_nat frame_idx) frame_verts), off)
  else Ok (m, off).

(** Body of the group loop of [_load_mdl7] (lines 417-592). *)
Definition mdl7_group (data : bytes) (group_idx : Z) (a : acc7) : res acc7 :=
  let off := a_off a in
  let* g := unpack_from group_fmt data off in
  let off := off + calcsize group_fmt in
  let num_skins := int_at g 6 in
  let num_stpts := int_at g 7 in
  let num_tris := int_at g 8 in
  let num_verts := int_at g 9 in
  let num_frames := int_at g 10 in
  let* r := for_each (mdl7_skin data) (range num_skins) (a_hdr a, a_m a, off) in
  let '(h, m, off) := r in
  let* r := for_each (mdl7_skinpoint data (h7_skinpoint_stc_size h))
              (range num_stpts) (all_skinverts a, off) in
  let '(all_sv, off) := r in
  let* r := for_each (mdl7_triangle data (h7_triangle_stc_size h)
                        (vertex_offset a) (skinvert_offset a))
              (range num_tris) (all_triangles a, off) in
  let '(all_tris, off) := r in
  let* r := for_each (mdl7_mainvertex data (h7_mainvertex_stc_size h))
              (range num_verts) ([], off) in
  let '(group_verts, off) := r in
  let* r := for_each (mdl7_frame data h group_idx group_verts)
              (range num_frames) (m, off) in
  let '(m, off) := r in
  Ok {| a_m := m; a_hdr := h; a_off := off;
        all_skinverts := all_sv; all_triangles := all_tris;
        vertex_offset := vertex_offset a + num_verts;
        skinvert_offset := skinvert_offset a + num_stpts |}.

Definition set_skinverts_triangles (m : mdl) (sv : list skinvert)
    (ts : list triangle) : mdl :=
  {| header := header m; skins := skins m; texcoords := texcoords m;
     skinverts := sv; triangles := ts; frames := frames m |}.

(** [_load_mdl7] (lines 359-602). *)
Definition load_mdl7 (data : bytes) (m : mdl) : res mdl :=
  let* u := unpack_from mdl7_header_fmt data 0 in
  let off := calcsize mdl7_header_fmt in
  let h := mdl7_header_of u in
  let off := off + h7_bones_num h * h7_bone_stc_size h in
  let* a := for_each (mdl7_group data) (range (h7_groups_num h))
              {| a_m := m; a_hdr := h; a_off := off; all_skinverts := [];
                 all_triangles := []; vertex_offset := 0; skinvert_offset := 0 |} in
  let m := set_skinverts_triangles (a_m a) (all_skinverts a) (all_triangles a) in
  let h := h7_set_counts (a_hdr a) (vertex_offset a)
             (Z.of_nat (List.length (all_triangles a)))
             (Z.of_nat (List.length (frames m))) (skinvert_offset a) in
  Ok (set_header m (Hdr7 h)).

(** [MDL.load] on the file contents (lines 13-28). *)
Definition load (data : bytes) (m : mdl) : res mdl :=
  let* id := unpack_from [Fs 4] data 0 in
  let ident := bytes_at id 0 in
  if bytes_eqb ident (tag "IDPO") then load_idpo data m
  else if bytes_eqb ident (tag "MDL3") || bytes_eqb ident (tag "MDL4")
          || bytes_eqb ident (tag "MDL5") then load_mdl345 data m
  else if bytes_eqb ident (tag "MDL7") then load_mdl7 data m
  else (* print("Not a valid MDL file ..."); return *) Ok m.

End Mdl.

(* ------------------------------------------------------------------ *)
(** ** [src/viewer/wmb_loader.py]: class [WMB] *)

Module Wmb.

Local Open Scope string_scope.
Local Open Scope list_scope.
Local Open Scope Z_scope.

Definition vec3 := Mdl.vec3.
Definition vec3_at := Mdl.vec3_at.

(** An entry [{'offset': o, 'length': l}] of [self.header['lists']]. *)
Record lump := { l_offset : Z; l_length : Z }.

Record texture := {
  t_name : bytes; t_width : Z; t_height : Z; t_type : Z;
  t_data : option bytes;            (* None when 'data' stays None *)
  t_format : string }.

Record texinfo_t := {
  ti_s_vec : vec3; ti_s_off : float; ti_t_vec : vec3; ti_t_off : float;
  ti_texture : Z; ti_flags : Z }.

Record face := {
  f_flags : Z; f_first_edge : Z; f_num_verts : Z; f_tex_idx : Z; f_skin : Z;
  f_vertices : list Z }.

Record lightmap := { lm_width : Z; lm_height : Z; lm_data : bytes }.

Record bvertex := { bv_pos : vec3; bv_uv : float * float; bv_lm_uv : float * float }.
Record btriangle := { bt_indices : Z * Z * Z; bt_skin : Z }.
Record bskin := {
  bs_texture : Z; bs_lightmap : Z; bs_material : Z;
  bs_ambient : float; bs_albedo : float; bs_flags : Z }.
Record block := {
  b_mins : vec3; b_maxs : vec3; b_content : Z;
  b_num_verts : Z; b_num_tris : Z; b_num_skins : Z;
  b_vertices : list bvertex; b_triangles : list btriangle; b_skins : list bskin }.

(** The type-specific part of an object dict; the ['name'] key is
    determined by it ([TYPE_<code>] for [ObjUnknown]). *)
Inductive obj_kind :=
| ObjInfo (origin : vec3) (azimuth elevation : float)
| ObjPosition (origin angle : vec3) (pos_name : bytes)
| ObjLight (origin color : vec3) (range : float)
| ObjOldEntity (origin angle scale : vec3) (ent_name filename : bytes)
| ObjEntity (origin angle scale : vec3) (ent_name filename : bytes)
| ObjUnknown.

(** An object dict [{'type': obj_type, 'index': i, ...}]. *)
Record obj := { o_type : Z; o_index : Z; o_kind : obj_kind }.

(** The [WMB] object: [self.version], [self.header['version']],
    [self.header['lists']] and the decoded collections. *)
Record wmb := {
  w_version : option bytes;
  w_header_version : option bytes;
  w_lists : list (string * lump);
  textures : list texture;
  materials : list bytes;
  blocks : list block;
  objects : list obj;
  lightmaps : list lightmap;
  info : option obj;
  vertices : list vec3;
  edges : list (Z * Z);
  surfedges : list Z;
  faces : list face;
  texinfo : list texinfo_t }.

Definition empty : wmb :=
  {| w_version := None; w_header_version := None; w_lists := []; textures := []; materials := []; blocks := []; objects := []; lightmaps := []; info := None; vertices := []; edges := []; surfedges := []; faces := []; texinfo := [] |}.

Definition set_w_version (w : wmb) (x : option bytes) : wmb :=
  {| w_version := x; w_header_version := w_header_version w; w_lists := w_lists w; textures := textures w; materials := materials w; blocks := blocks w; objects := objects w; lightmaps := lightmaps w; info := info w; vertices := vertices w; edges := edges w; surfedges := surfedges w; faces := faces w; texinfo := texinfo w |}.
Definition set_w_header_version (w : wmb) (x : option bytes) : wmb :=
  {| w_version := w_version w; w_header_version := x; w_lists := w_lists w; textures := textures w; materials := materials w; blocks := blocks w; objects := objects w; lightmaps := lightmaps w; info := info w; vertices := vertices w; edges := edges w; surfedges := surfedges w; faces := faces w; texinfo := texinfo w |}.
Definition set_w_lists (w : wmb) (x : list (string * lump)) : wmb :=
  {| w_version := w_version w; w_header_version := w_header_version w; w_lists := x; textures := textures w; materials := materials w; blocks := blocks w; objects := objects w; lightmaps := lightmaps w; info := info w; vertices := vertices w; edges := edges w; surfedges := surfedges w; faces := faces w; texinfo := texinfo w |}.
Definition set_textures (w : wmb) (x : list texture) : wmb :=
  {| w_version := w_version w; w_header_version := w_header_version w; w_lists := w_lists w; textures := x; materials := materials w; blocks := blocks w; objects := objects w; lightmaps := lightmaps w; info := info w; vertices := vertices w; edges := edges w; surfedges := surfedges w; faces := faces w; texinfo := texinfo w |}.
Definition set_materials (w : wmb) (x : list bytes) : wmb :=
  {| w_version := w_version w; w_header_version := w_header_version w; w_lists := w_lists w; textures := textures w; materials := x; blocks := blocks w; objects := objects w; lightmaps := lightmaps w; info := info w; vertices := vertices w; edges := edges w; surfedges := surfedges w; faces := faces w; texinfo := texinfo w |}.
Definition set_blocks (w : wmb) (x : list block) : wmb :=
  {| w_version := w_version w; w_header_version := w_header_version w; w_lists := w_lists w; textures := textures w; materials := materials w; blocks := x; objects := objects w; lightmaps := lightmaps w; info := info w; vertices := vertices w; edges := edges w; surfedges := surfedges w; faces := faces w; texinfo := texinfo w |}.
Definition set_objects (w : wmb) (x : list obj) : wmb :=
  {| w_version := w_version w; w_header_version := w_header_version w; w_lists := w_lists w; textures := textures w; materials := materials w; blocks := blocks w; objects := x; lightmaps := lightmaps w; info := info w; vertices := vertices w; edges := edges w; surfedges := surfedges w; faces := faces w; texinfo := texinfo w |}.
Definition set_lightmaps (w : wmb) (x : list lightmap) : wmb :=
  {| w_version := w_version w; w_header_version := w_header_version w; w_lists := w_lists w; textures := textures w; materials := materials w; blocks := blocks w; objects := objects w; lightmaps := x; info := info w; vertices := vertices w; edges := edges w; surfedges := surfedges w; faces := faces w; texinfo := texinfo w |}.
Definition set_info (w : wmb) (x : option obj) : wmb :=
  {| w_version := w_version w; w_header_version := w_header_version w; w_lists := w_lists w; textures := textures w; materials := materials w; blocks := blocks w; objects := objects w; lightmaps := lightmaps w; info := x; vertices := vertices w; edges := edges w; surfedges := surfedges w; faces := faces w; texinfo := texinfo w |}.
Definition set_vertices (w : wmb) (x : list vec3) : wmb :=
  {| w_version := w_version w; w_header_version := w_header_version w; w_lists := w_lists w; textures := textures w; materials := materials w; blocks := blocks w; objects := objects w; lightmaps := lightmaps w; info := info w; vertices := x; edges := edges w; surfedges := surfedges w; faces := faces w; texinfo := texinfo w |}.
Definition set_edges (w : wmb) (x : list (Z * Z)) : wmb :=
  {| w_version := w_version w; w_header_version := w_header_version w; w_lists := w_lists w; textures := textures w; materials := materials w; blocks := blocks w; objects := objects w; lightmaps := lightmaps w; info := info w; vertices := vertices w; edges := x; surfedges := surfedges w; faces := faces w; texinfo := texinfo w |}.
Definition set_surfedges (w : wmb) (x : list Z) : wmb :=
  {| w_version := w_version w; w_header_version := w_header_version w; w_lists := w_lists w; textures := textures w; materials := materials w; blocks := blocks w; objects := objects w; lightmaps := lightmaps w; info := info w; vertices := vertices w; edges := edges w; surfedges := x; faces := faces w; texinfo := texinfo w |}.
Definition set_faces (w : wmb) (x : list face) : wmb :=
  {| w_version := w_version w; w_header_version := w_header_version w; w_lists := w_lists w; textures := textures w; materials := materials w; blocks := blocks w; objects := objects w; lightmaps := lightmaps w; info := info w; vertices := vertices w; edges := edges w; surfedges := surfedges w; faces := x; texinfo := texinfo w |}.
Definition set_texinfo (w : wmb) (x : list texinfo_t) : wmb :=
  {| w_version := w_version w; w_header_version := w_header_version w; w_lists := w_lists w; textures := textures w; materials := materials w; blocks := blocks w; objects := objects w; lightmaps := lightmaps w; info := info w; vertices := vertices w; edges := edges w; surfedges := surfedges w; faces := faces w; texinfo := x |}.

Fixpoint assoc (k : string) (l : list (string * lump)) : option lump :=
  match l with
  | [] => None
  | (k', v) :: l' => if String.eqb k k' then Some v else assoc k l'
  end.

(** [self.header['lists'][name]]. *)
Definition get_lump (w : wmb) (name : string) : res lump :=
  match assoc name (w_lists w) with
  | Some l => Ok l
  | None => Err KeyError
  end.

Definition len (data : bytes) : Z := Z.of_nat (List.length data).

Definition version_is (w : wmb) (t : string) : bool :=
  match w_version w with Some v => bytes_eqb v (tag t) | None => false end.

Definition mk_texture (name : bytes) (width height tex_type : Z)
    (fmt : string) (d : option bytes) : texture :=
  {| t_name := name; t_width := width; t_height := height; t_type := tex_type;
     t_data := d; t_format := fmt |}.

(** One texture of [_load_textures] (lines 299-366). *)
Definition texture_at (data : bytes) (w : wmb) (base tex_off : Z) : res texture :=
  let abs_offset := base + tex_off in
  let* nm := unpack_from [Fs 16] data abs_offset in
  let name := strip_nul (bytes_at nm 0) in
  let* wht := unpack_from [FI; FI; FI] data (abs_offset + 16) in
  let width := int_at wht 0 in
  let height := int_at wht 1 in
  let tex_type := int_at wht 2 in
  let abs_offset := abs_offset + 16 + 4 * 4 in
  let mk := mk_texture name width height tex_type in
  let px size := Some (slice data abs_offset (abs_offset + size)) in
  if version_is w "WMB4" || version_is w "WMB6" then
    if existsb (Z.eqb tex_type) [40; 8; 2] then
      Ok (mk "rgb565" (px (width * height * 2)))
    else if existsb (Z.eqb tex_type) [48; 16; 4] then
      Ok (mk "rgb888" (px (width * height * 3)))
    else if existsb (Z.eqb tex_type) [56; 24; 5] then
      Ok (mk "rgba8888" (px (width * height * 4)))
    else
      let* lg := unpack_from [FI] data (abs_offset - 12) in
      let legacy := int_at lg 0 in
      let expected_16bit := width * height * 2 + 40 in
      if (legacy =? expected_16bit) || (Z.abs (legacy - expected_16bit) <? 100) then
        Ok (mk "rgb565" (px (width * height * 2)))
      else Ok (mk "unknown" None)
  else
    let base_type := Z.land tex_type 7 in
    if base_type =? 6 then Ok (mk "dds" (px width))
    else if base_type =? 5 then Ok (mk "rgba8888" (px (width * height * 4)))
    else if base_type =? 4 then Ok (mk "rgb888" (px (width * height * 3)))
    else if base_type =? 2 then Ok (mk "rgb565" (px (width * height * 2)))
    else if base_type =? 0 then Ok (mk "palette8" (px (width * height)))
    else Ok (mk "unknown" None).

(** [count] u32 values from [offset] on (the offset tables of textures and
    objects). *)
Definition read_offsets (data : bytes) (count offset : Z) : res (list Z * Z) :=
  for_each (fun _ s => let '(acc, o) := s in
                       let* t := unpack_from [FI] data o in
                       Ok (acc ++ [int_at t 0], o + 4))
    (range count) ([], offset).

(** [_load_textures] (lines 282-369). *)
Definition load_textures (data : bytes) (w : wmb) : res wmb :=
  let* tex_list := get_lump w "textures" in
  if l_length tex_list =? 0 then Ok w else
  let offset := l_offset tex_list in
  let* n := unpack_from [FI] data offset in
  let num_textures := int_at n 0 in
  let* r := read_offsets data num_textures (offset + 4) in
  let tex_offsets := fst r in
  for_each (fun tex_off w =>
              let* t := texture_at data w (l_offset tex_list) tex_off in
              Ok (set_textures w (textures w ++ [t])))
    tex_offsets w.

(** [_load_materials] (lines 371-383). *)
Definition load_materials (data : bytes) (w : wmb) : res wmb :=
  let* mat_list := get_lump w "materials" in
  if l_length mat_list =? 0 then Ok w else
  let num_materials := l_length mat_list / 64 in
  let* r := for_each (fun _ s => let '(w, o) := s in
              let* nm := unpack_from [Fs 20] data (o + 44) in
              Ok (set_materials w (materials w ++ [strip_nul (bytes_at nm 0)]), o + 64))
            (range num_materials) (w, l_offset mat_list) in
  Ok (fst r).

Definition lm_size : Z := 1024 * 1024 * 3.

(** [_load_lightmaps] (lines 385-402). *)
Definition load_lightmaps (data : bytes) (w : wmb) : res wmb :=
  let* lm_list := get_lump w "lightmaps" in
  if l_length lm_list =? 0 then Ok w else
  let num_lightmaps := l_length lm_list / lm_size in
  let* r := for_each (fun _ s => let '(w, o) := s in
              let lm := {| lm_width := 1024; lm_height := 1024;
                           lm_data := slice data o (o + lm_size) |} in
              Ok (set_lightmaps w (lightmaps w ++ [lm]), o + lm_size))
            (range num_lightmaps) (w, l_offset lm_list) in
  Ok (fst r).

Definition float_pair (vs : list pyval) (i : nat) : float * float :=
  (float_at vs i, float_at vs (i + 1)).

(** One block of [_load_blocks] (lines 416-464). *)
Definition block_at (data : bytes) (_ : Z) (s : wmb * Z) : res (wmb * Z) :=
  let '(w, off) := s in
  let* bd := unpack_from (rep 6 Ff ++ rep 4 FI) data off in
  let off := off + 40 in
  let nv := int_at bd 7 in
  let nt := int_at bd 8 in
  let ns := int_at bd 9 in
  let* rv := for_each (fun _ s => let '(acc, o) := s in
               let* v := unpack_from (rep 7 Ff) data o in
               Ok (acc ++ [{| bv_pos := vec3_at v 0; bv_uv := float_pair v 3;
                              bv_lm_uv := float_pair v 5 |}], o + 28))
             (range nv) ([], off) in
  let '(verts, off) := rv in
  let* rt := for_each (fun _ s => let '(acc, o) := s in
               let* t := unpack_from [Fh; Fh; Fh; Fh; FI] data o in
               Ok (acc ++ [{| bt_indices := (int_at t 0, int_at t 1, int_at t 2);
                              bt_skin := int_at t 3 |}], o + 12))
             (range nt) ([], off) in
  let '(tris, off) := rt in
  let* rs := for_each (fun _ s => let '(acc, o) := s in
               let* a := unpack_from [Fh; Fh; FI] data o in
               let* b := unpack_from [Ff; Ff] data (o + 8) in
               let* c := unpack_from [FI] data (o + 16) in
               Ok (acc ++ [{| bs_texture := int_at a 0; bs_lightmap := int_at a 1;
                              bs_material := int_at a 2; bs_ambient := float_at b 0;
                              bs_albedo := float_at b 1; bs_flags := int_at c 0 |}],
                   o + 20))
             (range ns) ([], off) in
  let '(sks, off) := rs in
  let blk := {| b_mins := vec3_at bd 0; b_maxs := vec3_at bd 3;
                b_content := int_at bd 6; b_num_verts := nv; b_num_tris := nt;
                b_num_skins := ns; b_vertices := verts; b_triangles := tris;
                b_skins := sks |} in
  Ok (set_blocks w (blocks w ++ [blk]), off).

(** [_load_blocks] (lines 404-464); it looks the lump up with [.get]. *)
Definition load_blocks (data : bytes) (w : wmb) : res wmb :=
  match assoc "blocks" (w_lists w) with
  | None => Ok w
  | Some blk_list =>
      if (l_length blk_list =? 0) || (l_offset blk_list >=? len data) then Ok w
      else
        let offset := l_offset blk_list in
        let* n := unpack_from [FI] data offset in
        let* r := for_each (block_at data) (range (int_at n 0)) (w, offset + 4) in
        Ok (fst r)
  end.

Definition str_at (data : bytes) (n : nat) (o : Z) : res bytes :=
  let* v := unpack_from [Fs n] data o in Ok (strip_nul (bytes_at v 0)).
Definition vec3_from (data : bytes) (o : Z) : res vec3 :=
  let* v := unpack_from [Ff; Ff; Ff] data o in Ok (vec3_at v 0).
Definition f_from (data : bytes) (o : Z) : res float :=
  let* v := unpack_from [Ff] data o in Ok (float_at v 0).

(** The type-specific fields of one object record (lines 489-524). *)
Definition object_kind (data : bytes) (obj_type abs_offset : Z) : res obj_kind :=
  if obj_type =? 5 then
    let* origin := vec3_from data (abs_offset + 4) in
    let* ae := unpack_from [Ff; Ff] data (abs_offset + 16) in
    Ok (ObjInfo origin (float_at ae 0) (float_at ae 1))
  else if obj_type =? 1 then
    let* origin := vec3_from data (abs_offset + 4) in
    let* angle := vec3_from data (abs_offset + 16) in
    let* nm := str_at data 20 (abs_offset + 36) in
    Ok (ObjPosition origin angle nm)
  else if obj_type =? 2 then
    let* origin := vec3_from data (abs_offset + 4) in
    let* color := vec3_from data (abs_offset + 16) in
    let* rng := f_from data (abs_offset + 28) in
    Ok (ObjLight origin color rng)
  else if obj_type =? 3 then
    let* origin := vec3_from data (abs_offset + 4) in
    let* angle := vec3_from data (abs_offset + 16) in
    let* scale := vec3_from data (abs_offset + 28) in
    let* ent := str_at data 20 (abs_offset + 40) in
    let* fname := str_at data 13 (abs_offset + 60) in
    Ok (ObjOldEntity origin angle scale ent fname)
  else if obj_type =? 7 then
    let* origin := vec3_from data (abs_offset + 4) in
    let* angle := vec3_from data (abs_offset + 16) in
    let* scale := vec3_from data (abs_offset + 28) in
    let* ent := str_at data 33 (abs_offset + 40) in
    let* fname := str_at data 33 (abs_offset + 73) in
    Ok (ObjEntity origin angle scale ent fname)
  else Ok ObjUnknown.

(** [enumerate(xs)]. *)
Definition enumerate {A} (xs : list A) : list (Z * A) :=
  combine (map Z.of_nat (seq 0 (List.length xs))) xs.

(** One iteration of the object loop (lines 483-526). *)
Definition object_at (data : bytes) (base : Z) (p : Z * Z) (w : wmb) : res wmb :=
  let '(i, obj_off) := p in
  let abs_offset := base + obj_off in
  let* t := unpack_from [FI] data abs_offset in
  let obj_type := int_at t 0 in
  let* k := object_kind data obj_type abs_offset in
  let ob := {| o_type := obj_type; o_index := i; o_kind := k |} in
  let w := if obj_type =? 5 then set_info w (Some ob) else w in
  Ok (set_objects w (objects w ++ [ob])).

(** [_load_objects] (lines 466-526). *)
Definition load_objects (data : bytes) (w : wmb) : res wmb :=
  let* obj_list := get_lump w "objects" in
  if l_length obj_list =? 0 then Ok w else
  let offset := l_offset obj_list in
  let* n := unpack_from [FI] data offset in
  let num_objects := int_at n 0 in
  let* r := read_offsets data num_objects (offset + 4) in
  let obj_offsets := fst r in
  for_each (object_at data (l_offset obj_list)) (enumerate obj_offsets) w.

(** [_load_wmb6_texinfo] (lines 120-148). *)
Definition load_wmb6_texinfo (data : bytes) (w : wmb) : res wmb :=
  let* mat_list := get_lump w "materials" in
  if l_length mat_list =? 0 then Ok w else
  let num_texinfo := l_length mat_list / 64 in
  let* r := for_each (fun _ s => let '(w, o) := s in
              let* s_vec := vec3_from data o in
              let* s_off := f_from data (o + 12) in
              let* t_vec := vec3_from data (o + 16) in
              let* t_off := f_from data (o + 28) in
              let* tf := unpack_from [FI; FI] data (o + 32) in
              let ti := {| ti_s_vec := s_vec; ti_s_off := s_off; ti_t_vec := t_vec;
                           ti_t_off := t_off; ti_texture := int_at tf 0;
                           ti_flags := int_at tf 1 |} in
              Ok (set_texinfo w (texinfo w ++ [ti]), o + 64))
            (range num_texinfo) (w, l_offset mat_list) in
  Ok (fst r).

(** [_load_wmb6_vertices] (lines 150-163). *)
Definition load_wmb6_vertices (data : bytes) (w : wmb) : res wmb :=
  let* vert_list := get_lump w "vertices" in
  if l_length vert_list =? 0 then Ok w else
  let num_verts := l_length vert_list / 12 in
  let* r := for_each (fun _ s => let '(w, o) := s in
              let* v := vec3_from data o in
              Ok (set_vertices w (vertices w ++ [v]), o + 12))
            (range num_verts) (w, l_offset vert_list) in
  Ok (fst r).

(** [_load_wmb6_edges] (lines 165-178). *)
Definition load_wmb6_edges (data : bytes) (w : wmb) : res wmb :=
  let* edge_list := get_lump w "edges" in
  if l_length edge_list =? 0 then Ok w else
  let num_edges := (l_length edge_list - 8) / 8 in
  let* r := for_each (fun _ s => let '(w, o) := s in
              let* e := unpack_from [FI; FI] data o in
              Ok (set_edges w (edges w ++ [(int_at e 0, int_at e 1)]), o + 8))
            (range num_edges) (w, l_offset edge_list + 8) in
  Ok (fst r).

(** [_load_wmb6_surfedges] (lines 180-195). *)
Definition load_wmb6_surfedges (data : bytes) (w : wmb) : res wmb :=
  let* surfedge_list := get_lump w "skins" in
  if l_length surfedge_list =? 0 then Ok w else
  let num_surfedges := l_length surfedge_list / 4 in
  let* r := for_each (fun _ s => let '(w, o) := s in
              let* v := unpack_from [Fi] data o in
              Ok (set_surfedges w (surfedges w ++ [int_at v 0]), o + 4))
            (range num_surfedges) (set_surfedges w [], l_offset surfedge_list) in
  Ok (fst r).

(** The vertex loop of one face (lines 223-242): walk [num_verts]
    surfedges from [first_surfedge], skipping out-of-range surfedges and
    edges. *)
Definition face_step (surfedges : list Z) (edges : list (Z * Z))
    (first_surfedge : Z) (face_verts : list Z) (e : Z) : list Z :=
  let surfedge_idx := first_surfedge + e in
  if surfedge_idx >=? Z.of_nat (List.length surfedges) then face_verts else
  let surfedge := nth (Z.to_nat surfedge_idx) surfedges 0 in
  let edge_idx := Z.abs surfedge - 1 in
  if (edge_idx <? 0) || (edge_idx >=? Z.of_nat (List.length edges)) then face_verts else
  let '(v1, v2) := nth (Z.to_nat edge_idx) edges (0, 0) in
  let '(v1, v2) := if surfedge <? 0 then (v2, v1) else (v1, v2) in
  let face_verts := if Nat.eqb (List.length face_verts) 0 then face_verts ++ [v1]
                    else face_verts in
  face_verts ++ [v2].

Definition face_vertices (surfedges : list Z) (edges : list (Z * Z))
    (first_surfedge num_verts : Z) : list Z :=
  fold_left (face_step surfedges edges first_surfedge) (range num_verts) [].

(** One face record (lines 211-252). *)
Definition face_at (data : bytes) (_ : Z) (s : wmb * Z) : res (wmb * Z) :=
  let '(w, o) := s in
  let* vals := unpack_from (rep 6 FI) data o in
  let flags := int_at vals 0 in
  let first_surfedge := int_at vals 1 in
  let tex_info := int_at vals 2 in
  let skin := int_at vals 5 in
  let num_verts := Z.land tex_info 65535 in
  let tex_idx := Z.land (Z.shiftr tex_info 16) 65535 in
  let fv := face_vertices (surfedges w) (edges w) first_surfedge num_verts in
  let f := {| f_flags := flags; f_first_edge := first_surfedge;
              f_num_verts := num_verts; f_tex_idx := tex_idx; f_skin := skin;
              f_vertices := fv |} in
  Ok (set_faces w (faces w ++ [f]), o + 24).

(** [_load_wmb6_faces] (lines 197-252). *)
Definition load_wmb6_faces (data : bytes) (w : wmb) : res wmb :=
  let* face_list := get_lump w "faces" in
  if l_length face_list =? 0 then Ok w else
  let* w := load_wmb6_surfedges data w in
  let num_faces := l_length face_list / 24 in
  let* r := for_each (face_at data) (range num_faces) (w, l_offset face_list) in
  Ok (fst r).

(** The list directory (e.g. lines 49-57). *)
Definition read_directory (names : list string) (data : bytes) (w : wmb) : res wmb :=
  let w := set_w_header_version w (w_version w) in
  let w := set_w_lists w [] in
  let* r := for_each (fun name s => let '(w, o) := s in
              let* p := unpack_from [FI; FI] data o in
              Ok (set_w_lists w (w_lists w ++
                    [(name, {| l_offset := int_at p 0; l_length := int_at p 1 |})]),
                  o + 8))
            names (w, 4) in
  Ok (fst r).

Definition wmb4_names : list string :=
  ["list0"; "palettes"; "textures"; "vertices"; "pvs";
   "bsp_nodes"; "materials"; "faces"; "list8"; "aabb_hulls";
   "bsp_leafs"; "bsp_blocks"; "edges"; "skins"; "info"; "objects"].

Definition wmb6_names : list string :=
  ["list0"; "palettes"; "textures"; "vertices"; "pvs";
   "bsp_nodes"; "materials"; "faces"; "legacy4"; "aabb_hulls";
   "bsp_leafs"; "bsp_blocks"; "edges"; "skins"; "legacy7";
   "objects"; "lightmaps"].

Definition wmb7_names : list string :=
  ["palettes"; "legacy1"; "textures"; "legacy2"; "pvs";
   "bsp_nodes"; "materials"; "legacy3"; "legacy4"; "aabb_hulls";
   "bsp_leafs"; "bsp_blocks"; "legacy5"; "legacy6"; "legacy7";
   "objects"; "lightmaps"; "blocks"; "legacy8"; "lightmaps_terrain"].

(** The readers run after the directory by [_load_wmb4] / [_load_wmb6]
    (lines 60-75, 101-116). *)
Definition load_wmb46_body (data : bytes) (w : wmb) : res wmb :=
  let* w := load_textures data w in
  let* w := load_wmb6_texinfo data w in
  let* w := load_wmb6_vertices data w in
  let* w := load_wmb6_edges data w in
  let* w := load_wmb6_faces data w in
  load_objects data w.

Definition load_wmb4 (data : bytes) (w : wmb) : res wmb :=
  let* w := read_directory wmb4_names data w in load_wmb46_body data w.

Definition load_wmb6 (data : bytes) (w : wmb) : res wmb :=
  let* w := read_directory wmb6_names data w in load_wmb46_body data w.

(** [_load_wmb7] (lines 254-280). *)
Definition load_wmb7 (data : bytes) (w : wmb) : res wmb :=
  let* w := read_directory wmb7_names data w in
  let* w := load_textures data w in
  let* w := load_materials data w in
  let* w := load_lightmaps data w in
  let* w := load_blocks data w in
  load_objects data w.

(** [WMB.load] on the file contents (lines 21-36). *)
Definition load (data : bytes) (w : wmb) : res wmb :=
  let* v := unpack_from [Fs 4] data 0 in
  let w := set_w_version w (Some (bytes_at v 0)) in
  if version_is w "WMB7" then load_wmb7 data w
  else if version_is w "WMB6" then load_wmb6 data w
  else if version_is w "WMB4" then load_wmb4 data w
  else Ok w.

End Wmb.

(* ------------------------------------------------------------------ *)
(** ** Building sample files *)

Module Enc.

(** Little-endian encoding of an unsigned [n]-byte value. *)
Fixpoint le (n : nat) (z : Z) : bytes :=
  match n with
  | O => []
  | S n' => match Byte.of_N (Z.to_N (z mod 256)) with
            | Some b => b :: le n' (z / 256)
            | None => []
            end
  end.

Definition u16 (z : Z) : bytes := le 2 (z mod 2 ^ 16).
Definition u32 (z : Z) : bytes := le 4 (z mod 2 ^ 32).
Definition ub (z : Z) : bytes := le 1 z.
Definition zeros (n : nat) : bytes := repeat Byte.x00 n.

(** binary32 bits of a few small floats used in samples. *)
Definition f32_bits_0 : Z := 0.
Definition f32_bits_1 : Z := 1065353216.   (* 1.0 = 0x3F800000 *)
Definition f32_bits_2 : Z := 1073741824.   (* 2.0 = 0x40000000 *)

End Enc.

(** ** Sample files *)

Module Samples.

Import Enc.

(** IDPO header: scale (2,2,2), translate (0,0,0), with counts
    [ns] skins of [sw] x [sh], [nv] vertices, [nt] triangles, [nf] frames. *)
Definition idpo_hdr (ns sw sh nv nt nf : Z) : bytes :=
  tag "IDPO" ++ u32 6
  ++ u32 f32_bits_2 ++ u32 f32_bits_2 ++ u32 f32_bits_2
  ++ zeros 12 ++ zeros 4 ++ zeros 12
  ++ u32 ns ++ u32 sw ++ u32 sh ++ u32 nv ++ u32 nt ++ u32 nf
  ++ u32 0 ++ u32 0 ++ zeros 4.

(** A simple frame (type 0) with the given packed vertex bytes. *)
Definition simple_frame (packed : bytes) : bytes :=
  u32 0 ++ zeros 8 ++ tag "frame1" ++ zeros 10 ++ packed.

(** One vertex packed as (10, 20, 30, 0), one frame. *)
Definition idpo_one_vertex : bytes :=
  idpo_hdr 0 0 0 1 0 1 ++ zeros 12 ++ simple_frame (ub 10 ++ ub 20 ++ ub 30 ++ ub 0).

(** One 2x2 8-bit skin and nothing else. *)
Definition idpo_one_skin : bytes :=
  idpo_hdr 1 2 2 0 0 0 ++ u32 0 ++ ub 1 ++ ub 2 ++ ub 3 ++ ub 4.

(** Two frames declared: a simple one, then a group frame (type 1). *)
Definition idpo_group_frame : bytes :=
  idpo_hdr 0 0 0 1 0 2 ++ zeros 12 ++ simple_frame (ub 10 ++ ub 20 ++ ub 30 ++ ub 0)
  ++ u32 1 ++ zeros 64.

(** Two 2x2 skins declared: type 9 (unknown), then type 0. *)
Definition idpo_unknown_skin : bytes :=
  idpo_hdr 2 2 2 0 0 0 ++ u32 9 ++ u32 0 ++ ub 1 ++ ub 2 ++ ub 3 ++ ub 4.

(** MDL7 header with [groups] groups and structure sizes
    skin 28, skinpoint 8, triangle 26, mainvertex 16, framevertex 16,
    frame 24. *)
Definition mdl7_hdr (groups : Z) : bytes :=
  tag "MDL7" ++ u32 0 ++ u32 0 ++ u32 groups ++ zeros 12
  ++ u16 0 ++ u16 28 ++ u16 0 ++ u16 0 ++ u16 8 ++ u16 26 ++ u16 16 ++ u16 16
  ++ u16 0 ++ u16 24.

(** An MDL7 group with [nv] main vertices, the given triangles and [nf]
    frames (whose bytes follow). *)
Definition mdl7_group_bytes (nv : Z) (tris : list (Z * Z * Z)) (nf : Z)
    (frames : bytes) : bytes :=
  zeros 8 ++ zeros 16 ++ u32 0 ++ u32 0 ++ u32 (Z.of_nat (List.length tris))
  ++ u32 nv ++ u32 nf
  ++ List.concat (map (fun t => let '(a, b, c) := t in
                        u16 a ++ u16 b ++ u16 c ++ zeros 20) tris)
  ++ List.concat (repeat (zeros 16) (Z.to_nat nv)) ++ frames.

(** Two groups with 5 and 7 vertices, one triangle each. *)
Definition mdl7_two_groups : bytes :=
  mdl7_hdr 2 ++ mdl7_group_bytes 5 [(0, 1, 2)] 0 []
             ++ mdl7_group_bytes 7 [(0, 3, 6)] 0 [].

(** One group whose signed vertex count is -1, with one frame carrying one
    frame-vertex record (vertindex 0). *)
Definition mdl7_negative_count : bytes :=
  mdl7_hdr 1 ++ mdl7_group_bytes (-1) [] 1 (zeros 16 ++ u32 1 ++ u32 0 ++ zeros 16).

Definition directory (ls : list (Z * Z)) : bytes :=
  List.concat (map (fun p => u32 (fst p) ++ u32 (snd p)) ls).

(** A WMB6 file: 4 edges of the quad 0-1-2-3, the given 4 surfedges, one
    face record declaring [nv] vertices from surfedge 0, and one object of
    type code 99. *)
Definition wmb6_quad (surf : list Z) (nv : Z) : bytes :=
  tag "WMB6"
  ++ directory [(0, 0); (0, 0); (0, 0); (0, 0); (0, 0); (0, 0); (0, 0);
                (196, 24); (0, 0); (0, 0); (0, 0); (0, 0); (140, 40);
                (180, 16); (0, 0); (220, 12); (0, 0)]
  ++ zeros 8 ++ u32 0 ++ u32 1 ++ u32 1 ++ u32 2 ++ u32 2 ++ u32 3 ++ u32 3 ++ u32 0
  ++ List.concat (map u32 surf)
  ++ u32 0 ++ u32 0 ++ u32 nv ++ u32 0 ++ u32 0 ++ u32 0
  ++ u32 1 ++ u32 8 ++ u32 99.

(** A WMB state whose directory lists every named lump as empty. *)
Definition all_lumps_empty : Wmb.wmb :=
  Wmb.set_w_lists Wmb.empty
    (map (fun n => (n, {| Wmb.l_offset := 0; Wmb.l_length := 0 |}))
         (Wmb.wmb7_names ++ ["vertices"; "faces"; "edges"; "skins"]%string)).

(** The state of [_load_mdl7] just before its group loop. *)
Definition mdl7_start (data : bytes) : Mdl.acc7 :=
  let h := Mdl.mdl7_header_of
             (match unpack_from Mdl.mdl7_header_fmt data 0 with
              | Ok u => u | Err _ => [] end) in
  {| Mdl.a_m := Mdl.empty; Mdl.a_hdr := h;
     Mdl.a_off := calcsize Mdl.mdl7_header_fmt
                  + Mdl.h7_bones_num h * Mdl.h7_bone_stc_size h;
     Mdl.all_skinverts := []; Mdl.all_triangles := [];
     Mdl.vertex_offset := 0; Mdl.skinvert_offset := 0 |}.

End Samples.

(* ------------------------------------------------------------------ *)
(** ** [src/mdl_loader.py]: the earlier, IDPO-only class [MDL] *)

(** Its [MDL] object has the fields [header], [skins], [texcoords],
    [triangles] and [frames] of [Mdl.mdl]; it never touches [skinverts].
    The header format and the texture-coordinate, triangle and frame
    loops are those of [Mdl] (lines 19-40, 93-98, 102-107, 110-163). *)
Module OldMdl.

Import Mdl.

(** Body of the skin loop (lines 47-89). *)
Definition old_skin (data : bytes) (h : qheader) (_ : Z) (s : mdl * Z)
  : res (mdl * Z) :=
  let '(m, off) := s in
  let* vs := unpack_from [FI] data off in
  let group := int_at vs 0 in
  let off := off + 4 in
  if group =? 0 then
    let width := q_skinwidth h in
    let height := q_skinheight h in
    Ok (single_skin data "single_8bit"%string (width * height) (m, off))
  else if group =? 2 then
    let width := q_skinwidth h in
    let height := q_skinheight h in
    Ok (single_skin data "single_16bit"%string (width * height * 2) (m, off))
  else
    let* vs := unpack_from [FI] data off in
    let nb := int_at vs 0 in
    let off := off + 4 in
    let* tvs := unpack_from (rep (Z.to_nat nb) Ff) data off in
    let times := floats_of tvs in
    let off := off + nb * 4 in
    let width := q_skinwidth h in
    let height := q_skinheight h in
    let size := width * height in
    let* gs := for_each (fun _ '(acc, o) => Ok (acc ++ [slice data o (o + size)], o + size))
                 (range nb) ([], off) in
    let '(group_skins, off) := gs in
    Ok (add_skin m (SkinGroup times group_skins), off).

(** [MDL.load] on the file contents (lines 12-167); a non-IDPO ident
    returns right after the header is stored. *)
Definition load (data : bytes) (m : mdl) : res mdl :=
  let* u := unpack_from idpo_header_fmt data 0 in
  let off := calcsize idpo_header_fmt in
  let h := idpo_header_of u in
  let m := set_header m (HdrQuake h) in
  if negb (bytes_eqb (q_ident h) (tag "IDPO")) then Ok m else
  let* s := for_each (old_skin data h) (range (q_num_skins h)) (m, off) in
  let* s := for_each (idpo_texcoord data) (range (q_num_verts h)) s in
  let* s := for_each (idpo_triangle data) (range (q_num_tris h)) s in
  let '(m, off) := s in
  let* r := load_frames_idpo data h m off in
  Ok (fst r).

End OldMdl.

(* ------------------------------------------------------------------ *)
(** ** [src/viewer/wmb_viewer.py]: [WMBViewer.triangulate_faces] *)

(** The fan triangulation of the loaded WMB6 faces (lines 167-217); it
    reads [self.wmb.faces], [.texinfo] and [.vertices] only.  The integer
    defaults [(0, 0, 0)], [(0, 0)], [(1, 0, 0)] and [0] are written as the
    floats they take part in arithmetic as. *)
Module Viewer.

Import Wmb.

Record tri := {
  tr_vertices : list vec3; tr_uvs : list (float * float);
  tr_texture : Z; tr_flags : Z }.

(** [xs[i]] on a Python list: negative [i] counts from the end. *)
Definition py_index {A} (xs : list A) (i : Z) : res A :=
  let i' := if i <? 0 then Z.of_nat (List.length xs) + i else i in
  if i' <? 0 then Err IndexError else
  match nth_error xs (Z.to_nat i') with Some x => Ok x | None => Err IndexError end.

Definition fzero : float := float_of_Z 0.
Definition fone : float := float_of_Z 1.

(** [a[0] * b[0] + a[1] * b[1] + a[2] * b[2] + off]. *)
Definition dot_off (a b : vec3) (off : float) : float :=
  let '(a0, a1, a2) := a in
  let '(b0, b1, b2) := b in
  fadd (fadd (fadd (fmul a0 b0) (fmul a1 b1)) (fmul a2 b2)) off.

(** Lines 176-190: the texinfo of a face, or the defaults. *)
Definition face_texinfo (w : wmb) (f : face) : res (Z * vec3 * float * vec3 * float) :=
  let texinfo_idx := f_tex_idx f in
  if texinfo_idx <? Z.of_nat (List.length (texinfo w)) then
    let* ti := py_index (texinfo w) texinfo_idx in
    Ok (ti_texture ti, ti_s_vec ti, ti_s_off ti, ti_t_vec ti, ti_t_off ti)
  else Ok (0, (fone, fzero, fzero), fzero, (fzero, fone, fzero), fzero).

(** Lines 192-206: positions and UVs of the face's vertices. *)
Definition face_positions (w : wmb) (s_vec : vec3) (s_off : float) (t_vec : vec3)
    (t_off : float) (verts : list Z) : res (list vec3 * list (float * float)) :=
  for_each (fun v_idx acc => let '(positions, uvs) := acc in
              if v_idx <? Z.of_nat (List.length (vertices w)) then
                let* pos := py_index (vertices w) v_idx in
                Ok (positions ++ [pos], uvs ++ [(dot_off pos s_vec s_off, dot_off pos t_vec t_off)])
              else Ok (positions ++ [(fzero, fzero, fzero)], uvs ++ [(fzero, fzero)]))
    verts ([], []).

(** The triangles of one face (lines 172-215). *)
Definition face_triangles (w : wmb) (f : face) : res (list tri) :=
  let verts := f_vertices f in
  if Nat.ltb (List.length verts) 3 then Ok [] else
  let* ti := face_texinfo w f in
  let '(actual_tex, s_vec, s_off, t_vec, t_off) := ti in
  let* pu := face_positions w s_vec s_off t_vec t_off verts in
  let '(positions, uvs) := pu in
  Ok (map (fun i => {| tr_vertices := [nth 0 positions (fzero, fzero, fzero);
                                       nth i positions (fzero, fzero, fzero);
                                       nth (S i) positions (fzero, fzero, fzero)];
                       tr_uvs := [nth 0 uvs (fzero, fzero); nth i uvs (fzero, fzero);
                                  nth (S i) uvs (fzero, fzero)];
                       tr_texture := actual_tex; tr_flags := f_flags f |})
          (seq 1 (List.length positions - 2))).

Definition triangulate_faces (w : wmb) : res (list tri) :=
  for_each (fun f triangles => let* ts := face_triangles w f in Ok (triangles ++ ts))
    (faces w) [].

End Viewer.

(* ------------------------------------------------------------------ *)
(** ** Further sample inputs and helper notions *)

Module ExtraDefs.

Import Enc.

(** Fields of a model other than the skins. *)
Definition non_skin (m : Mdl.mdl) :=
  (Mdl.header m, Mdl.texcoords m, Mdl.skinverts m, Mdl.triangles m, Mdl.frames m).

(** MDL3 file: scale (1,1,1), one 2x2 skin of type 1 (unknown type,
    kept as 8-bit), one skin vertex, one triangle and one byte-packed
    frame of one vertex. *)
Definition mdl3_sample : bytes :=
  tag "MDL3" ++ u32 0
  ++ u32 f32_bits_1 ++ u32 f32_bits_1 ++ u32 f32_bits_1
  ++ zeros 12 ++ zeros 4 ++ zeros 12
  ++ u32 1 ++ u32 2 ++ u32 2 ++ u32 1 ++ u32 1 ++ u32 1 ++ u32 1 ++ u32 0 ++ u32 0
  ++ u32 1 ++ ub 1 ++ ub 2 ++ ub 3 ++ ub 4
  ++ u16 0 ++ u16 0
  ++ zeros 12
  ++ u32 0 ++ zeros 8 ++ tag "frame1" ++ zeros 10 ++ ub 10 ++ ub 20 ++ ub 30 ++ ub 0.

(** The MDL7 skin rule: a skin is added only to a model that has none. *)
Definition at_most_first (s0 s : list Mdl.skin) : Prop :=
  s = s0 \/ (s0 = [] /\ exists k, s = [k]).

(** The loop of the list directory. *)
Definition dir_body (data : bytes) (name : string) (s : Wmb.wmb * Z) : res (Wmb.wmb * Z) :=
  let '(w, o) := s in
  let* p := unpack_from [FI; FI] data o in
  Ok (Wmb.set_w_lists w (Wmb.w_lists w ++
        [(name, {| Wmb.l_offset := int_at p 0; Wmb.l_length := int_at p 1 |})]),
      o + 8).


(** A result that, when it is an exception, is [struct.error], and
    otherwise satisfies [Q]. *)
Definition ok_with {A} (Q : A -> Prop) (r : res A) : Prop :=
  match r with Ok a => Q a | Err e => e = StructError end.

(** A skin stored as one image ([{'type': ..., 'data': ...}]). *)
Definition is_single (k : Mdl.skin) : Prop :=
  match k with Mdl.Skin _ _ => True | _ => False end.

(** [e] passes both range checks of the face vertex loop of
    [_load_wmb6_faces] (lines 226-232). *)
Definition surfedge_valid (surfedges : list Z) (edges : list (Z * Z))
    (first_surfedge e : Z) : bool :=
  let surfedge_idx := first_surfedge + e in
  negb (surfedge_idx >=? Z.of_nat (List.length surfedges)) &&
  (let edge_idx := Z.abs (nth (Z.to_nat surfedge_idx) surfedges 0) - 1 in
   negb ((edge_idx <? 0) || (edge_idx >=? Z.of_nat (List.length edges)))).

(** The object a run of [if obj_type == 5: self.info = obj_data] leaves
    in [self.info], starting from [d]. *)
Definition last_info (objs : list Wmb.obj) (d : option Wmb.obj) : option Wmb.obj :=
  fold_left (fun acc o => if Wmb.o_type o =? 5 then Some o else acc) objs d.

(** A WMB state with the four corners of the unit square as vertices and
    one face naming them in order, without texinfo. *)
Definition quad_world : Wmb.wmb :=
  Wmb.set_faces (Wmb.set_vertices Wmb.empty
      [(Viewer.fzero, Viewer.fzero, Viewer.fzero); (Viewer.fone, Viewer.fzero, Viewer.fzero);
       (Viewer.fone, Viewer.fone, Viewer.fzero); (Viewer.fzero, Viewer.fone, Viewer.fzero)])
    [{| Wmb.f_flags := 0; Wmb.f_first_edge := 0; Wmb.f_num_verts := 4; Wmb.f_tex_idx := 0;
        Wmb.f_skin := 0; Wmb.f_vertices := [0; 1; 2; 3] |}].


End ExtraDefs.

(* ------------------------------------------------------------------ *)
(** ** Specification-side notions *)

Module Ref.

(** A triangle of one MDL7 group moved into the merged index space: its
    vertex indices shifted by [vo], its UV indices by [so]. *)
Definition rebase (vo so : Z) (t : Mdl.triangle) : Mdl.triangle :=
  match t with
  | Mdl.Tri6 a b c u v w => Mdl.Tri6 (a + vo) (b + vo) (c + vo) (u + so) (v + so) (w + so)
  | t => t
  end.

(** The lump-reading methods of [WMB] with the directory name each one
    looks up. *)
Definition wmb_readers : list (string * (bytes -> Wmb.wmb -> res Wmb.wmb)) :=
  [("textures", Wmb.load_textures); ("materials", Wmb.load_wmb6_texinfo);
   ("vertices", Wmb.load_wmb6_vertices); ("edges", Wmb.load_wmb6_edges);
   ("faces", Wmb.load_wmb6_faces); ("objects", Wmb.load_objects);
   ("materials", Wmb.load_materials); ("lightmaps", Wmb.load_lightmaps);
   ("blocks", Wmb.load_blocks)]%string.

(** The face walk as the specification words it: each surfedge resolved
    to its edge (1-indexed, reversed when negative); the first resolved
    edge's first vertex seeds the loop and every resolved edge contributes
    its second vertex. *)
Definition resolve (edges : list (Z * Z)) (s : Z) : Z * Z :=
  let '(v1, v2) := nth (Z.to_nat (Z.abs s - 1)) edges (0, 0) in
  if s <? 0 then (v2, v1) else (v1, v2).

Definition surfedge_run (surfedges : list Z) (first n : Z) : list Z :=
  map (fun e => nth (Z.to_nat (first + e)) surfedges 0) (range n).

Definition spec_face_loop (pairs : list (Z * Z)) : list Z :=
  match pairs with
  | [] => []
  | p :: _ => fst p :: map snd pairs
  end.

(** Every surfedge of the run, and the edge it names, is in range. *)
Definition run_in_range (surfedges : list Z) (edges : list (Z * Z)) (first n : Z) : bool :=
  forallb (fun e =>
      (first + e <? Z.of_nat (List.length surfedges)) &&
      (1 <=? Z.abs (nth (Z.to_nat (first + e)) surfedges 0)) &&
      (Z.abs (nth (Z.to_nat (first + e)) surfedges 0) <=? Z.of_nat (List.length edges)))
    (range n).

(** Surfedge [e] of the run and the edge it names are in range. *)
Definition surfedge_ok (surfedges : list Z) (edges : list (Z * Z)) (first : Z) (e : Z) : bool :=
  (first + e <? Z.of_nat (List.length surfedges)) &&
  (1 <=? Z.abs (nth (Z.to_nat (first + e)) surfedges 0)) &&
  (Z.abs (nth (Z.to_nat (first + e)) surfedges 0) <=? Z.of_nat (List.length edges)).

End Ref.

(* ------------------------------------------------------------------ *)
(** * Properties *)

Module Props.

Import Samples.

Definition ok_or {A} (d : A) (r : res A) : A :=
  match r with Ok a => a | Err _ => d end.

Lemma bind_ok {A B} (m : res A) (k : A -> res B) b :
  bind m k = Ok b -> exists a, m = Ok a /\ k a = Ok b.
Proof. destruct m as [a|e]; cbn; [eauto | discriminate]. Qed.

Lemma for_each_inv {A S} (P : S -> Prop) (body : A -> S -> res S) :
  forall xs s s',
  P s -> (forall x s1 s2, In x xs -> P s1 -> body x s1 = Ok s2 -> P s2) ->
  for_each body xs s = Ok s' -> P s'.
Proof.
  induction xs as [|x xs IH]; cbn; intros s s' Hs Hstep Hrun.
  - injection Hrun as <-; exact Hs.
  - apply bind_ok in Hrun as (s1 & H1 & H2).
    apply (IH s1); eauto.
Qed.

Lemma length_range n : List.length (range n) = Z.to_nat n.
Proof. unfold range. rewrite length_map, length_seq. reflexivity. Qed.

Lemma in_range x n : In x (range n) -> 0 <= x < n.
Proof.
  unfold range. rewrite in_map_iff. intros (k & <- & Hk).
  apply in_seq in Hk. lia.
Qed.

Lemma unpack_from_fits fmt data off :
  0 <= off -> off + calcsize fmt <= Z.of_nat (List.length data) ->
  unpack_from fmt data off =
  Ok (decode_fields fmt (firstn (Z.to_nat (calcsize fmt)) (skipn (Z.to_nat off) data))).
Proof.
  intros H0 Hfit. unfold unpack_from, unpack_span.
  replace (off <? 0) with false by (symmetry; apply Z.ltb_ge; lia).
  replace (off <? 0) with false by (symmetry; apply Z.ltb_ge; lia).
  replace (Z.of_nat (List.length data) - off <? calcsize fmt) with false
    by (symmetry; apply Z.ltb_ge; lia).
  reflexivity.
Qed.

Lemma unpack_from_short fmt data off :
  0 <= off -> Z.of_nat (List.length data) < off + calcsize fmt ->
  unpack_from fmt data off = Err StructError.
Proof.
  intros H0 Hshort. unfold unpack_from, unpack_span.
  replace (off <? 0) with false by (symmetry; apply Z.ltb_ge; lia).
  replace (off <? 0) with false by (symmetry; apply Z.ltb_ge; lia).
  replace (Z.of_nat (List.length data) - off <? calcsize fmt) with true
    by (symmetry; apply Z.ltb_lt; lia).
  reflexivity.
Qed.

Lemma slice_bound_nonneg len i : 0 <= i -> slice_bound len i = Z.min i len.
Proof. intros H. unfold slice_bound. replace (i <? 0) with false by (symmetry; apply Z.ltb_ge; lia). reflexivity. Qed.

Lemma slice_length data a b :
  0 <= a <= b ->
  List.length (slice data a b) =
  Z.to_nat (Z.min b (Z.of_nat (List.length data)) - Z.min a (Z.of_nat (List.length data))).
Proof.
  intros H. unfold slice.
  rewrite !slice_bound_nonneg by lia.
  rewrite length_firstn, length_skipn. lia.
Qed.

Lemma idpo_tag_eqb : bytes_eqb (tag "IDPO") (tag "IDPO") = true.
Proof. reflexivity. Qed.

(** C1 (as amended).  Fixed-width [struct.unpack_from] reads succeed with
    exactly the requested bytes when the span fits and fail otherwise;
    slices never fail and return only the bytes present; an IDPO-tagged
    buffer shorter than the 84-byte header fails to load. *)
Theorem C1_reads_checked_slices_short :
  (forall fmt data off,
      0 <= off -> off + calcsize fmt <= Z.of_nat (List.length data) ->
      unpack_from fmt data off =
      Ok (decode_fields fmt (firstn (Z.to_nat (calcsize fmt)) (skipn (Z.to_nat off) data)))) /\
  (forall fmt data off,
      0 <= off -> Z.of_nat (List.length data) < off + calcsize fmt ->
      unpack_from fmt data off = Err StructError) /\
  (forall data a b,
      0 <= a <= b ->
      List.length (slice data a b) =
      Z.to_nat (Z.min b (Z.of_nat (List.length data)) - Z.min a (Z.of_nat (List.length data)))) /\
  (forall data m,
      firstn 4 data = tag "IDPO" -> (List.length data < 84)%nat ->
      Mdl.load data m = Err StructError).
Proof.
  split; [exact unpack_from_fits|].
  split; [exact unpack_from_short|].
  split; [exact slice_length|].
  intros data m Htag Hlen.
  assert (H4 : (4 <= List.length data)%nat).
  { assert (Hl := length_firstn 4 data). rewrite Htag in Hl.
    change (List.length (tag "IDPO")) with 4%nat in Hl. lia. }
  unfold Mdl.load.
  rewrite (unpack_from_fits [Fs 4] data 0) by (cbn; lia).
  cbn [bind decode_fields calcsize fold_right field_size bytes_at nth_error].
  replace (firstn (Z.to_nat (Z.of_nat 4)) (firstn (Z.to_nat (Z.of_nat 4 + 0)) (skipn (Z.to_nat 0) data)))
    with (tag "IDPO")
    by (rewrite <- Htag; cbn; rewrite firstn_firstn; reflexivity).
  rewrite idpo_tag_eqb.
  unfold Mdl.load_idpo.
  rewrite unpack_from_short by (cbn; lia).
  reflexivity.
Qed.

Lemma C1_witness :
  unpack_from [FI] (Enc.u32 7) 0 = Ok [PInt 7] /\
  unpack_from [FI] (Enc.ub 7) 0 = Err StructError /\
  List.length (slice (Enc.ub 7) 0 4) = 1%nat /\
  Mdl.load (firstn 40 idpo_one_vertex) Mdl.empty = Err StructError.
Proof.
  destruct C1_reads_checked_slices_short as (H1 & H2 & H3 & H4).
  split; [apply (H1 [FI] (Enc.u32 7) 0); cbn; lia|].
  split; [apply (H2 [FI] (Enc.ub 7) 0); cbn; lia|].
  split; [rewrite (H3 (Enc.ub 7) 0 4) by lia; reflexivity|].
  apply H4; [vm_compute; reflexivity | apply Nat.ltb_lt; vm_compute; reflexivity].
Defined.

(** C1 (as stated) fails: a valid IDPO file cut before its last byte (the
    light-normal index of its last vertex) still loads, to the same model;
    and a file cut inside its skin pixels loads with a short skin. *)
Lemma C1_truncated_files_load :
  Mdl.load (removelast idpo_one_vertex) Mdl.empty = Mdl.load idpo_one_vertex Mdl.empty /\
  (exists m, Mdl.load idpo_one_vertex Mdl.empty = Ok m) /\
  Mdl.load (firstn 90 idpo_one_skin) Mdl.empty =
    Ok (Mdl.add_skin (Mdl.set_header Mdl.empty
          (Mdl.HdrQuake (Mdl.idpo_header_of
             (ok_or [] (unpack_from Mdl.idpo_header_fmt idpo_one_skin 0)))))
          (Mdl.Skin "single_8bit" (Enc.ub 1 ++ Enc.ub 2))).
Proof.
  split; [vm_compute; reflexivity|].
  split; [eexists; vm_compute; reflexivity|].
  vm_compute. reflexivity.
Qed.

(** C2 (as amended).  In [_load_frames_idpo], a frame whose 4-byte type is
    non-zero ends the frame loop normally: [self] keeps every frame decoded
    before it, and the offset just past the type field is returned. *)
Theorem C2_group_frame_returns_partial :
  forall n data h m off vs,
    unpack_from [FI] data off = Ok vs ->
    int_at vs 0 <> 0 ->
    Mdl.load_frames_idpo_loop (S n) data h m off = Ok (m, off + 4).
Proof.
  intros n data h m off vs Hu Hne. cbn [Mdl.load_frames_idpo_loop].
  rewrite Hu. cbn [bind].
  apply Z.eqb_neq in Hne. rewrite Hne. reflexivity.
Qed.

Lemma C2_witness :
  unpack_from [FI] (Enc.u32 1) 0 = Ok [PInt 1] /\ int_at [PInt 1] 0 <> 0 /\
  Mdl.load_frames_idpo_loop 3 (Enc.u32 1) (Mdl.idpo_header_of []) Mdl.empty 0 =
    Ok (Mdl.empty, 0 + 4).
Proof.
  split; [vm_compute; reflexivity|].
  split; [cbn; lia|].
  apply (C2_group_frame_returns_partial 2 (Enc.u32 1) (Mdl.idpo_header_of []) Mdl.empty 0
           [PInt 1]); [vm_compute; reflexivity | cbn; lia].
Defined.

(** C2 (as stated) fails: an IDPO file whose second frame is a group frame
    loads successfully, with the first frame decoded and kept. *)
Lemma C2_group_frame_loads :
  exists m, Mdl.load idpo_group_frame Mdl.empty = Ok m /\
            List.length (Mdl.frames m) = 1%nat.
Proof.
  exists (ok_or Mdl.empty (Mdl.load idpo_group_frame Mdl.empty)).
  split; vm_compute; reflexivity.
Qed.

(** C3 (as amended).  In the skin loop of [_load_idpo], a skin whose 4-byte
    type code is not 0..5 is skipped: the model is unchanged and only the
    4 bytes of the type code are consumed before the next iteration. *)
Theorem C3_unknown_skin_skipped :
  forall data h i m off vs,
    unpack_from [FI] data off = Ok vs ->
    ~ (0 <= int_at vs 0 <= 5) ->
    Mdl.idpo_skin data h i (m, off) = Ok (m, off + 4).
Proof.
  intros data h i m off vs Hu Hn. unfold Mdl.idpo_skin.
  rewrite Hu. cbn [bind].
  destruct (Z.eqb_spec (int_at vs 0) 0); [lia|].
  destruct (Z.eqb_spec (int_at vs 0) 2); [lia|].
  destruct (Z.eqb_spec (int_at vs 0) 3); [lia|].
  destruct (Z.eqb_spec (int_at vs 0) 4); [lia|].
  destruct (Z.eqb_spec (int_at vs 0) 5); [lia|].
  destruct (Z.eqb_spec (int_at vs 0) 1); [lia|].
  reflexivity.
Qed.

Lemma C3_witness :
  unpack_from [FI] (Enc.u32 9) 0 = Ok [PInt 9] /\ ~ (0 <= int_at [PInt 9] 0 <= 5) /\
  Mdl.idpo_skin (Enc.u32 9) (Mdl.idpo_header_of []) 0 (Mdl.empty, 0) = Ok (Mdl.empty, 0 + 4).
Proof.
  split; [vm_compute; reflexivity|].
  split; [cbn; lia|].
  apply (C3_unknown_skin_skipped (Enc.u32 9) (Mdl.idpo_header_of []) 0 Mdl.empty 0 [PInt 9]);
    [vm_compute; reflexivity | cbn; lia].
Defined.

(** C3 (as stated) fails: an IDPO file whose first skin has type code 9
    loads successfully, keeping only the following type-0 skin. *)
Lemma C3_unknown_skin_loads :
  exists m, Mdl.load idpo_unknown_skin Mdl.empty = Ok m /\
            Mdl.skins m = [Mdl.Skin "single_8bit" (Enc.ub 1 ++ Enc.ub 2 ++ Enc.ub 3 ++ Enc.ub 4)].
Proof.
  exists (ok_or Mdl.empty (Mdl.load idpo_unknown_skin Mdl.empty)).
  split; vm_compute; reflexivity.
Qed.

(** Indexing a 4-byte slice at [k] reads byte [a + k] of the buffer. *)
Lemma index_slice4 data a k z :
  0 <= a -> 0 <= k < 4 -> index (slice data a (a + 4)) k = Ok z ->
  z = u8 (nth (Z.to_nat (a + k)) data Byte.x00).
Proof.
  intros Ha Hk Hi. unfold index in Hi.
  replace (k <? 0) with false in Hi by (symmetry; apply Z.ltb_ge; lia).
  assert (Hlen := slice_length data a (a + 4)).
  destruct ((0 <=? k) && (k <? Z.of_nat (List.length (slice data a (a + 4))))) eqn:Hc;
    [|discriminate].
  injection Hi as <-.
  apply andb_prop in Hc as [_ Hc]. apply Z.ltb_lt in Hc.
  rewrite Hlen in Hc by lia.
  f_equal. unfold slice. rewrite !slice_bound_nonneg by lia.
  rewrite nth_firstn.
  replace (Z.to_nat k <? Z.to_nat (Z.min (a + 4) (Z.of_nat (List.length data)) -
                                    Z.min a (Z.of_nat (List.length data))))%nat
    with true by (symmetry; apply Nat.ltb_lt; lia).
  rewrite nth_skipn. f_equal. lia.
Qed.

(** A loop that appends one element per iteration builds [acc ++ ys] with
    [ys] related pointwise to the iterated list. *)
Lemma for_each_snoc {A B} (P : A -> B -> Prop) (body : A -> list B -> res (list B)) xs :
  (forall x acc acc', In x xs -> body x acc = Ok acc' ->
                      exists y, acc' = acc ++ [y] /\ P x y) ->
  forall acc vs, for_each body xs acc = Ok vs ->
  exists ys, vs = acc ++ ys /\ Forall2 P xs ys.
Proof.
  induction xs as [|x xs IH]; cbn; intros Hb acc vs Hrun.
  - injection Hrun as <-. exists []. rewrite app_nil_r. auto.
  - apply bind_ok in Hrun as (acc1 & H1 & H2).
    destruct (Hb x acc acc1 (or_introl eq_refl) H1) as (y & -> & Hy).
    destruct (IH (fun x0 a a' Hin => Hb x0 a a' (or_intror Hin)) _ _ H2) as (ys & -> & Hys).
    exists (y :: ys). rewrite <- app_assoc. auto.
Qed.

Lemma Forall2_seq {B} (P : Z -> B -> Prop) s k ys :
  Forall2 P (map Z.of_nat (seq s k)) ys ->
  List.length ys = k /\
  forall j, (j < k)%nat -> exists y, nth_error ys j = Some y /\ P (Z.of_nat (s + j)) y.
Proof.
  revert s ys. induction k as [|k IH]; cbn; intros s ys H.
  - inversion H; subst. split; [reflexivity | intros; lia].
  - inversion H as [|a y l ys' Hy Hrest]; subst.
    destruct (IH (S s) ys' Hrest) as [Hl Hn]. split; [cbn; lia|].
    intros [|j] Hj; cbn.
    + exists y. split; [reflexivity|]. rewrite Nat.add_0_r. exact Hy.
    + destruct (Hn j ltac:(lia)) as (y' & Hy' & HP). exists y'. split; [exact Hy'|].
      replace (s + S j)%nat with (S s + j)%nat by lia. exact HP.
Qed.

(** C6.  Every vertex decoded by the byte-packed loop (used by IDPO frames
    and by MDL3/4/5 frames of type 0) is [byte * scale + translate],
    per axis, on bytes [4i], [4i+1], [4i+2] of the vertex block, with one
    vertex per declared vertex; and the sample file with scale (2,2,2),
    translate (0,0,0) and packed bytes (10,20,30,0) decodes to exactly
    (20.0, 40.0, 60.0). *)
Theorem C6_dequantization :
  (forall h vd n vs,
      Mdl.byte_packed_verts h vd n = Ok vs ->
      List.length vs = Z.to_nat n /\
      forall i, (i < Z.to_nat n)%nat ->
        nth_error vs i =
        Some (let '(s0, s1, s2) := Mdl.q_scale h in
              let '(t0, t1, t2) := Mdl.q_translate h in
              (fadd (fmul (float_of_Z (u8 (nth (4 * i) vd Byte.x00))) s0) t0,
               fadd (fmul (float_of_Z (u8 (nth (4 * i + 1) vd Byte.x00))) s1) t1,
               fadd (fmul (float_of_Z (u8 (nth (4 * i + 2) vd Byte.x00))) s2) t2))) /\
  (exists m, Mdl.load idpo_one_vertex Mdl.empty = Ok m /\
     map Mdl.fr_verts (Mdl.frames m) =
       [[(float_of_Z 20, float_of_Z 40, float_of_Z 60)]]).
Proof.
  split.
  - intros h vd n vs Hrun. unfold Mdl.byte_packed_verts in Hrun.
    apply (for_each_snoc
             (fun i v => v = Mdl.dequant3 h (u8 (nth (Z.to_nat (i * 4 + 0)) vd Byte.x00))
                                          (u8 (nth (Z.to_nat (i * 4 + 1)) vd Byte.x00))
                                          (u8 (nth (Z.to_nat (i * 4 + 2)) vd Byte.x00))))
      in Hrun.
    + destruct Hrun as (ys & -> & Hys). cbn [app].
      unfold range in Hys. apply Forall2_seq in Hys as [Hl Hn].
      split; [exact Hl|].
      intros i Hi. destruct (Hn i Hi) as (y & Hy & ->). rewrite Hy. f_equal.
      replace (Z.to_nat (Z.of_nat (0 + i) * 4 + 0)) with (4 * i)%nat by lia.
      replace (Z.to_nat (Z.of_nat (0 + i) * 4 + 1)) with (4 * i + 1)%nat by lia.
      replace (Z.to_nat (Z.of_nat (0 + i) * 4 + 2)) with (4 * i + 2)%nat by lia.
      unfold Mdl.dequant3, Mdl.dequant.
      destruct (Mdl.q_scale h) as [[s0 s1] s2]. destruct (Mdl.q_translate h) as [[t0 t1] t2].
      reflexivity.
    + intros i acc acc' Hin Hb. apply in_range in Hin.
      apply bind_ok in Hb as (x & Hx & Hb).
      apply bind_ok in Hb as (y & Hy & Hb).
      apply bind_ok in Hb as (z & Hz & Hb).
      injection Hb as <-. eexists. split; [reflexivity|].
      apply index_slice4 in Hx; [|lia|lia].
      apply index_slice4 in Hy; [|lia|lia].
      apply index_slice4 in Hz; [|lia|lia].
      subst. reflexivity.
  - exists (ok_or Mdl.empty (Mdl.load idpo_one_vertex Mdl.empty)).
    split; vm_compute; reflexivity.
Qed.

Lemma C6_witness :
  Mdl.byte_packed_verts (Mdl.idpo_header_of []) (Enc.ub 10 ++ Enc.ub 20 ++ Enc.ub 30 ++ Enc.ub 0) 1
    = Ok [Mdl.dequant3 (Mdl.idpo_header_of []) 10 20 30] /\
  List.length [Mdl.dequant3 (Mdl.idpo_header_of []) 10 20 30] = Z.to_nat 1.
Proof.
  assert (H : Mdl.byte_packed_verts (Mdl.idpo_header_of [])
                (Enc.ub 10 ++ Enc.ub 20 ++ Enc.ub 30 ++ Enc.ub 0) 1
              = Ok [Mdl.dequant3 (Mdl.idpo_header_of []) 10 20 30])
    by (vm_compute; reflexivity).
  split; [exact H|].
  destruct C6_dequantization as [Hv _].
  exact (proj1 (Hv _ _ _ _ H)).
Defined.

Lemma tri_loop_rebase data sz vo so xs :
  forall pre loc off r,
    for_each (Mdl.mdl7_triangle data sz vo so) xs
             (pre ++ map (Ref.rebase vo so) loc, off) = Ok r ->
    exists loc', for_each (Mdl.mdl7_triangle data sz 0 0) xs (loc, off) = Ok (loc', snd r) /\
                 fst r = pre ++ map (Ref.rebase vo so) loc'.
Proof.
  induction xs as [|x xs IH]; cbn; intros pre loc off r Hrun.
  - injection Hrun as <-. exists loc. auto.
  - apply bind_ok in Hrun as (s1 & H1 & H2).
    unfold Mdl.mdl7_triangle in H1 |- *.
    destruct (unpack_from [FH; FH; FH] data off) as [v|e]; cbn in H1 |- *; [|discriminate].
    destruct (unpack_from [FH; FH; FH] data (off + 6)) as [uv|e]; cbn in H1 |- *; [|discriminate].
    injection H1 as <-.
    apply (IH pre (loc ++ [Mdl.Tri6 (int_at v 0 + 0) (int_at v 1 + 0) (int_at v 2 + 0)
                              (int_at uv 0 + 0) (int_at uv 1 + 0) (int_at uv 2 + 0)])).
    rewrite map_app, app_assoc. cbn. rewrite !Z.add_0_r. exact H2.
Qed.

Lemma mdl7_skin_loop_tri_size data xs :
  forall s s', for_each (Mdl.mdl7_skin data) xs s = Ok s' ->
  Mdl.h7_triangle_stc_size (fst (fst s')) = Mdl.h7_triangle_stc_size (fst (fst s)).
Proof.
  intros s s'.
  apply (for_each_inv (fun s1 => Mdl.h7_triangle_stc_size (fst (fst s1)) =
                                 Mdl.h7_triangle_stc_size (fst (fst s)))); [reflexivity|].
  intros x [[h m] off] s2 _ Hp Hb. cbn in Hp. rewrite <- Hp.
  unfold Mdl.mdl7_skin in Hb.
  destruct (unpack_from Mdl.skin7_fmt data off) as [sk|e]; cbn in Hb; [|discriminate].
  repeat match type of Hb with
         | context [if ?c then _ else _] => destruct c
         end;
  try (injection Hb as <-; reflexivity).
Qed.

(** C7.  One step of the MDL7 group loop: the running vertex and UV-point
    totals grow by the group's declared counts, and the group's triangles,
    read as in the file (with zero offsets), are appended to the merged list
    rebased by the totals of all earlier groups; with two groups of 5 and 7
    vertices, the second group's triangle (0, 3, 6) becomes (5, 8, 11). *)
Theorem C7_triangles_rebased :
  (forall data g a a',
     Mdl.mdl7_group data g a = Ok a' ->
     exists gh loc off_t off_e,
       unpack_from Mdl.group_fmt data (Mdl.a_off a) = Ok gh /\
       Mdl.vertex_offset a' = Mdl.vertex_offset a + int_at gh 9 /\
       Mdl.skinvert_offset a' = Mdl.skinvert_offset a + int_at gh 7 /\
       for_each (Mdl.mdl7_triangle data (Mdl.h7_triangle_stc_size (Mdl.a_hdr a)) 0 0)
                (range (int_at gh 8)) ([], off_t) = Ok (loc, off_e) /\
       Mdl.all_triangles a' =
         Mdl.all_triangles a
         ++ map (Ref.rebase (Mdl.vertex_offset a) (Mdl.skinvert_offset a)) loc) /\
  (exists m, Mdl.load mdl7_two_groups Mdl.empty = Ok m /\
     Mdl.triangles m = [Mdl.Tri6 0 1 2 0 0 0; Mdl.Tri6 5 8 11 0 0 0]).
Proof.
  split.
  - intros data g a a' Hg. unfold Mdl.mdl7_group in Hg.
    apply bind_ok in Hg as (gh & Hgh & Hg).
    apply bind_ok in Hg as ([[h m] off1] & Hsk & Hg).
    apply mdl7_skin_loop_tri_size in Hsk. cbn in Hsk.
    apply bind_ok in Hg as ([sv off2] & Hsv & Hg).
    apply bind_ok in Hg as ([tris off3] & Htr & Hg).
    apply bind_ok in Hg as ([gv off4] & Hmv & Hg).
    apply bind_ok in Hg as ([m' off5] & Hfr & Hg).
    injection Hg as <-.
    rewrite <- (app_nil_r (Mdl.all_triangles a)) in Htr.
    change (@nil Mdl.triangle) with
      (map (Ref.rebase (Mdl.vertex_offset a) (Mdl.skinvert_offset a)) []) in Htr.
    apply tri_loop_rebase in Htr as (loc & Hloc & Heq). cbn in Heq, Hloc.
    exists gh, loc, off2, off3. rewrite <- Hsk.
    repeat split; try reflexivity; assumption.
  - exists (ok_or Mdl.empty (Mdl.load mdl7_two_groups Mdl.empty)).
    split; vm_compute; reflexivity.
Qed.

Lemma C7_witness :
  exists a', Mdl.mdl7_group mdl7_two_groups 1
               (ok_or (mdl7_start mdl7_two_groups)
                  (Mdl.mdl7_group mdl7_two_groups 0 (mdl7_start mdl7_two_groups))) = Ok a' /\
  Mdl.vertex_offset a' = 12.
Proof.
  set (a1 := ok_or (mdl7_start mdl7_two_groups)
               (Mdl.mdl7_group mdl7_two_groups 0 (mdl7_start mdl7_two_groups))).
  set (a2 := ok_or a1 (Mdl.mdl7_group mdl7_two_groups 1 a1)).
  assert (H : Mdl.mdl7_group mdl7_two_groups 1 a1 = Ok a2) by (vm_compute; reflexivity).
  exists a2. split; [exact H|].
  destruct (proj1 C7_triangles_rebased _ _ _ _ H) as (gh & loc & ot & oe & Hgh & Hvo & _).
  rewrite Hvo. revert Hgh. vm_compute. intros Hgh. injection Hgh as <-. reflexivity.
Defined.

Lemma length_list_set {A} (l : list A) i x : List.length (list_set l i x) = List.length l.
Proof. revert i; induction l as [|y l IH]; intros [|i]; cbn; auto. Qed.

Lemma apply_override_length fv idx v :
  List.length (Mdl.apply_override fv idx v) = List.length fv.
Proof.
  unfold Mdl.apply_override. destruct (idx <? _); [apply length_list_set | reflexivity].
Qed.

Lemma framevertex_loop_length data sz xs :
  forall fv off r, for_each (Mdl.mdl7_framevertex data sz) xs (fv, off) = Ok r ->
  List.length (fst r) = List.length fv.
Proof.
  intros fv off r.
  apply (for_each_inv (fun s => List.length (fst s) = List.length fv)); [reflexivity|].
  intros x [fv1 o1] s2 _ Hp Hb. cbn in Hp. unfold Mdl.mdl7_framevertex in Hb.
  apply bind_ok in Hb as (p & _ & Hb). apply bind_ok in Hb as (q & _ & Hb).
  injection Hb as <-. cbn. rewrite apply_override_length. exact Hp.
Qed.

Lemma mainvertex_loop_length data sz xs :
  forall acc off r, for_each (Mdl.mdl7_mainvertex data sz) xs (acc, off) = Ok r ->
  List.length (fst r) = (List.length acc + List.length xs)%nat.
Proof.
  induction xs as [|x xs IH]; cbn; intros acc off r Hrun.
  - injection Hrun as <-. cbn. lia.
  - apply bind_ok in Hrun as ([acc1 o1] & H1 & H2). unfold Mdl.mdl7_mainvertex in H1.
    apply bind_ok in H1 as (p & _ & H1). injection H1 as <- <-.
    apply IH in H2. rewrite H2, length_app. cbn. lia.
Qed.

(** C10 (as amended).  A frame-vertex record whose index is not below the
    length of the frame's vertex list leaves the list unchanged; the
    override loop never changes that length; the group's vertex list read
    from a declared count [n] has length [max 0 n]; so a frame of the first
    group holds exactly [max 0 n] vertices. *)
Theorem C10_frame_verts_length :
  (forall fv idx v,
      Z.of_nat (List.length fv) <= idx -> Mdl.apply_override fv idx v = fv) /\
  (forall data sz xs fv off r,
      for_each (Mdl.mdl7_framevertex data sz) xs (fv, off) = Ok r ->
      List.length (fst r) = List.length fv) /\
  (forall data sz n off r,
      for_each (Mdl.mdl7_mainvertex data sz) (range n) ([], off) = Ok r ->
      List.length (fst r) = Z.to_nat n) /\
  (forall data h gv fi m off r,
      Mdl.mdl7_frame data h 0 gv fi (m, off) = Ok r ->
      exists f, Mdl.frames (fst r) = Mdl.frames m ++ [f] /\
                List.length (Mdl.fr_verts f) = List.length gv).
Proof.
  split; [|split; [|split]].
  - intros fv idx v H. unfold Mdl.apply_override.
    replace (idx <? Z.of_nat (List.length fv)) with false by (symmetry; apply Z.ltb_ge; lia).
    reflexivity.
  - exact framevertex_loop_length.
  - intros data sz n off r H. apply mainvertex_loop_length in H.
    rewrite H, length_range. reflexivity.
  - intros data h gv fi m off r H. unfold Mdl.mdl7_frame in H.
    apply bind_ok in H as (nm & _ & H). apply bind_ok in H as (cnt & _ & H).
    apply bind_ok in H as ([fv o] & Hfv & H). apply framevertex_loop_length in Hfv.
    cbn in Hfv. cbn in H. injection H as <-.
    eexists. split; [reflexivity|]. exact Hfv.
Qed.

Lemma C10_witness :
  Mdl.apply_override [Mdl.zero3] 1 Mdl.one3 = [Mdl.zero3] /\
  List.length (fst (ok_or ([], 0)
     (for_each (Mdl.mdl7_mainvertex (Enc.zeros 32) 16) (range 2) ([], 0)))) = 2%nat.
Proof.
  destruct C10_frame_verts_length as (Ha & _ & Hm & _).
  split; [apply Ha; cbn; lia|].
  apply (Hm (Enc.zeros 32) 16 2 0). vm_compute. reflexivity.
Defined.

(** C10 (as stated) fails: a group whose signed vertex count is -1 yields
    a frame with 0 vertices, not the declared count. *)
Lemma C10_negative_count :
  exists m f, Mdl.load mdl7_negative_count Mdl.empty = Ok m /\
    Mdl.frames m = [f] /\ Z.of_nat (List.length (Mdl.fr_verts f)) <> -1 /\
    Mdl.fr_verts f = [].
Proof.
  set (m := ok_or Mdl.empty (Mdl.load mdl7_negative_count Mdl.empty)).
  exists m, (nth 0 (Mdl.frames m) {| Mdl.fr_name := []; Mdl.fr_bbox := None; Mdl.fr_verts := [] |}).
  split; [vm_compute; reflexivity|].
  split; [vm_compute; reflexivity|].
  split; [vm_compute; discriminate|].
  vm_compute; reflexivity.
Qed.

(** C8.  Every lump reader is the identity on [self] when the directory
    entry it reads has length 0, whatever the file bytes are. *)
Theorem C8_empty_lump_noop :
  forall name R, In (name, R) Ref.wmb_readers ->
  forall data w l, Wmb.get_lump w name = Ok l -> Wmb.l_length l = 0 -> R data w = Ok w.
Proof.
  intros name R Hin data w l Hl H0.
  assert (Hb : (Wmb.l_length l =? 0) = true) by (apply Z.eqb_eq; exact H0).
  cbn in Hin.
  repeat destruct Hin as [Hin | Hin]; try contradiction;
    injection Hin as <- <-;
    [ unfold Wmb.load_textures | unfold Wmb.load_wmb6_texinfo
    | unfold Wmb.load_wmb6_vertices | unfold Wmb.load_wmb6_edges
    | unfold Wmb.load_wmb6_faces | unfold Wmb.load_objects
    | unfold Wmb.load_materials | unfold Wmb.load_lightmaps | ];
    try (rewrite Hl; cbn [bind]; rewrite Hb; reflexivity).
  unfold Wmb.load_blocks. unfold Wmb.get_lump in Hl.
  destruct (Wmb.assoc "blocks" (Wmb.w_lists w)); [|discriminate].
  injection Hl as ->. rewrite Hb. reflexivity.
Qed.

Lemma C8_witness :
  Wmb.load_textures [] all_lumps_empty = Ok all_lumps_empty.
Proof.
  apply (C8_empty_lump_noop "textures" Wmb.load_textures) with
      (l := {| Wmb.l_offset := 0; Wmb.l_length := 0 |});
    [simpl; left; reflexivity | vm_compute; reflexivity | vm_compute; reflexivity].
Defined.

Lemma read_offsets_length data count :
  forall off r, Wmb.read_offsets data count off = Ok r ->
  List.length (fst r) = Z.to_nat count.
Proof.
  intros off r. unfold Wmb.read_offsets.
  rewrite <- length_range.
  change (Z.to_nat count) with (0 + Z.to_nat count)%nat.
  change (@nil Z) with (firstn 0 (@nil Z)).
  generalize (@nil Z) as acc. generalize (range count) as xs.
  intros xs. revert off r.
  assert (G : forall acc off r,
             for_each (fun (_ : Z) (s : list Z * Z) =>
                         let '(acc, o) := s in
                         let* t := unpack_from [FI] data o in Ok (acc ++ [int_at t 0], o + 4))
                      xs (acc, off) = Ok r ->
             List.length (fst r) = (List.length acc + List.length xs)%nat).
  { induction xs as [|x xs IH]; cbn; intros acc off r H.
    - injection H as <-. cbn. lia.
    - apply bind_ok in H as ([a1 o1] & H1 & H2).
      apply bind_ok in H1 as (t & _ & H1). injection H1 as <- <-.
      apply IH in H2. rewrite H2, length_app. cbn. lia. }
  intros off r acc H. apply G in H. rewrite H. reflexivity.
Qed.

Lemma map_fst_combine {A B} (a : list A) (b : list B) :
  List.length a = List.length b -> map fst (combine a b) = a.
Proof.
  revert b; induction a as [|x a IH]; intros [|y b] H; cbn in *; try discriminate; auto.
  f_equal. apply IH. lia.
Qed.

Lemma object_kind_unknown data ty off k :
  ~ In ty [1; 2; 3; 5; 7] -> Wmb.object_kind data ty off = Ok k -> k = Wmb.ObjUnknown.
Proof.
  intros Hn Hk. unfold Wmb.object_kind in Hk.
  destruct (Z.eqb_spec ty 5); [subst; cbn in Hn; tauto|].
  destruct (Z.eqb_spec ty 1); [subst; cbn in Hn; tauto|].
  destruct (Z.eqb_spec ty 2); [subst; cbn in Hn; tauto|].
  destruct (Z.eqb_spec ty 3); [subst; cbn in Hn; tauto|].
  destruct (Z.eqb_spec ty 7); [subst; cbn in Hn; tauto|].
  injection Hk as <-. reflexivity.
Qed.

Lemma object_loop data base ps :
  forall w w', for_each (Wmb.object_at data base) ps w = Ok w' ->
  exists new, Wmb.objects w' = Wmb.objects w ++ new /\
              map Wmb.o_index new = map fst ps /\
              Forall (fun o => ~ In (Wmb.o_type o) [1; 2; 3; 5; 7] ->
                               Wmb.o_kind o = Wmb.ObjUnknown) new.
Proof.
  induction ps as [|[i o] ps IH]; cbn; intros w w' H.
  - injection H as <-. exists []. rewrite app_nil_r. auto.
  - apply bind_ok in H as (w1 & H1 & H2). unfold Wmb.object_at in H1.
    apply bind_ok in H1 as (t & _ & H1). apply bind_ok in H1 as (k & Hk & H1).
    injection H1 as <-.
    destruct (IH _ _ H2) as (new & Hobj & Hidx & Hall).
    exists ({| Wmb.o_type := int_at t 0; Wmb.o_index := i; Wmb.o_kind := k |} :: new).
    split; [|split].
    + rewrite Hobj. cbn. destruct (int_at t 0 =? 5); cbn; rewrite <- app_assoc; reflexivity.
    + cbn. f_equal. exact Hidx.
    + constructor; [|exact Hall]. cbn. intros Hn. exact (object_kind_unknown _ _ _ _ Hn Hk).
Qed.

(** C9.  When the objects lump is present, [_load_objects] appends one
    object per declared count (the u32 at the lump's start), numbered
    [0 .. count-1]; an object whose type code is none of 1, 2, 3, 5, 7 is
    kept, with no decoded fields ([ObjUnknown]). *)
Theorem C9_unknown_objects_kept :
  forall data w w' l,
    Wmb.get_lump w "objects" = Ok l -> Wmb.l_length l <> 0 ->
    Wmb.load_objects data w = Ok w' ->
    exists cnt new,
      unpack_from [FI] data (Wmb.l_offset l) = Ok cnt /\
      Wmb.objects w' = Wmb.objects w ++ new /\
      List.length new = Z.to_nat (int_at cnt 0) /\
      map Wmb.o_index new = range (int_at cnt 0) /\
      Forall (fun o => ~ In (Wmb.o_type o) [1; 2; 3; 5; 7] ->
                       Wmb.o_kind o = Wmb.ObjUnknown) new.
Proof.
  intros data w w' l Hl Hne H. unfold Wmb.load_objects in H.
  rewrite Hl in H. cbn [bind] in H.
  replace (Wmb.l_length l =? 0) with false in H by (symmetry; apply Z.eqb_neq; exact Hne).
  apply bind_ok in H as (cnt & Hcnt & H).
  apply bind_ok in H as (r & Hr & H).
  apply read_offsets_length in Hr.
  apply object_loop in H as (new & Hobj & Hidx & Hall).
  assert (He : map fst (Wmb.enumerate (fst r)) = range (int_at cnt 0)).
  { unfold Wmb.enumerate, range. rewrite map_fst_combine by (rewrite length_map, length_seq; reflexivity).
    rewrite Hr. reflexivity. }
  exists cnt, new. split; [exact Hcnt|]. split; [exact Hobj|].
  split; [|split; [congruence | exact Hall]].
  rewrite <- (length_map Wmb.o_index), Hidx, He. apply length_range.
Qed.

Lemma C9_witness :
  exists w' l,
    Wmb.get_lump (ok_or Wmb.empty (Wmb.read_directory Wmb.wmb6_names (wmb6_quad [1; 2; 3; 4] 4)
                                     Wmb.empty)) "objects" = Ok l /\
    Wmb.load_objects (wmb6_quad [1; 2; 3; 4] 4)
      (ok_or Wmb.empty (Wmb.read_directory Wmb.wmb6_names (wmb6_quad [1; 2; 3; 4] 4) Wmb.empty))
      = Ok w' /\
    List.length (Wmb.objects w') = 1%nat.
Proof.
  set (data := wmb6_quad [1; 2; 3; 4] 4).
  set (w := ok_or Wmb.empty (Wmb.read_directory Wmb.wmb6_names data Wmb.empty)).
  set (w' := ok_or w (Wmb.load_objects data w)).
  set (l := ok_or {| Wmb.l_offset := 0; Wmb.l_length := 0 |} (Wmb.get_lump w "objects")).
  assert (Hl : Wmb.get_lump w "objects" = Ok l) by (vm_compute; reflexivity).
  assert (Hw : Wmb.load_objects data w = Ok w') by (vm_compute; reflexivity).
  exists w', l. split; [exact Hl|]. split; [exact Hw|].
  destruct (C9_unknown_objects_kept data w w' l Hl ltac:(vm_compute; discriminate) Hw)
    as (cnt & new & Hcnt & Hobj & Hlen & _).
  rewrite Hobj, length_app, Hlen. revert Hcnt. vm_compute. intros Hc. injection Hc as <-.
  reflexivity.
Defined.

Lemma face_step_in_range se ed first acc e :
  0 <= first -> 0 <= e ->
  first + e < Z.of_nat (List.length se) ->
  1 <= Z.abs (nth (Z.to_nat (first + e)) se 0) <= Z.of_nat (List.length ed) ->
  Wmb.face_step se ed first acc e =
  (if Nat.eqb (List.length acc) 0
   then acc ++ [fst (Ref.resolve ed (nth (Z.to_nat (first + e)) se 0))] else acc)
  ++ [snd (Ref.resolve ed (nth (Z.to_nat (first + e)) se 0))].
Proof.
  intros Hf He Hs Hr. unfold Wmb.face_step, Ref.resolve.
  replace (first + e >=? Z.of_nat (List.length se)) with false
    by (symmetry; rewrite Z.geb_leb; apply Z.leb_gt; lia).
  set (s := nth (Z.to_nat (first + e)) se 0) in *.
  replace ((Z.abs s - 1 <? 0) || (Z.abs s - 1 >=? Z.of_nat (List.length ed))) with false.
  2:{ symmetry. apply orb_false_iff. split; [apply Z.ltb_ge; lia|].
      rewrite Z.geb_leb. apply Z.leb_gt. lia. }
  destruct (nth (Z.to_nat (Z.abs s - 1)) ed (0, 0)) as [v1 v2].
  destruct (s <? 0); reflexivity.
Qed.

Lemma face_fold_in_range se ed first xs :
  0 <= first ->
  (forall e, In e xs -> 0 <= e /\ first + e < Z.of_nat (List.length se) /\
             1 <= Z.abs (nth (Z.to_nat (first + e)) se 0) <= Z.of_nat (List.length ed)) ->
  forall acc,
  fold_left (Wmb.face_step se ed first) xs acc =
  match acc with
  | [] => Ref.spec_face_loop
            (map (fun e => Ref.resolve ed (nth (Z.to_nat (first + e)) se 0)) xs)
  | _ => acc ++ map (fun e => snd (Ref.resolve ed (nth (Z.to_nat (first + e)) se 0))) xs
  end.
Proof.
  intros Hf. induction xs as [|x xs IH]; intros Hin acc.
  - destruct acc; cbn; [reflexivity | rewrite app_nil_r; reflexivity].
  - cbn [fold_left]. destruct (Hin x (or_introl eq_refl)) as (Hx & Hs & Hr).
    rewrite face_step_in_range by assumption.
    rewrite IH by (intros e He; apply Hin; right; exact He).
    destruct acc as [|a acc]; cbn.
    + rewrite map_map. reflexivity.
    + destruct (acc ++ [_]) eqn:E; [destruct acc; discriminate|].
      rewrite <- E, <- app_assoc. reflexivity.
Qed.

Lemma face_step_skip se ed first acc e :
  Ref.surfedge_ok se ed first e = false -> Wmb.face_step se ed first acc e = acc.
Proof.
  unfold Ref.surfedge_ok, Wmb.face_step. intros H.
  destruct (Z.ltb_spec (first + e) (Z.of_nat (List.length se))) as [Hl|Hl].
  - replace (first + e >=? Z.of_nat (List.length se)) with false
      by (symmetry; rewrite Z.geb_leb; apply Z.leb_gt; lia).
    cbn [andb] in H.
    set (sf := nth (Z.to_nat (first + e)) se 0) in *.
    replace ((Z.abs sf - 1 <? 0) || (Z.abs sf - 1 >=? Z.of_nat (List.length ed))) with true;
      [reflexivity|].
    symmetry. apply orb_true_iff.
    destruct (Z.leb_spec 1 (Z.abs sf)); cbn [andb] in H.
    + right. rewrite Z.geb_leb. apply Z.leb_le. apply Z.leb_gt in H. lia.
    + left. apply Z.ltb_lt. lia.
  - replace (first + e >=? Z.of_nat (List.length se)) with true
      by (symmetry; rewrite Z.geb_leb; apply Z.leb_le; lia).
    reflexivity.
Qed.

Lemma face_fold_skip se ed first xs :
  forall acc,
  fold_left (Wmb.face_step se ed first) xs acc =
  fold_left (Wmb.face_step se ed first) (filter (Ref.surfedge_ok se ed first) xs) acc.
Proof.
  induction xs as [|x xs IH]; intros acc; [reflexivity|].
  cbn [fold_left filter]. destruct (Ref.surfedge_ok se ed first x) eqn:E.
  - cbn [fold_left]. apply IH.
  - rewrite face_step_skip by exact E. apply IH.
Qed.

(** C5 (as amended).  (1) When every surfedge of the run and the edge it
    names are in range, the walk yields the first resolved edge's first
    vertex followed by every resolved edge's second vertex; (2) negating a
    surfedge swaps the pair it contributes; (3) a closed quad walked with
    matching-direction surfedges gives the 5 vertices [a; b; c; d; a];
    (4) in general the walk skips every surfedge that is out of range or
    names a missing edge, and builds the loop from the remaining ones
    exactly as in (1). *)
Theorem C5_face_walk :
  (forall se ed first n,
      0 <= first -> Ref.run_in_range se ed first n = true ->
      Wmb.face_vertices se ed first n =
      Ref.spec_face_loop (map (Ref.resolve ed) (Ref.surfedge_run se first n))) /\
  (forall ed s, s <> 0 ->
      Ref.resolve ed (- s) = (snd (Ref.resolve ed s), fst (Ref.resolve ed s))) /\
  (forall a b c d,
      Wmb.face_vertices [1; 2; 3; 4] [(a, b); (b, c); (c, d); (d, a)] 0 4 = [a; b; c; d; a]) /\
  (forall se ed first n, 0 <= first ->
      Wmb.face_vertices se ed first n =
      Ref.spec_face_loop (map (fun e => Ref.resolve ed (nth (Z.to_nat (first + e)) se 0))
                              (filter (Ref.surfedge_ok se ed first) (range n)))).
Proof.
  split; [|split; [|split]].
  - intros se ed first n Hf Hr. unfold Wmb.face_vertices, Ref.surfedge_run.
    rewrite map_map.
    rewrite (face_fold_in_range se ed first (range n) Hf); [reflexivity|].
    intros e He. unfold Ref.run_in_range in Hr. rewrite forallb_forall in Hr.
    specialize (Hr e He). apply in_range in He.
    apply andb_prop in Hr as [Hr H3]. apply andb_prop in Hr as [H1 H2].
    apply Z.ltb_lt in H1. apply Z.leb_le in H2. apply Z.leb_le in H3. lia.
  - intros ed s Hs. unfold Ref.resolve. rewrite Z.abs_opp.
    destruct (nth (Z.to_nat (Z.abs s - 1)) ed (0, 0)) as [v1 v2].
    destruct (Z.ltb_spec (- s) 0), (Z.ltb_spec s 0); cbn; try reflexivity; lia.
  - intros a b c d. reflexivity.
  - intros se ed first n Hf. unfold Wmb.face_vertices. rewrite face_fold_skip.
    rewrite (face_fold_in_range se ed first _ Hf); [reflexivity|].
    intros e He. apply filter_In in He as [He Hok]. apply in_range in He.
    unfold Ref.surfedge_ok in Hok.
    apply andb_prop in Hok as [Hok H3]. apply andb_prop in Hok as [H1 H2].
    apply Z.ltb_lt in H1. apply Z.leb_le in H2. apply Z.leb_le in H3. lia.
Qed.

Lemma C5_witness :
  Wmb.face_vertices [1; -2; 3; 4] [(0, 1); (1, 2); (2, 3); (3, 0)] 0 4 =
  Ref.spec_face_loop (map (Ref.resolve [(0, 1); (1, 2); (2, 3); (3, 0)])
                          (Ref.surfedge_run [1; -2; 3; 4] 0 4)) /\
  Ref.resolve [(0, 1); (1, 2); (2, 3); (3, 0)] (Z.opp 2) = (2, 1) /\
  Wmb.face_vertices [1; 2; 3; 9] [(0, 1); (1, 2); (2, 3); (3, 0)] 0 4 = [0; 1; 2; 3].
Proof.
  destruct C5_face_walk as (H1 & H2 & _ & H4).
  split; [apply H1; [lia | vm_compute; reflexivity]|].
  split; [rewrite (H2 [(0, 1); (1, 2); (2, 3); (3, 0)] 2) by lia; vm_compute; reflexivity|].
  rewrite (H4 _ _ 0 4) by lia. vm_compute. reflexivity.
Defined.

(** C5 (as stated) fails: four surfedges over a closed quad give five
    vertices, the first one repeated at the end, not four. *)
Lemma C5_quad_has_five :
  Wmb.face_vertices [1; 2; 3; 4] [(0, 1); (1, 2); (2, 3); (3, 0)] 0 4 = [0; 1; 2; 3; 0] /\
  List.length (Wmb.face_vertices [1; 2; 3; 4] [(0, 1); (1, 2); (2, 3); (3, 0)] 0 4) <> 4%nat /\
  (exists w, Wmb.load (wmb6_quad [1; 2; 3; 4] 4) Wmb.empty = Ok w /\
             map Wmb.f_vertices (Wmb.faces w) = [[0; 1; 2; 3; 0]]).
Proof.
  split; [reflexivity|]. split; [vm_compute; discriminate|].
  exists (ok_or Wmb.empty (Wmb.load (wmb6_quad [1; 2; 3; 4] 4) Wmb.empty)).
  split; vm_compute; reflexivity.
Qed.

Lemma surfedges_keep_faces_edges data w w1 :
  Wmb.load_wmb6_surfedges data w = Ok w1 ->
  Wmb.faces w1 = Wmb.faces w /\ Wmb.edges w1 = Wmb.edges w.
Proof.
  unfold Wmb.load_wmb6_surfedges. intros H.
  apply bind_ok in H as (l & _ & H).
  destruct (Wmb.l_length l =? 0); [injection H as <-; auto|].
  apply bind_ok in H as (r & Hr & H). injection H as <-.
  apply (for_each_inv (fun s => Wmb.faces (fst s) = Wmb.faces w /\
                                Wmb.edges (fst s) = Wmb.edges w)) in Hr; [exact Hr | split; reflexivity|].
  intros x [w2 o] s2 _ Hp Hb. apply bind_ok in Hb as (v & _ & Hb). injection Hb as <-.
  exact Hp.
Qed.

Lemma face_loop data se ed xs :
  forall w off r, Wmb.surfedges w = se -> Wmb.edges w = ed ->
  for_each (Wmb.face_at data) xs (w, off) = Ok r ->
  Wmb.surfedges (fst r) = se /\ Wmb.edges (fst r) = ed /\
  exists new, Wmb.faces (fst r) = Wmb.faces w ++ new /\
              List.length new = List.length xs /\
              Forall (fun f => Wmb.f_vertices f =
                               Wmb.face_vertices se ed (Wmb.f_first_edge f) (Wmb.f_num_verts f))
                     new.
Proof.
  induction xs as [|x xs IH]; cbn; intros w off r Hs He H.
  - injection H as <-. cbn. split; [|split]; auto. exists []. rewrite app_nil_r. auto.
  - apply bind_ok in H as ([w1 o1] & H1 & H2). unfold Wmb.face_at in H1.
    apply bind_ok in H1 as (vals & _ & H1). injection H1 as <- <-.
    apply IH in H2 as (Hs' & He' & new & Hf & Hl & Hall); [|exact Hs|exact He].
    split; [exact Hs'|]. split; [exact He'|].
    eexists. split; [rewrite Hf; cbn; rewrite <- app_assoc; reflexivity|].
    split; [cbn; rewrite Hl; reflexivity|].
    constructor; [cbn; rewrite Hs, He; reflexivity | exact Hall].
Qed.

Lemma triangulate_skip_short_loop w fs :
  forall acc,
  for_each (fun f triangles => let* ts := Viewer.face_triangles w f in Ok (triangles ++ ts))
    fs acc =
  for_each (fun f triangles => let* ts := Viewer.face_triangles w f in Ok (triangles ++ ts))
    (filter (fun f => 3 <=? List.length (Wmb.f_vertices f))%nat fs) acc.
Proof.
  induction fs as [|f fs IH]; intros acc; [reflexivity|].
  cbn [filter]. destruct (Nat.leb_spec 3 (List.length (Wmb.f_vertices f))) as [H|H].
  - cbn [for_each]. destruct (Viewer.face_triangles w f); cbn [bind]; [apply IH | reflexivity].
  - cbn [for_each]. unfold Viewer.face_triangles at 1.
    replace (Nat.ltb (List.length (Wmb.f_vertices f)) 3) with true
      by (symmetry; apply Nat.ltb_lt; exact H).
    cbn [bind]. rewrite app_nil_r. apply IH.
Qed.

(** C4 (as amended).  When the faces lump is present, [_load_wmb6_faces]
    appends one face per 24-byte record, none dropped, and each face's
    vertex list is exactly the result of its surfedge walk (which may be
    empty, shorter than 3 or not closed); the faces with fewer than 3
    vertices are skipped when the viewer triangulates them:
    [triangulate_faces] gives the same result as on the faces with at
    least 3 vertices alone. *)
Theorem C4_faces_all_kept :
  (forall data w w' fl,
    Wmb.get_lump w "faces" = Ok fl -> Wmb.l_length fl <> 0 ->
    Wmb.load_wmb6_faces data w = Ok w' ->
    exists new,
      Wmb.faces w' = Wmb.faces w ++ new /\
      List.length new = Z.to_nat (Wmb.l_length fl / 24) /\
      Forall (fun f => Wmb.f_vertices f =
                       Wmb.face_vertices (Wmb.surfedges w') (Wmb.edges w')
                                         (Wmb.f_first_edge f) (Wmb.f_num_verts f)) new) /\
  (forall w,
    Viewer.triangulate_faces w =
    Viewer.triangulate_faces
      (Wmb.set_faces w (filter (fun f => 3 <=? List.length (Wmb.f_vertices f))%nat (Wmb.faces w)))).
Proof.
  split.
  2:{ intros w. unfold Viewer.triangulate_faces. rewrite triangulate_skip_short_loop.
      reflexivity. }
  intros data w w' fl Hfl Hne H. unfold Wmb.load_wmb6_faces in H.
  rewrite Hfl in H. cbn [bind] in H.
  replace (Wmb.l_length fl =? 0) with false in H by (symmetry; apply Z.eqb_neq; exact Hne).
  apply bind_ok in H as (w1 & Hw1 & H).
  apply surfedges_keep_faces_edges in Hw1 as [Hf1 He1].
  apply bind_ok in H as (r & Hr & H). injection H as <-.
  apply (face_loop data (Wmb.surfedges w1) (Wmb.edges w1)) in Hr
    as (Hs & He & new & Hf & Hl & Hall); [|reflexivity|reflexivity].
  exists new. rewrite Hs, He, Hf, Hf1. split; [reflexivity|].
  split; [rewrite Hl; apply length_range | exact Hall].
Qed.

Lemma C4_witness :
  exists w' fl,
    Wmb.get_lump (ok_or Wmb.empty (Wmb.read_directory Wmb.wmb6_names (wmb6_quad [1; 2; 3; 4] 0)
                                     Wmb.empty)) "faces" = Ok fl /\
    Wmb.load_wmb6_faces (wmb6_quad [1; 2; 3; 4] 0)
      (ok_or Wmb.empty (Wmb.read_directory Wmb.wmb6_names (wmb6_quad [1; 2; 3; 4] 0) Wmb.empty))
      = Ok w' /\
    List.length (Wmb.faces w') = 1%nat.
Proof.
  set (data := wmb6_quad [1; 2; 3; 4] 0).
  set (w := ok_or Wmb.empty (Wmb.read_directory Wmb.wmb6_names data Wmb.empty)).
  set (w' := ok_or w (Wmb.load_wmb6_faces data w)).
  set (fl := ok_or {| Wmb.l_offset := 0; Wmb.l_length := 0 |} (Wmb.get_lump w "faces")).
  assert (Hl : Wmb.get_lump w "faces" = Ok fl) by (vm_compute; reflexivity).
  assert (Hw : Wmb.load_wmb6_faces data w = Ok w') by (vm_compute; reflexivity).
  exists w', fl. split; [exact Hl|]. split; [exact Hw|].
  destruct (proj1 C4_faces_all_kept data w w' fl Hl ltac:(vm_compute; discriminate) Hw)
    as (new & Hf & Hlen & _).
  rewrite Hf, length_app, Hlen. vm_compute. reflexivity.
Defined.

(** C4 (as stated) fails: a face record declaring 0 vertices is kept with an
    empty vertex list, and one whose last surfedge names a missing edge is
    kept with the open list [0; 1; 2; 3]. *)
Lemma C4_degenerate_faces_kept :
  (exists w, Wmb.load (wmb6_quad [1; 2; 3; 4] 0) Wmb.empty = Ok w /\
             map Wmb.f_vertices (Wmb.faces w) = [[]]) /\
  (exists w, Wmb.load (wmb6_quad [1; 2; 3; 9] 4) Wmb.empty = Ok w /\
             map Wmb.f_vertices (Wmb.faces w) = [[0; 1; 2; 3]]).
Proof.
  split.
  - exists (ok_or Wmb.empty (Wmb.load (wmb6_quad [1; 2; 3; 4] 0) Wmb.empty)).
    split; vm_compute; reflexivity.
  - exists (ok_or Wmb.empty (Wmb.load (wmb6_quad [1; 2; 3; 9] 4) Wmb.empty)).
    split; vm_compute; reflexivity.
Qed.
End Props.

(* ------------------------------------------------------------------ *)
(** * Further properties of the loaders and their callers *)

Module Extra.

Import Samples Props ExtraDefs.

Lemma bytes_eqb_true a b : bytes_eqb a b = true -> a = b.
Proof.
  revert b; induction a as [|x a IH]; intros [|y b]; unfold bytes_eqb; cbn;
    try discriminate; auto.
  intros H. apply andb_prop in H as [Hl H]. apply andb_prop in H as [Hxy H].
  apply Byte.byte_dec_bl in Hxy. subst. f_equal. apply IH.
  unfold bytes_eqb. rewrite Hl, H. reflexivity.
Qed.

Lemma bytes_eqb_refl a : bytes_eqb a a = true.
Proof.
  induction a as [|x a IH]; [reflexivity|].
  unfold bytes_eqb in *. cbn. apply andb_prop in IH as [Hl H].
  rewrite Hl, Byte.byte_dec_lb, H by reflexivity. reflexivity.
Qed.

Lemma index_ok bs k :
  0 <= k < Z.of_nat (List.length bs) -> index bs k = Ok (u8 (nth (Z.to_nat k) bs Byte.x00)).
Proof.
  intros H. unfold index.
  replace (k <? 0) with false by (symmetry; apply Z.ltb_ge; lia).
  replace ((0 <=? k) && (k <? Z.of_nat (List.length bs))) with true
    by (symmetry; apply andb_true_iff; split; [apply Z.leb_le | apply Z.ltb_lt]; lia).
  reflexivity.
Qed.

Lemma index_err bs k :
  0 <= k -> Z.of_nat (List.length bs) <= k -> index bs k = Err IndexError.
Proof.
  intros H0 H. unfold index.
  replace (k <? 0) with false by (symmetry; apply Z.ltb_ge; lia).
  replace ((0 <=? k) && (k <? Z.of_nat (List.length bs))) with false
    by (symmetry; apply andb_false_iff; right; apply Z.ltb_ge; lia).
  reflexivity.
Qed.

(** Loops whose every iteration succeeds succeed. *)
Lemma for_each_all_ok {A S} (body : A -> S -> res S) xs :
  (forall x s, In x xs -> exists s', body x s = Ok s') ->
  forall s, exists s', for_each body xs s = Ok s'.
Proof.
  induction xs as [|x xs IH]; cbn; intros H s; [eauto|].
  destruct (H x s (or_introl eq_refl)) as (s1 & ->). cbn.
  apply IH. intros; apply H; auto.
Qed.

(** A loop one of whose iterations always fails with [e], and whose other
    iterations succeed or fail with [e], fails with [e]. *)
Lemma for_each_some_err {A S} (body : A -> S -> res S) xs e :
  (forall x s, In x xs -> (exists s', body x s = Ok s') \/ body x s = Err e) ->
  (exists x, In x xs /\ forall s, body x s = Err e) ->
  forall s, for_each body xs s = Err e.
Proof.
  induction xs as [|x xs IH]; cbn; intros Hall (y & Hy & Hf) s; [contradiction|].
  destruct Hy as [<- | Hy].
  - rewrite Hf. reflexivity.
  - destruct (Hall x s (or_introl eq_refl)) as [(s1 & ->) | ->]; cbn; [|reflexivity].
    apply IH; eauto.
Qed.

(** The pixel data of a slice [data[a:a+k]] has [min k (len - a)] bytes. *)
Lemma slice_len_from data a k :
  0 <= a -> 0 <= k ->
  Z.of_nat (List.length (slice data a (a + k))) =
  Z.max 0 (Z.min k (Z.of_nat (List.length data) - a)).
Proof.
  intros Ha Hk. rewrite slice_length by lia. lia.
Qed.

(** X1.  [MDL.load] raises [struct.error] on a buffer shorter than 4 bytes,
    and leaves the model untouched when the 4-byte tag is none of IDPO,
    MDL3, MDL4, MDL5, MDL7. *)
Theorem X1_load_dispatch_edges :
  (forall data m, (List.length data < 4)%nat -> Mdl.load data m = Err StructError) /\
  (forall data m, (4 <= List.length data)%nat ->
     ~ In (firstn 4 data) [tag "IDPO"; tag "MDL3"; tag "MDL4"; tag "MDL5"; tag "MDL7"] ->
     Mdl.load data m = Ok m).
Proof.
  split.
  - intros data m H. unfold Mdl.load. rewrite unpack_from_short by (cbn; lia). reflexivity.
  - intros data m H Hn. unfold Mdl.load.
    rewrite unpack_from_fits by (cbn; lia). cbn [bind].
    change (bytes_at (decode_fields [Fs 4] (firstn (Z.to_nat (calcsize [Fs 4]))
                                                (skipn (Z.to_nat 0) data))) 0)
      with (firstn 4 (firstn 4 data)).
    rewrite firstn_firstn. cbn [Nat.min].
    destruct (bytes_eqb (firstn 4 data) (tag "IDPO")) eqn:E1;
      [apply bytes_eqb_true in E1; rewrite E1 in Hn; cbn in Hn; tauto|].
    destruct (bytes_eqb (firstn 4 data) (tag "MDL3")) eqn:E3;
      [apply bytes_eqb_true in E3; rewrite E3 in Hn; cbn in Hn; tauto|].
    destruct (bytes_eqb (firstn 4 data) (tag "MDL4")) eqn:E4;
      [apply bytes_eqb_true in E4; rewrite E4 in Hn; cbn in Hn; tauto|].
    destruct (bytes_eqb (firstn 4 data) (tag "MDL5")) eqn:E5;
      [apply bytes_eqb_true in E5; rewrite E5 in Hn; cbn in Hn; tauto|].
    destruct (bytes_eqb (firstn 4 data) (tag "MDL7")) eqn:E7;
      [apply bytes_eqb_true in E7; rewrite E7 in Hn; cbn in Hn; tauto|].
    reflexivity.
Qed.

Lemma X1_witness :
  Mdl.load (Enc.ub 1) Mdl.empty = Err StructError /\
  Mdl.load (tag "RIFF") Mdl.empty = Ok Mdl.empty.
Proof.
  destruct X1_load_dispatch_edges as [H1 H2].
  split; [apply H1; cbn; lia|].
  apply H2; [cbn; lia | vm_compute; intuition discriminate].
Defined.

Lemma index_ok_or_err bs k : (exists z, index bs k = Ok z) \/ index bs k = Err IndexError.
Proof.
  unfold index. destruct (_ && _); [left; eauto | right; reflexivity].
Qed.

Lemma byte_step_ok_or_err h vd (i : Z) (acc : list Mdl.vec3) :
  (exists acc', (let v_packed := slice vd (i * 4) (i * 4 + 4) in
                 let* x := index v_packed 0 in
                 let* y := index v_packed 1 in
                 let* z := index v_packed 2 in
                 Ok (acc ++ [Mdl.dequant3 h x y z])) = Ok acc') \/
  (let v_packed := slice vd (i * 4) (i * 4 + 4) in
   let* x := index v_packed 0 in
   let* y := index v_packed 1 in
   let* z := index v_packed 2 in
   Ok (acc ++ [Mdl.dequant3 h x y z])) = Err IndexError.
Proof.
  cbv zeta.
  destruct (index_ok_or_err (slice vd (i * 4) (i * 4 + 4)) 0) as [(x & ->) | ->]; cbn; [|auto].
  destruct (index_ok_or_err (slice vd (i * 4) (i * 4 + 4)) 1) as [(y & ->) | ->]; cbn; [|auto].
  destruct (index_ok_or_err (slice vd (i * 4) (i * 4 + 4)) 2) as [(z & ->) | ->]; cbn; eauto.
Qed.

(** X2.  The byte-packed vertex loop of IDPO and MDL3/4/5 frames succeeds
    exactly when [num_verts <= 0] or the vertex block holds at least
    [4 * num_verts - 1] bytes (the last vertex's light-normal byte may be
    missing); otherwise indexing the short [v_packed] raises [IndexError]. *)
Theorem X2_byte_packed_bounds :
  forall h vd n,
    ((n <= 0 \/ 4 * n - 1 <= Z.of_nat (List.length vd)) ->
       exists vs, Mdl.byte_packed_verts h vd n = Ok vs) /\
    (0 < n -> Z.of_nat (List.length vd) < 4 * n - 1 ->
       Mdl.byte_packed_verts h vd n = Err IndexError).
Proof.
  intros h vd n. split.
  - intros Hn. unfold Mdl.byte_packed_verts. apply for_each_all_ok.
    intros i acc Hi. apply in_range in Hi.
    assert (Hl := slice_len_from vd (i * 4) 4 ltac:(lia) ltac:(lia)).
    cbv zeta.
    rewrite (index_ok _ 0) by lia. cbn [bind].
    rewrite (index_ok _ 1) by lia. cbn [bind].
    rewrite (index_ok _ 2) by lia. cbn [bind]. eauto.
  - intros Hn Hl. unfold Mdl.byte_packed_verts. apply for_each_some_err.
    + intros i acc _. apply byte_step_ok_or_err.
    + exists (n - 1). split.
      * unfold range. apply in_map_iff. exists (Z.to_nat (n - 1)).
        split; [lia | apply in_seq; lia].
      * intros acc.
        assert (Hs := slice_len_from vd ((n - 1) * 4) 4 ltac:(lia) ltac:(lia)).
        cbv zeta.
        set (vp := slice vd ((n - 1) * 4) ((n - 1) * 4 + 4)) in *.
        destruct (Z.le_gt_cases (Z.of_nat (List.length vp)) 0).
        { rewrite (index_err vp 0) by lia. reflexivity. }
        rewrite (index_ok vp 0) by lia. cbn [bind].
        destruct (Z.le_gt_cases (Z.of_nat (List.length vp)) 1).
        { rewrite (index_err vp 1) by lia. reflexivity. }
        rewrite (index_ok vp 1) by lia. cbn [bind].
        rewrite (index_err vp 2) by lia. reflexivity.
Qed.

Lemma X2_witness :
  (exists vs, Mdl.byte_packed_verts (Mdl.idpo_header_of []) (Enc.zeros 7) 2 = Ok vs) /\
  Mdl.byte_packed_verts (Mdl.idpo_header_of []) (Enc.zeros 6) 2 = Err IndexError.
Proof.
  split.
  - apply (proj1 (X2_byte_packed_bounds _ _ _)). right. cbn. lia.
  - apply (proj2 (X2_byte_packed_bounds _ _ _)); cbn; lia.
Defined.

(** X3.  The word-packed vertex loop of MDL3/4/5 frames of non-zero type
    succeeds exactly when [num_verts <= 0] or the vertex block holds
    [8 * num_verts] bytes; otherwise [struct.unpack_from] raises. *)
Theorem X3_word_packed_bounds :
  forall h vd n,
    ((n <= 0 \/ 8 * n <= Z.of_nat (List.length vd)) ->
       exists vs, Mdl.word_packed_verts h vd n = Ok vs) /\
    (0 < n -> Z.of_nat (List.length vd) < 8 * n ->
       Mdl.word_packed_verts h vd n = Err StructError).
Proof.
  intros h vd n. split.
  - intros Hn. unfold Mdl.word_packed_verts. apply for_each_all_ok.
    intros i acc Hi. apply in_range in Hi.
    rewrite unpack_from_fits by (cbn; lia). cbn [bind]. eauto.
  - intros Hn Hl. unfold Mdl.word_packed_verts. apply for_each_some_err.
    + intros i acc _. unfold unpack_from, unpack_span.
      destruct (_ <? 0); [right; reflexivity|].
      destruct (_ <? _); [right; reflexivity|]. left. cbn. eauto.
    + exists (n - 1). split.
      * unfold range. apply in_map_iff. exists (Z.to_nat (n - 1)).
        split; [lia | apply in_seq; lia].
      * intros acc. rewrite unpack_from_short by (cbn; lia). reflexivity.
Qed.

Lemma X3_witness :
  (exists vs, Mdl.word_packed_verts (Mdl.idpo_header_of []) (Enc.zeros 16) 2 = Ok vs) /\
  Mdl.word_packed_verts (Mdl.idpo_header_of []) (Enc.zeros 15) 2 = Err StructError.
Proof.
  split.
  - apply (proj1 (X3_word_packed_bounds _ _ _)). right. cbn. lia.
  - apply (proj2 (X3_word_packed_bounds _ _ _)); cbn; lia.
Defined.

(** A loop each of whose iterations appends exactly one element (with
    property [Q]) to the list [f s] appends one element per iteration. *)
Lemma for_each_appends {A S B} (f : S -> list B) (Q : B -> Prop)
    (body : A -> S -> res S) xs :
  (forall x s1 s2, In x xs -> body x s1 = Ok s2 -> exists y, f s2 = f s1 ++ [y] /\ Q y) ->
  forall s s', for_each body xs s = Ok s' ->
  exists ys, f s' = f s ++ ys /\ List.length ys = List.length xs /\ Forall Q ys.
Proof.
  induction xs as [|x xs IH]; cbn; intros Hb s s' H.
  - injection H as <-. exists []. rewrite app_nil_r. auto.
  - apply bind_ok in H as (s1 & H1 & H2).
    destruct (Hb x s s1 (or_introl eq_refl) H1) as (y & Hy & Qy).
    destruct (IH (fun x0 a b Hi => Hb x0 a b (or_intror Hi)) _ _ H2) as (ys & Hys & Hl & Hq).
    exists (y :: ys). rewrite Hys, Hy, <- app_assoc. cbn. auto.
Qed.

(** The same when an iteration appends at most one element. *)
Lemma for_each_appends_le {A S B} (f : S -> list B) (Q : B -> Prop)
    (body : A -> S -> res S) xs :
  (forall x s1 s2, In x xs -> body x s1 = Ok s2 ->
                   f s2 = f s1 \/ exists y, f s2 = f s1 ++ [y] /\ Q y) ->
  forall s s', for_each body xs s = Ok s' ->
  exists ys, f s' = f s ++ ys /\ (List.length ys <= List.length xs)%nat /\ Forall Q ys.
Proof.
  induction xs as [|x xs IH]; cbn; intros Hb s s' H.
  - injection H as <-. exists []. rewrite app_nil_r. auto.
  - apply bind_ok in H as (s1 & H1 & H2).
    destruct (IH (fun x0 a b Hi => Hb x0 a b (or_intror Hi)) _ _ H2) as (ys & Hys & Hl & Hq).
    destruct (Hb x s s1 (or_introl eq_refl) H1) as [Hy | (y & Hy & Qy)].
    + exists ys. rewrite Hys, Hy. split; [reflexivity|]. split; [lia | exact Hq].
    + exists (y :: ys). rewrite Hys, Hy, <- app_assoc. cbn. split; [reflexivity|].
      split; [lia | constructor; assumption].
Qed.

Lemma byte_packed_length h vd n vs :
  Mdl.byte_packed_verts h vd n = Ok vs -> List.length vs = Z.to_nat n.
Proof.
  unfold Mdl.byte_packed_verts. intros H.
  apply (for_each_appends (fun l => l) (fun _ => True)) in H.
  - destruct H as (ys & -> & Hl & _). cbn. rewrite Hl. apply length_range.
  - intros i s1 s2 _ Hb. cbv zeta in Hb.
    apply bind_ok in Hb as (x & _ & Hb). apply bind_ok in Hb as (y & _ & Hb).
    apply bind_ok in Hb as (z & _ & Hb). injection Hb as <-. eauto.
Qed.

Lemma idpo_skin_step data h i m off r :
  Mdl.idpo_skin data h i (m, off) = Ok r ->
  non_skin (fst r) = non_skin m /\
  (Mdl.skins (fst r) = Mdl.skins m \/ exists s, Mdl.skins (fst r) = Mdl.skins m ++ [s]).
Proof.
  unfold Mdl.idpo_skin. intros H.
  apply bind_ok in H as (vs & _ & H).
  repeat match type of H with
         | context [if ?c then _ else _] => destruct c
         end;
  try (injection H as <-; cbn; eauto; fail).
  apply bind_ok in H as (nb & _ & H). apply bind_ok in H as (tv & _ & H).
  apply bind_ok in H as ([gs o] & _ & H). injection H as <-. cbn. eauto.
Qed.

Lemma load_frames_idpo_loop_spec n data h :
  forall m off r, Mdl.load_frames_idpo_loop n data h m off = Ok r ->
  Mdl.header (fst r) = Mdl.header m /\ Mdl.skins (fst r) = Mdl.skins m /\
  Mdl.texcoords (fst r) = Mdl.texcoords m /\ Mdl.triangles (fst r) = Mdl.triangles m /\
  exists fs, Mdl.frames (fst r) = Mdl.frames m ++ fs /\ (List.length fs <= n)%nat /\
             Forall (fun f => List.length (Mdl.fr_verts f) = Z.to_nat (Mdl.q_num_verts h)) fs.
Proof.
  induction n as [|n IH]; cbn [Mdl.load_frames_idpo_loop]; intros m off r H.
  - injection H as <-. cbn. repeat split; auto. exists []. rewrite app_nil_r.
    split; [reflexivity|]. split; [cbn; lia | constructor].
  - apply bind_ok in H as (vs & _ & H).
    destruct (int_at vs 0 =? 0).
    + apply bind_ok in H as (fh & _ & H). apply bind_ok in H as (fv & Hfv & H).
      apply byte_packed_length in Hfv.
      apply IH in H as (H1 & H2 & H3 & H4 & fs & H5 & H6 & H7). cbn in H1, H2, H3, H4, H5.
      repeat split; auto.
      eexists. rewrite H5, <- app_assoc. split; [reflexivity|]. split; [cbn; lia|].
      constructor; [exact Hfv | exact H7].
    + injection H as <-. cbn. repeat split; auto. exists []. rewrite app_nil_r.
      split; [reflexivity|]. split; [cbn; lia | constructor].
Qed.

(** X4.  On success, [_load_idpo] sets the header, appends at most
    [num_skins] skins, exactly [num_verts] texture coordinates (0 when the
    count is negative), exactly [num_tris] triangles and at most
    [num_frames] frames, each of [num_verts] vertices. *)
Theorem X4_idpo_counts :
  forall data m m', Mdl.load_idpo data m = Ok m' ->
  exists u, unpack_from Mdl.idpo_header_fmt data 0 = Ok u /\
    Mdl.header m' = Mdl.HdrQuake (Mdl.idpo_header_of u) /\
    (exists sk, Mdl.skins m' = Mdl.skins m ++ sk /\
       (List.length sk <= Z.to_nat (Mdl.q_num_skins (Mdl.idpo_header_of u)))%nat) /\
    (exists tc, Mdl.texcoords m' = Mdl.texcoords m ++ tc /\
       List.length tc = Z.to_nat (Mdl.q_num_verts (Mdl.idpo_header_of u))) /\
    (exists ts, Mdl.triangles m' = Mdl.triangles m ++ ts /\
       List.length ts = Z.to_nat (Mdl.q_num_tris (Mdl.idpo_header_of u))) /\
    (exists fs, Mdl.frames m' = Mdl.frames m ++ fs /\
       (List.length fs <= Z.to_nat (Mdl.q_num_frames (Mdl.idpo_header_of u)))%nat /\
       Forall (fun f => List.length (Mdl.fr_verts f) =
                        Z.to_nat (Mdl.q_num_verts (Mdl.idpo_header_of u))) fs).
Proof.
  intros data m m' H. unfold Mdl.load_idpo in H.
  apply bind_ok in H as (u & Hu & H). exists u. split; [exact Hu|].
  set (h := Mdl.idpo_header_of u) in *.
  apply bind_ok in H as ([m1 o1] & Hsk & H).
  assert (Hs1 := Hsk).
  apply (for_each_inv (fun s => non_skin (fst s) = non_skin (Mdl.set_header m (Mdl.HdrQuake h))))
    in Hs1; [|reflexivity|].
  2:{ intros x [ma oa] sb _ Hp Hb. apply idpo_skin_step in Hb as [Hb _]. rewrite Hb. exact Hp. }
  apply (for_each_appends_le (fun s => Mdl.skins (fst s)) (fun _ => True)) in Hsk
    as (sk & Hsk & Hskl & _).
  2:{ intros x [ma oa] sb _ Hb. apply idpo_skin_step in Hb as [_ [Hb | (y & Hb)]]; eauto. }
  cbn in Hs1, Hsk. rewrite length_range in Hskl.
  unfold non_skin in Hs1. cbn in Hs1. injection Hs1 as Hh1 Ht1 Hv1 Htr1 Hf1.
  apply bind_ok in H as ([m2 o2] & Htc & H).
  assert (Hi2 := Htc).
  apply (for_each_inv (fun s => Mdl.header (fst s) = Mdl.header m1 /\ Mdl.skins (fst s) = Mdl.skins m1 /\
                                Mdl.triangles (fst s) = Mdl.triangles m1 /\ Mdl.frames (fst s) = Mdl.frames m1))
    in Hi2; [|repeat split|].
  2:{ intros x [ma oa] sb _ Hp Hb. unfold Mdl.idpo_texcoord in Hb.
      apply bind_ok in Hb as (st & _ & Hb). injection Hb as <-. exact Hp. }
  apply (for_each_appends (fun s => Mdl.texcoords (fst s)) (fun _ => True)) in Htc
    as (tc & Htc & Htcl & _).
  2:{ intros x [ma oa] sb _ Hb. unfold Mdl.idpo_texcoord in Hb.
      apply bind_ok in Hb as (st & _ & Hb). injection Hb as <-. cbn. eauto. }
  cbn in Hi2, Htc. rewrite length_range in Htcl. destruct Hi2 as (Hh2 & Hs2 & Htr2 & Hf2).
  apply bind_ok in H as ([m3 o3] & Htr & H).
  assert (Hi3 := Htr).
  apply (for_each_inv (fun s => Mdl.header (fst s) = Mdl.header m2 /\ Mdl.skins (fst s) = Mdl.skins m2 /\
                                Mdl.texcoords (fst s) = Mdl.texcoords m2 /\ Mdl.frames (fst s) = Mdl.frames m2))
    in Hi3; [|repeat split|].
  2:{ intros x [ma oa] sb _ Hp Hb. unfold Mdl.idpo_triangle in Hb.
      apply bind_ok in Hb as (t & _ & Hb). injection Hb as <-. exact Hp. }
  apply (for_each_appends (fun s => Mdl.triangles (fst s)) (fun _ => True)) in Htr
    as (ts & Htr & Htrl & _).
  2:{ intros x [ma oa] sb _ Hb. unfold Mdl.idpo_triangle in Hb.
      apply bind_ok in Hb as (t & _ & Hb). injection Hb as <-. cbn. eauto. }
  cbn in Hi3, Htr. rewrite length_range in Htrl. destruct Hi3 as (Hh3 & Hs3 & Htc3 & Hf3).
  apply bind_ok in H as ([m4 o4] & Hfr & H). injection H as <-. cbn.
  apply load_frames_idpo_loop_spec in Hfr as (Hh4 & Hs4 & Htc4 & Htr4 & fs & Hf4 & Hfl & Hfv).
  cbn in *.
  split; [congruence|].
  split; [exists sk; split; [congruence | exact Hskl]|].
  split; [exists tc; split; [congruence | exact Htcl]|].
  split; [exists ts; split; [congruence | exact Htrl]|].
  exists fs. split; [congruence|]. split; [exact Hfl | exact Hfv].
Qed.

Lemma X4_witness :
  exists m', Mdl.load_idpo idpo_group_frame Mdl.empty = Ok m' /\
    List.length (Mdl.texcoords m') = 1%nat.
Proof.
  set (m' := ok_or Mdl.empty (Mdl.load_idpo idpo_group_frame Mdl.empty)).
  assert (H : Mdl.load_idpo idpo_group_frame Mdl.empty = Ok m') by (vm_compute; reflexivity).
  exists m'. split; [exact H|].
  destruct (X4_idpo_counts _ _ _ H) as (u & Hu & _ & _ & (tc & Htc & Hl) & _).
  rewrite Htc, length_app, Hl. revert Hu. vm_compute. intros Hu. injection Hu as <-.
  vm_compute. reflexivity.
Defined.

Lemma word_packed_length h vd n vs :
  Mdl.word_packed_verts h vd n = Ok vs -> List.length vs = Z.to_nat n.
Proof.
  unfold Mdl.word_packed_verts. intros H.
  apply (for_each_appends (fun l => l) (fun _ => True)) in H.
  - destruct H as (ys & -> & Hl & _). cbn. rewrite Hl. apply length_range.
  - intros i s1 s2 _ Hb. apply bind_ok in Hb as (x & _ & Hb). injection Hb as <-. eauto.
Qed.

Lemma mdl345_skin_step data h i m off r :
  Mdl.mdl345_skin data h i (m, off) = Ok r ->
  non_skin (fst r) = non_skin m /\ exists s, Mdl.skins (fst r) = Mdl.skins m ++ [s].
Proof.
  unfold Mdl.mdl345_skin. intros H.
  apply bind_ok in H as (vs & _ & H).
  destruct (Mdl.mdl345_bpp _) as [bpp str].
  apply bind_ok in H as ([[w ht] o] & _ & H). injection H as <-. cbn. eauto.
Qed.

Lemma mdl345_frame_step data h i m off r :
  Mdl.mdl345_frame data h i (m, off) = Ok r ->
  non_skin (Mdl.set_frames (fst r) []) = non_skin (Mdl.set_frames m []) /\
  Mdl.skins (fst r) = Mdl.skins m /\
  exists f, Mdl.frames (fst r) = Mdl.frames m ++ [f] /\
            List.length (Mdl.fr_verts f) = Z.to_nat (Mdl.q_num_verts h).
Proof.
  unfold Mdl.mdl345_frame. intros H.
  apply bind_ok in H as (vs & _ & H). apply bind_ok in H as (bb & _ & H).
  apply bind_ok in H as (nm & _ & H).
  destruct (int_at vs 0 =? 0).
  - apply bind_ok in H as ([fv o] & Hv & H). injection H as <-.
    apply bind_ok in Hv as (fv' & Hfv & Hv). injection Hv as <- <-.
    apply byte_packed_length in Hfv. cbn. split; [reflexivity|]. split; [reflexivity|]. eauto.
  - apply bind_ok in H as ([fv o] & Hv & H). injection H as <-.
    apply bind_ok in Hv as (fv' & Hfv & Hv). injection Hv as <- <-.
    apply word_packed_length in Hfv. cbn. split; [reflexivity|]. split; [reflexivity|]. eauto.
Qed.

(** X5.  On success, [_load_mdl345] keeps one skin per declared skin
    (unknown skin types included) and appends exactly [num_skinverts] skin
    vertices, [num_tris] triangles and [num_frames] frames, each frame with
    [num_verts] vertices: unlike the IDPO loader it has no early return.
    The texture coordinates are left alone. *)
Theorem X5_mdl345_counts :
  forall data m m', Mdl.load_mdl345 data m = Ok m' ->
  exists u, unpack_from Mdl.mdl345_header_fmt data 0 = Ok u /\
    let h := Mdl.mdl345_header_of u in
    Mdl.header m' = Mdl.HdrQuake h /\
    Mdl.texcoords m' = Mdl.texcoords m /\
    (exists sk, Mdl.skins m' = Mdl.skins m ++ sk /\
       List.length sk = Z.to_nat (Mdl.q_num_skins h)) /\
    (exists sv nsv, Mdl.q_num_skinverts h = Some nsv /\
       Mdl.skinverts m' = Mdl.skinverts m ++ sv /\ List.length sv = Z.to_nat nsv) /\
    (exists ts, Mdl.triangles m' = Mdl.triangles m ++ ts /\
       List.length ts = Z.to_nat (Mdl.q_num_tris h)) /\
    (exists fs, Mdl.frames m' = Mdl.frames m ++ fs /\
       List.length fs = Z.to_nat (Mdl.q_num_frames h) /\
       Forall (fun f => List.length (Mdl.fr_verts f) = Z.to_nat (Mdl.q_num_verts h)) fs).
Proof.
  intros data m m' H. unfold Mdl.load_mdl345 in H.
  apply bind_ok in H as (u & Hu & H). exists u. split; [exact Hu|].
  set (h := Mdl.mdl345_header_of u) in *. cbv zeta.
  apply bind_ok in H as ([m1 o1] & Hsk & H).
  assert (Hs1 := Hsk).
  apply (for_each_inv (fun s => non_skin (fst s) = non_skin (Mdl.set_header m (Mdl.HdrQuake h))))
    in Hs1; [|reflexivity|].
  2:{ intros x [ma oa] sb _ Hp Hb. apply mdl345_skin_step in Hb as [Hb _]. rewrite Hb. exact Hp. }
  apply (for_each_appends (fun s => Mdl.skins (fst s)) (fun _ => True)) in Hsk
    as (sk & Hsk & Hskl & _).
  2:{ intros x [ma oa] sb _ Hb. apply mdl345_skin_step in Hb as [_ (y & Hb)]; eauto. }
  cbn in Hs1, Hsk. rewrite length_range in Hskl.
  unfold non_skin in Hs1. cbn in Hs1. injection Hs1 as Hh1 Ht1 Hv1 Htr1 Hf1.
  assert (Hnsv : Mdl.q_num_skinverts h = Some (int_at u 18)) by reflexivity.
  rewrite Hnsv in H.
  apply bind_ok in H as ([m2 o2] & Hsv & H).
  assert (Hi2 := Hsv).
  apply (for_each_inv (fun s => Mdl.header (fst s) = Mdl.header m1 /\ Mdl.skins (fst s) = Mdl.skins m1 /\
                                Mdl.texcoords (fst s) = Mdl.texcoords m1 /\
                                Mdl.triangles (fst s) = Mdl.triangles m1 /\ Mdl.frames (fst s) = Mdl.frames m1))
    in Hi2; [|repeat split|].
  2:{ intros x [ma oa] sb _ Hp Hb. unfold Mdl.mdl345_skinvert in Hb.
      apply bind_ok in Hb as (st & _ & Hb). injection Hb as <-. exact Hp. }
  apply (for_each_appends (fun s => Mdl.skinverts (fst s)) (fun _ => True)) in Hsv
    as (sv & Hsv & Hsvl & _).
  2:{ intros x [ma oa] sb _ Hb. unfold Mdl.mdl345_skinvert in Hb.
      apply bind_ok in Hb as (st & _ & Hb). injection Hb as <-. cbn. eauto. }
  cbn in Hi2, Hsv. rewrite length_range in Hsvl. destruct Hi2 as (Hh2 & Hs2 & Htc2 & Htr2 & Hf2).
  apply bind_ok in H as ([m3 o3] & Htr & H).
  assert (Hi3 := Htr).
  apply (for_each_inv (fun s => Mdl.header (fst s) = Mdl.header m2 /\ Mdl.skins (fst s) = Mdl.skins m2 /\
                                Mdl.texcoords (fst s) = Mdl.texcoords m2 /\
                                Mdl.skinverts (fst s) = Mdl.skinverts m2 /\ Mdl.frames (fst s) = Mdl.frames m2))
    in Hi3; [|repeat split|].
  2:{ intros x [ma oa] sb _ Hp Hb. unfold Mdl.mdl345_triangle in Hb.
      apply bind_ok in Hb as (t & _ & Hb). injection Hb as <-. exact Hp. }
  apply (for_each_appends (fun s => Mdl.triangles (fst s)) (fun _ => True)) in Htr
    as (ts & Htr & Htrl & _).
  2:{ intros x [ma oa] sb _ Hb. unfold Mdl.mdl345_triangle in Hb.
      apply bind_ok in Hb as (t & _ & Hb). injection Hb as <-. cbn. eauto. }
  cbn in Hi3, Htr. rewrite length_range in Htrl. destruct Hi3 as (Hh3 & Hs3 & Htc3 & Hsv3 & Hf3).
  apply bind_ok in H as ([m4 o4] & Hfr & H). injection H as <-. cbn.
  unfold Mdl.load_frames_mdl345 in Hfr.
  assert (Hi4 := Hfr).
  apply (for_each_inv (fun s => non_skin (Mdl.set_frames (fst s) []) = non_skin (Mdl.set_frames m3 []) /\
                                Mdl.skins (fst s) = Mdl.skins m3))
    in Hi4; [|split; reflexivity|].
  2:{ intros x [ma oa] sb _ [Hp Hq] Hb. apply mdl345_frame_step in Hb as (Hb & Hc & _).
      rewrite Hb, Hc. auto. }
  apply (for_each_appends (fun s => Mdl.frames (fst s))
           (fun f => List.length (Mdl.fr_verts f) = Z.to_nat (Mdl.q_num_verts h))) in Hfr
    as (fs & Hfs & Hfl & Hfv).
  2:{ intros x [ma oa] sb _ Hb. apply mdl345_frame_step in Hb as (_ & _ & Hb). exact Hb. }
  cbn in Hi4, Hfs. rewrite length_range in Hfl. destruct Hi4 as [Hi4 Hs4].
  unfold non_skin in Hi4. cbn in Hi4. injection Hi4 as Hh4 Htc4 Hsv4 Htr4.
  split; [congruence|].
  split; [congruence|].
  split; [exists sk; split; [congruence | exact Hskl]|].
  split; [exists sv, (int_at u 18); split; [exact Hnsv|]; split; [congruence | exact Hsvl]|].
  split; [exists ts; split; [congruence | exact Htrl]|].
  exists fs. split; [congruence|]. split; [exact Hfl | exact Hfv].
Qed.

Lemma X5_witness :
  exists m', Mdl.load_mdl345 mdl3_sample Mdl.empty = Ok m' /\
    List.length (Mdl.skins m') = 1%nat /\ List.length (Mdl.frames m') = 1%nat.
Proof.
  set (m' := ok_or Mdl.empty (Mdl.load_mdl345 mdl3_sample Mdl.empty)).
  assert (H : Mdl.load_mdl345 mdl3_sample Mdl.empty = Ok m') by (vm_compute; reflexivity).
  exists m'. split; [exact H|].
  destruct (X5_mdl345_counts _ _ _ H) as (u & Hu & _ & _ & (sk & Hsk & Hl) & _ & _ & (fs & Hfs & Hfl & _)).
  rewrite Hsk, Hfs, !length_app, Hl, Hfl. revert Hu. vm_compute. intros Hu. injection Hu as <-.
  vm_compute. split; reflexivity.
Defined.

Lemma extend_frame_length fs i vs :
  List.length (Mdl.extend_frame fs i vs) = List.length fs.
Proof.
  revert i; induction fs as [|f fs IH]; intros [|i]; cbn; auto.
Qed.


Lemma mdl7_skin_step data i h m off h' m' off' :
  Mdl.mdl7_skin data i (h, m, off) = Ok (h', m', off') ->
  non_skin m' = non_skin m /\ at_most_first (Mdl.skins m) (Mdl.skins m').
Proof.
  unfold Mdl.mdl7_skin, at_most_first. intros H.
  apply bind_ok in H as (sk & _ & H).
  repeat match type of H with
         | context [if ?c then _ else _] => let E := fresh "E" in destruct c eqn:E
         | context [let '(_, _) := ?p in _] => destruct p
         end;
  injection H as <- <- <-; auto;
  match goal with
  | En : Nat.eqb _ 0 = true |- _ =>
      apply Nat.eqb_eq, length_zero_iff_nil in En;
      split; [reflexivity | right; split; [exact En | cbn; rewrite En; cbn; eauto]]
  end.
Qed.


Lemma mdl7_frame_step data h g gv i m off r :
  Mdl.mdl7_frame data h g gv i (m, off) = Ok r ->
  non_skin (Mdl.set_frames (fst r) []) = non_skin (Mdl.set_frames m []) /\
  Mdl.skins (fst r) = Mdl.skins m /\
  List.length (Mdl.frames (fst r)) =
    (List.length (Mdl.frames m) + if Z.eqb g 0 then 1 else 0)%nat.
Proof.
  unfold Mdl.mdl7_frame. intros H.
  apply bind_ok in H as (nm & _ & H). apply bind_ok in H as (cnt & _ & H).
  apply bind_ok in H as ([fv o] & _ & H).
  destruct (Z.eqb g 0).
  - injection H as <-. cbn. rewrite length_app. cbn. auto.
  - destruct (_ <? _); injection H as <-; cbn;
      [rewrite extend_frame_length|]; auto with arith.
Qed.


(** X7.  One MDL7 group of [_load_mdl7] reads its header at the running
    offset and then advances the vertex offset by the group's [num_verts]
    and the skin-vertex offset by its [num_stpts], appends exactly
    [num_stpts] skin points and [num_tris] triangles to the merged lists,
    and adds [num_frames] frames to the model for group 0 but none for any
    later group. *)
Theorem X7_mdl7_group_accounting :
  forall data g a a', Mdl.mdl7_group data g a = Ok a' ->
  exists u, unpack_from Mdl.group_fmt data (Mdl.a_off a) = Ok u /\
    Mdl.vertex_offset a' = Mdl.vertex_offset a + int_at u 9 /\
    Mdl.skinvert_offset a' = Mdl.skinvert_offset a + int_at u 7 /\
    (exists sv, Mdl.all_skinverts a' = Mdl.all_skinverts a ++ sv /\
       List.length sv = Z.to_nat (int_at u 7)) /\
    (exists ts, Mdl.all_triangles a' = Mdl.all_triangles a ++ ts /\
       List.length ts = Z.to_nat (int_at u 8)) /\
    List.length (Mdl.frames (Mdl.a_m a')) =
      (List.length (Mdl.frames (Mdl.a_m a)) + if Z.eqb g 0 then Z.to_nat (int_at u 10) else 0)%nat.
Proof.
  intros data g a a' Hg. unfold Mdl.mdl7_group in Hg.
  apply bind_ok in Hg as (u & Hu & Hg). exists u. split; [exact Hu|].
  apply bind_ok in Hg as ([[h1 m1] o1] & Hsk & Hg).
  apply bind_ok in Hg as ([sv o2] & Hsv & Hg).
  apply bind_ok in Hg as ([ts o3] & Htr & Hg).
  apply bind_ok in Hg as ([gv o4] & _ & Hg).
  apply bind_ok in Hg as ([m5 o5] & Hfr & Hg). injection Hg as <-. cbn.
  split; [reflexivity|]. split; [reflexivity|].
  apply (for_each_inv (fun s => List.length (Mdl.frames (snd (fst s))) =
                                List.length (Mdl.frames (Mdl.a_m a)))) in Hsk; [|reflexivity|].
  2:{ intros x [[ha ma] oa] [[hb mb] ob] _ Hp Hb.
      apply mdl7_skin_step in Hb as [Hb _]. unfold non_skin in Hb. cbn in *.
      injection Hb as _ _ _ _ Hb. congruence. }
  cbn in Hsk.
  split.
  { apply (for_each_appends fst (fun _ => True)) in Hsv as (l & Hl & Hll & _).
    - exists l. cbn in Hl. split; [exact Hl|]. rewrite Hll. apply length_range.
    - intros x [acc oa] sb _ Hb. unfold Mdl.mdl7_skinpoint in Hb.
      apply bind_ok in Hb as (st & _ & Hb). injection Hb as <-. cbn. eauto. }
  split.
  { apply (for_each_appends fst (fun _ => True)) in Htr as (l & Hl & Hll & _).
    - exists l. cbn in Hl. split; [exact Hl|]. rewrite Hll. apply length_range.
    - intros x [acc oa] sb _ Hb. unfold Mdl.mdl7_triangle in Hb.
      apply bind_ok in Hb as (v & _ & Hb). apply bind_ok in Hb as (uv & _ & Hb).
      injection Hb as <-. cbn. eauto. }
  rewrite <- Hsk. clear Hsk Hsv Htr Hu.
  assert (Hgen : forall xs s s', for_each (Mdl.mdl7_frame data h1 g gv) xs s = Ok s' ->
            List.length (Mdl.frames (fst s')) =
            (List.length (Mdl.frames (fst s)) + if Z.eqb g 0 then List.length xs else 0)%nat).
  { induction xs as [|x xs IH]; cbn; intros [ms os] s' H.
    - injection H as <-. destruct (Z.eqb g 0); cbn; lia.
    - apply bind_ok in H as (s1 & H1 & H2). apply IH in H2. destruct s1 as [m1' o1'].
      apply mdl7_frame_step in H1 as (_ & _ & H1). cbn in *. rewrite H2, H1.
      destruct (Z.eqb g 0); lia. }
  apply Hgen in Hfr. cbn in Hfr. rewrite Hfr, length_range. reflexivity.
Qed.


Lemma X7_witness :
  exists a', Mdl.mdl7_group mdl7_negative_count 0 (mdl7_start mdl7_negative_count) = Ok a' /\
    Mdl.vertex_offset a' = -1.
Proof.
  set (a' := ok_or (mdl7_start mdl7_negative_count)
               (Mdl.mdl7_group mdl7_negative_count 0 (mdl7_start mdl7_negative_count))).
  assert (H : Mdl.mdl7_group mdl7_negative_count 0 (mdl7_start mdl7_negative_count) = Ok a')
    by (vm_compute; reflexivity).
  exists a'. split; [exact H|].
  destruct (X7_mdl7_group_accounting _ _ _ _ H) as (u & Hu & Hvo & _).
  rewrite Hvo. revert Hu. vm_compute. intros Hu. injection Hu as <-. vm_compute. reflexivity.
Defined.

(** X8.  [WMB.load] raises [struct.error] on a buffer shorter than 4
    bytes; when the 4-byte version is none of WMB4, WMB6 and WMB7 it only
    records [self.version] and decodes nothing. *)
Theorem X8_wmb_load_dispatch_edges :
  (forall data w, (List.length data < 4)%nat -> Wmb.load data w = Err StructError) /\
  (forall data w, (4 <= List.length data)%nat ->
     ~ In (firstn 4 data) [tag "WMB4"; tag "WMB6"; tag "WMB7"] ->
     Wmb.load data w = Ok (Wmb.set_w_version w (Some (firstn 4 data)))).
Proof.
  split.
  - intros data w H. unfold Wmb.load. rewrite unpack_from_short by (cbn; lia). reflexivity.
  - intros data w H Hn. unfold Wmb.load.
    rewrite unpack_from_fits by (cbn; lia). cbn [bind].
    change (bytes_at (decode_fields [Fs 4] (firstn (Z.to_nat (calcsize [Fs 4]))
                                                (skipn (Z.to_nat 0) data))) 0)
      with (firstn 4 (firstn 4 data)).
    rewrite firstn_firstn. cbn [Nat.min]. unfold Wmb.version_is. cbn [Wmb.w_version Wmb.set_w_version].
    destruct (bytes_eqb (firstn 4 data) (tag "WMB7")) eqn:E7;
      [apply bytes_eqb_true in E7; rewrite E7 in Hn; cbn in Hn; tauto|].
    destruct (bytes_eqb (firstn 4 data) (tag "WMB6")) eqn:E6;
      [apply bytes_eqb_true in E6; rewrite E6 in Hn; cbn in Hn; tauto|].
    destruct (bytes_eqb (firstn 4 data) (tag "WMB4")) eqn:E4;
      [apply bytes_eqb_true in E4; rewrite E4 in Hn; cbn in Hn; tauto|].
    reflexivity.
Qed.

Lemma X8_witness :
  Wmb.load (tag "WM") Wmb.empty = Err StructError /\
  Wmb.load (tag "WMB5") Wmb.empty = Ok (Wmb.set_w_version Wmb.empty (Some (tag "WMB5"))).
Proof.
  destruct X8_wmb_load_dispatch_edges as [H1 H2].
  split; [apply H1; cbn; lia|].
  apply H2; [cbn; lia | vm_compute; intuition discriminate].
Defined.

Lemma dir_loop_spec data names :
  forall w o r, for_each (dir_body data) names (w, o) = Ok r ->
  exists es, Wmb.w_lists (fst r) = Wmb.w_lists w ++ es /\ map fst es = names /\
    forall i, (i < List.length names)%nat ->
      exists p, unpack_from [FI; FI] data (o + 8 * Z.of_nat i) = Ok p /\
        nth_error es i = Some (nth i names ""%string,
                               {| Wmb.l_offset := int_at p 0; Wmb.l_length := int_at p 1 |}).
Proof.
  induction names as [|n ns IH]; cbn [for_each]; intros w o r H.
  - injection H as <-. exists []. rewrite app_nil_r. split; [reflexivity|]. split; [reflexivity|].
    intros i Hi. cbn in Hi. lia.
  - apply bind_ok in H as (s1 & H1 & H2). unfold dir_body in H1.
    apply bind_ok in H1 as (p & Hp & H1). injection H1 as <-.
    apply IH in H2 as (es & Hes & Hf & Hi). cbn in Hes.
    exists ((n, {| Wmb.l_offset := int_at p 0; Wmb.l_length := int_at p 1 |}) :: es).
    split; [rewrite Hes, <- app_assoc; reflexivity|]. split; [cbn; congruence|].
    intros [|i] Hlt.
    + exists p. split; [rewrite Z.add_0_r; exact Hp | reflexivity].
    + cbn in Hlt. assert (Hlt' : (i < List.length ns)%nat) by lia.
      destruct (Hi i Hlt') as (q & Hq & Hn). exists q.
      split; [|exact Hn]. rewrite <- Hq. f_equal. lia.
Qed.

Lemma dir_loop_ok data names :
  forall w o, 0 <= o -> o + 8 * Z.of_nat (List.length names) <= Z.of_nat (List.length data) ->
  exists r, for_each (dir_body data) names (w, o) = Ok r.
Proof.
  induction names as [|n ns IH]; cbn; intros w o H0 Hl; [eauto|].
  unfold dir_body at 1. rewrite unpack_from_fits by (cbn; lia). cbn [bind].
  apply IH; lia.
Qed.

Lemma dir_loop_short data names :
  forall w o, names <> [] -> 0 <= o ->
  Z.of_nat (List.length data) < o + 8 * Z.of_nat (List.length names) ->
  for_each (dir_body data) names (w, o) = Err StructError.
Proof.
  induction names as [|n ns IH]; cbn; intros w o Hne H0 Hl; [congruence|].
  unfold dir_body at 1.
  destruct (Z.lt_ge_cases (Z.of_nat (List.length data)) (o + 8)).
  - rewrite unpack_from_short by (cbn; lia). reflexivity.
  - rewrite unpack_from_fits by (cbn; lia). cbn [bind].
    apply IH; [destruct ns; cbn in Hl; [lia | discriminate] | lia | lia].
Qed.

Lemma assoc_nth es i k v :
  NoDup (map fst es) -> nth_error es i = Some (k, v) -> Wmb.assoc k es = Some v.
Proof.
  revert i; induction es as [|[k' v'] es IH]; intros [|i] Hd Hn; cbn in *; try discriminate.
  - injection Hn as <- <-. rewrite String.eqb_refl. reflexivity.
  - inversion Hd as [|? ? Hk Hd']; subst.
    destruct (String.eqb k k') eqn:E.
    + apply String.eqb_eq in E; subst. exfalso. apply Hk.
      apply nth_error_In in Hn. apply (in_map fst) in Hn. exact Hn.
    + eapply IH; eauto.
Qed.

Lemma read_directory_unfold names data w :
  Wmb.read_directory names data w =
  let* r := for_each (dir_body data) names
              (Wmb.set_w_lists (Wmb.set_w_header_version w (Wmb.w_version w)) [], 4) in
  Ok (fst r).
Proof. reflexivity. Qed.

(** X9.  The list directory read by [_load_wmb4], [_load_wmb6] and
    [_load_wmb7] starts afresh and, when the file holds the
    [8 * len(list_names)] directory bytes after the 4-byte version, maps
    the [i]-th list name (names being distinct) to the offset and length
    read as two u32 at [4 + 8 i]; a file too short for the directory
    raises [struct.error]. *)
Theorem X9_directory_roundtrip :
  forall names data w, NoDup names ->
  (4 + 8 * Z.of_nat (List.length names) <= Z.of_nat (List.length data) ->
     exists w', Wmb.read_directory names data w = Ok w' /\
       map fst (Wmb.w_lists w') = names /\
       forall i, (i < List.length names)%nat ->
         exists p, unpack_from [FI; FI] data (4 + 8 * Z.of_nat i) = Ok p /\
           Wmb.get_lump w' (nth i names ""%string) =
             Ok {| Wmb.l_offset := int_at p 0; Wmb.l_length := int_at p 1 |}) /\
  (names <> [] -> Z.of_nat (List.length data) < 4 + 8 * Z.of_nat (List.length names) ->
     Wmb.read_directory names data w = Err StructError).
Proof.
  intros names data w Hd. split.
  - intros Hl. rewrite read_directory_unfold.
    destruct (dir_loop_ok data names
                (Wmb.set_w_lists (Wmb.set_w_header_version w (Wmb.w_version w)) []) 4
                ltac:(lia) Hl) as (r & Hr).
    rewrite Hr. cbn [bind]. exists (fst r). split; [reflexivity|].
    apply dir_loop_spec in Hr as (es & Hes & Hf & Hi). cbn in Hes.
    rewrite Hes. split; [exact Hf|].
    intros i Hlt. destruct (Hi i Hlt) as (p & Hp & Hn). exists p. split; [exact Hp|].
    unfold Wmb.get_lump. rewrite Hes. erewrite assoc_nth; [reflexivity | rewrite Hf; exact Hd | exact Hn].
  - intros Hne Hl. rewrite read_directory_unfold, dir_loop_short by (auto; lia). reflexivity.
Qed.

Lemma X9_witness :
  exists w', Wmb.read_directory ["a"; "b"]%string (tag "WMB6" ++ Samples.directory [(5, 6); (7, 8)])
               Wmb.empty = Ok w' /\
    Wmb.get_lump w' "b"%string = Ok {| Wmb.l_offset := 7; Wmb.l_length := 8 |}.
Proof.
  destruct (proj1 (X9_directory_roundtrip ["a"; "b"]%string
                     (tag "WMB6" ++ Samples.directory [(5, 6); (7, 8)]) Wmb.empty
                     ltac:(repeat constructor; cbn; intuition discriminate))
              ltac:(cbn; lia)) as (w' & Hw & _ & Hi).
  exists w'. split; [exact Hw|].
  destruct (Hi 1%nat ltac:(cbn; lia)) as (p & Hp & Hg). cbn in Hg. rewrite Hg.
  revert Hp. vm_compute. intros Hp. injection Hp as <-. reflexivity.
Defined.

Lemma okw_mono {A} (P Q : A -> Prop) r :
  ok_with P r -> (forall a, P a -> Q a) -> ok_with Q r.
Proof. destruct r; cbn; auto. Qed.

Lemma okw_bind {A B} (P : A -> Prop) (Q : B -> Prop) m k :
  ok_with P m -> (forall a, P a -> ok_with Q (k a)) -> ok_with Q (bind m k).
Proof. destruct m; cbn; auto. Qed.

Lemma okw_bind_true {A B} (Q : B -> Prop) (m : res A) k :
  ok_with (fun _ => True) m -> (forall a, ok_with Q (k a)) -> ok_with Q (bind m k).
Proof. destruct m; cbn; auto. Qed.

Lemma okw_for_each {A S} (I : S -> Prop) (body : A -> S -> res S) xs :
  (forall x s, I s -> ok_with I (body x s)) -> forall s, I s -> ok_with I (for_each body xs s).
Proof.
  intros Hb. induction xs as [|x xs IH]; cbn; intros s Hs; [exact Hs|].
  apply (okw_bind I); [apply Hb, Hs | exact IH].
Qed.

Lemma okw_unpack fmt data off : ok_with (fun _ => True) (unpack_from fmt data off).
Proof.
  unfold unpack_from, unpack_span.
  repeat match goal with |- context [if ?c then _ else _] => destruct c end; cbn; auto.
Qed.

Lemma okw_vec3_from data o : ok_with (fun _ => True) (Wmb.vec3_from data o).
Proof. unfold Wmb.vec3_from. apply okw_bind_true; [apply okw_unpack | cbn; auto]. Qed.

Lemma okw_f_from data o : ok_with (fun _ => True) (Wmb.f_from data o).
Proof. unfold Wmb.f_from. apply okw_bind_true; [apply okw_unpack | cbn; auto]. Qed.

Lemma okw_str_at data n o : ok_with (fun _ => True) (Wmb.str_at data n o).
Proof. unfold Wmb.str_at. apply okw_bind_true; [apply okw_unpack | cbn; auto]. Qed.

Ltac okw :=
  repeat match goal with
  | |- ok_with _ (Ok _) => cbn [ok_with]
  | |- ok_with _ (bind (unpack_from _ _ _) _) =>
      apply okw_bind_true; [apply okw_unpack | intros ?]
  | |- ok_with _ (bind (Wmb.vec3_from _ _) _) =>
      apply okw_bind_true; [apply okw_vec3_from | intros ?]
  | |- ok_with _ (bind (Wmb.f_from _ _) _) =>
      apply okw_bind_true; [apply okw_f_from | intros ?]
  | |- ok_with _ (bind (Wmb.str_at _ _ _) _) =>
      apply okw_bind_true; [apply okw_str_at | intros ?]
  | |- ok_with _ (bind (for_each _ _ _) _) =>
      apply okw_bind_true;
        [apply (okw_for_each (fun _ => True)); [intros ? [? ?] _; okw | exact I] | intros ?]
  | |- ok_with _ (if ?c then _ else _) => destruct c
  | |- ok_with _ (let '(_, _) := ?p in _) => destruct p
  end.

Lemma okw_get_lump w n :
  In n (map fst (Wmb.w_lists w)) -> exists l, Wmb.get_lump w n = Ok l.
Proof.
  unfold Wmb.get_lump. induction (Wmb.w_lists w) as [|[k v] l IH]; cbn; [tauto|].
  intros [-> | Hi]; [rewrite String.eqb_refl; eauto|].
  destruct (String.eqb n k); eauto.
Qed.

Lemma okw_texture_at data w base off :
  ok_with (fun _ => True) (Wmb.texture_at data w base off).
Proof. unfold Wmb.texture_at. cbv zeta. okw; auto. Qed.

Lemma okw_object_kind data t a : ok_with (fun _ => True) (Wmb.object_kind data t a).
Proof. unfold Wmb.object_kind. okw; auto. Qed.

Lemma okw_read_offsets data n o : ok_with (fun _ => True) (Wmb.read_offsets data n o).
Proof.
  unfold Wmb.read_offsets. apply (okw_for_each (fun _ => True)); [|exact I].
  intros x [acc o'] _. okw; auto.
Qed.

(** A reader that looks up a directory entry with [self.header['lists'][name]]
    fails only with [struct.error] once the entry is there, and keeps the
    directory. *)
Definition reader_ok (name : string) (R : bytes -> Wmb.wmb -> res Wmb.wmb) : Prop :=
  forall data w, In name (map fst (Wmb.w_lists w)) ->
  ok_with (fun w' => Wmb.w_lists w' = Wmb.w_lists w) (R data w).

Ltac reader_loop L :=
  apply (okw_bind (fun r => Wmb.w_lists (fst r) = L));
  [ apply okw_for_each; [|reflexivity];
    intros ? [? ?] ?; try unfold Wmb.face_at, Wmb.block_at; cbv zeta; okw; cbn in *; auto
  | intros ? ?; cbn; assumption ].

Lemma okw_textures : reader_ok "textures"%string Wmb.load_textures.
Proof.
  intros data w Hin. unfold Wmb.load_textures.
  destruct (okw_get_lump _ _ Hin) as (l & ->). cbn [bind].
  destruct (_ =? 0); [reflexivity|]. okw.
  apply okw_bind_true; [apply okw_read_offsets | intros r].
  apply okw_for_each; [|reflexivity]. intros x w1 H1.
  apply okw_bind_true; [apply okw_texture_at | intros t]. exact H1.
Qed.

Lemma okw_materials : reader_ok "materials"%string Wmb.load_materials.
Proof.
  intros data w Hin. unfold Wmb.load_materials.
  destruct (okw_get_lump _ _ Hin) as (l & ->). cbn [bind].
  destruct (_ =? 0); [reflexivity|]. reader_loop (Wmb.w_lists w).
Qed.

Lemma okw_lightmaps : reader_ok "lightmaps"%string Wmb.load_lightmaps.
Proof.
  intros data w Hin. unfold Wmb.load_lightmaps.
  destruct (okw_get_lump _ _ Hin) as (l & ->). cbn [bind].
  destruct (_ =? 0); [reflexivity|]. reader_loop (Wmb.w_lists w).
Qed.

Lemma okw_texinfo : reader_ok "materials"%string Wmb.load_wmb6_texinfo.
Proof.
  intros data w Hin. unfold Wmb.load_wmb6_texinfo.
  destruct (okw_get_lump _ _ Hin) as (l & ->). cbn [bind].
  destruct (_ =? 0); [reflexivity|]. reader_loop (Wmb.w_lists w).
Qed.

Lemma okw_vertices : reader_ok "vertices"%string Wmb.load_wmb6_vertices.
Proof.
  intros data w Hin. unfold Wmb.load_wmb6_vertices.
  destruct (okw_get_lump _ _ Hin) as (l & ->). cbn [bind].
  destruct (_ =? 0); [reflexivity|]. reader_loop (Wmb.w_lists w).
Qed.

Lemma okw_edges : reader_ok "edges"%string Wmb.load_wmb6_edges.
Proof.
  intros data w Hin. unfold Wmb.load_wmb6_edges.
  destruct (okw_get_lump _ _ Hin) as (l & ->). cbn [bind].
  destruct (_ =? 0); [reflexivity|]. reader_loop (Wmb.w_lists w).
Qed.

Lemma okw_surfedges : reader_ok "skins"%string Wmb.load_wmb6_surfedges.
Proof.
  intros data w Hin. unfold Wmb.load_wmb6_surfedges.
  destruct (okw_get_lump _ _ Hin) as (l & ->). cbn [bind].
  destruct (_ =? 0); [reflexivity|]. reader_loop (Wmb.w_lists w).
Qed.

Lemma okw_faces data w :
  In "faces"%string (map fst (Wmb.w_lists w)) -> In "skins"%string (map fst (Wmb.w_lists w)) ->
  ok_with (fun w' => Wmb.w_lists w' = Wmb.w_lists w) (Wmb.load_wmb6_faces data w).
Proof.
  intros Hin Hs. unfold Wmb.load_wmb6_faces.
  destruct (okw_get_lump _ _ Hin) as (l & ->). cbn [bind].
  destruct (_ =? 0); [reflexivity|].
  apply (okw_bind (fun w1 => Wmb.w_lists w1 = Wmb.w_lists w)); [apply okw_surfedges, Hs|].
  intros w1 H1. rewrite <- H1. reader_loop (Wmb.w_lists w1).
Qed.

Lemma okw_objects : reader_ok "objects"%string Wmb.load_objects.
Proof.
  intros data w Hin. unfold Wmb.load_objects.
  destruct (okw_get_lump _ _ Hin) as (l & ->). cbn [bind].
  destruct (_ =? 0); [reflexivity|]. okw.
  apply okw_bind_true; [apply okw_read_offsets | intros r].
  apply okw_for_each; [|reflexivity]. intros [i o] w1 H1. unfold Wmb.object_at. okw.
  apply okw_bind_true; [apply okw_object_kind | intros k]. cbn.
  destruct (_ =? 5); exact H1.
Qed.

Lemma okw_blocks data w :
  ok_with (fun w' => Wmb.w_lists w' = Wmb.w_lists w) (Wmb.load_blocks data w).
Proof.
  unfold Wmb.load_blocks. destruct (Wmb.assoc _ _); [|reflexivity].
  destruct (_ || _); [reflexivity|].
  apply okw_bind_true; [apply okw_unpack | intros n]. reader_loop (Wmb.w_lists w).
Qed.

Lemma okw_dir data names :
  forall w o, ok_with (fun r => map fst (Wmb.w_lists (fst r)) = map fst (Wmb.w_lists w) ++ names)
                      (for_each (dir_body data) names (w, o)).
Proof.
  induction names as [|n ns IH]; cbn [for_each]; intros w o.
  - cbn. rewrite app_nil_r. reflexivity.
  - apply (okw_bind (fun s => map fst (Wmb.w_lists (fst s)) = map fst (Wmb.w_lists w) ++ [n])).
    + unfold dir_body. okw. cbn. rewrite map_app. reflexivity.
    + intros [w1 o1] H1. eapply okw_mono; [apply IH|]. intros r Hr. cbn in H1.
      rewrite Hr, H1, <- app_assoc. reflexivity.
Qed.

Lemma okw_read_directory names data w :
  ok_with (fun w' => map fst (Wmb.w_lists w') = names) (Wmb.read_directory names data w).
Proof.
  rewrite read_directory_unfold. eapply okw_bind; [apply okw_dir|].
  intros r Hr. exact Hr.
Qed.

Ltac has_name := repeat (first [left; reflexivity | right]).

Lemma okw_wmb46 names data w :
  map fst (Wmb.w_lists w) = names ->
  In "textures"%string names -> In "materials"%string names -> In "vertices"%string names ->
  In "edges"%string names -> In "faces"%string names -> In "skins"%string names -> In "objects"%string names ->
  ok_with (fun _ => True) (Wmb.load_wmb46_body data w).
Proof.
  intros Hn Ht Hm Hv He Hf Hs Ho. unfold Wmb.load_wmb46_body. subst names.
  apply (okw_bind (fun w1 => Wmb.w_lists w1 = Wmb.w_lists w)); [apply okw_textures; auto|].
  intros w1 H1. rewrite <- H1 in *.
  apply (okw_bind (fun w2 => Wmb.w_lists w2 = Wmb.w_lists w1)); [apply okw_texinfo; auto|].
  intros w2 H2. rewrite <- H2 in *.
  apply (okw_bind (fun w3 => Wmb.w_lists w3 = Wmb.w_lists w2)); [apply okw_vertices; auto|].
  intros w3 H3. rewrite <- H3 in *.
  apply (okw_bind (fun w4 => Wmb.w_lists w4 = Wmb.w_lists w3)); [apply okw_edges; auto|].
  intros w4 H4. rewrite <- H4 in *.
  apply (okw_bind (fun w5 => Wmb.w_lists w5 = Wmb.w_lists w4)); [apply okw_faces; auto|].
  intros w5 H5. rewrite <- H5 in *.
  eapply okw_mono; [apply okw_objects; auto | auto].
Qed.

(** X10.  [WMB.load] never raises [KeyError] (every list a reader looks
    up is in the directory of its version) nor [IndexError]: the only
    exception it can raise is [struct.error] from a read past the end of
    the file. *)
Theorem X10_wmb_load_only_struct_error :
  forall data w e, Wmb.load data w = Err e -> e = StructError.
Proof.
  intros data w e H.
  enough (Hk : ok_with (fun _ => True) (Wmb.load data w)) by (rewrite H in Hk; exact Hk).
  unfold Wmb.load. okw.
  - unfold Wmb.load_wmb7.
    apply (okw_bind (fun w1 => map fst (Wmb.w_lists w1) = Wmb.wmb7_names));
      [apply okw_read_directory|]. intros w1 H1.
    apply (okw_bind (fun w2 => Wmb.w_lists w2 = Wmb.w_lists w1));
      [apply okw_textures; rewrite H1; has_name|]. intros w2 H2. rewrite <- H2 in H1.
    apply (okw_bind (fun w3 => Wmb.w_lists w3 = Wmb.w_lists w2));
      [apply okw_materials; rewrite H1; has_name|]. intros w3 H3. rewrite <- H3 in H1.
    apply (okw_bind (fun w4 => Wmb.w_lists w4 = Wmb.w_lists w3));
      [apply okw_lightmaps; rewrite H1; has_name|]. intros w4 H4. rewrite <- H4 in H1.
    apply (okw_bind (fun w5 => Wmb.w_lists w5 = Wmb.w_lists w4));
      [apply okw_blocks|]. intros w5 H5. rewrite <- H5 in H1.
    eapply okw_mono; [apply okw_objects; rewrite H1; has_name | auto].
  - unfold Wmb.load_wmb6.
    apply (okw_bind (fun w1 => map fst (Wmb.w_lists w1) = Wmb.wmb6_names));
      [apply okw_read_directory|]. intros w1 H1.
    apply (okw_wmb46 _ _ _ H1); has_name.
  - unfold Wmb.load_wmb4.
    apply (okw_bind (fun w1 => map fst (Wmb.w_lists w1) = Wmb.wmb4_names));
      [apply okw_read_directory|]. intros w1 H1.
    apply (okw_wmb46 _ _ _ H1); has_name.
  - exact I.
Qed.

Lemma X10_witness :
  Wmb.load (tag "WMB6" ++ Enc.zeros 8) Wmb.empty = Err StructError /\ StructError = StructError.
Proof.
  assert (H : Wmb.load (tag "WMB6" ++ Enc.zeros 8) Wmb.empty = Err StructError)
    by (vm_compute; reflexivity).
  split; [exact H | exact (X10_wmb_load_only_struct_error _ _ _ H)].
Defined.

Lemma idpo_header_unpack data u :
  unpack_from Mdl.idpo_header_fmt data 0 = Ok u ->
  (84 <= List.length data)%nat /\ Mdl.q_ident (Mdl.idpo_header_of u) = firstn 4 data.
Proof.
  intros H. destruct (Nat.lt_ge_cases (List.length data) 84) as [Hl | Hl].
  - rewrite unpack_from_short in H by (cbn; lia). discriminate.
  - split; [exact Hl|]. rewrite unpack_from_fits in H by (cbn; lia).
    injection H as <-. cbn [Mdl.idpo_header_of Mdl.q_ident].
    change (firstn 4 (firstn 84 data) = firstn 4 data).
    rewrite firstn_firstn. reflexivity.
Qed.

(** X11.  The old loader of [src/mdl_loader.py] raises [struct.error] on a
    file shorter than its 84-byte header, and on a longer file whose
    ident is not IDPO it stores the decoded header and returns without
    reading anything else. *)
Theorem X11_old_load_edges :
  (forall data m, (List.length data < 84)%nat -> OldMdl.load data m = Err StructError) /\
  (forall data m, (84 <= List.length data)%nat -> firstn 4 data <> tag "IDPO" ->
     exists u, unpack_from Mdl.idpo_header_fmt data 0 = Ok u /\
       OldMdl.load data m = Ok (Mdl.set_header m (Mdl.HdrQuake (Mdl.idpo_header_of u)))).
Proof.
  split.
  - intros data m H. unfold OldMdl.load. rewrite unpack_from_short by (cbn; lia). reflexivity.
  - intros data m Hl Hn.
    destruct (unpack_from Mdl.idpo_header_fmt data 0) as [u|e] eqn:Hu.
    + exists u. split; [reflexivity|]. unfold OldMdl.load. rewrite Hu. cbn [bind].
      apply idpo_header_unpack in Hu as [_ Hi]. rewrite Hi.
      destruct (bytes_eqb (firstn 4 data) (tag "IDPO")) eqn:E.
      * apply bytes_eqb_true in E. contradiction.
      * reflexivity.
    + rewrite unpack_from_fits in Hu by (cbn; lia). discriminate.
Qed.

Lemma X11_witness :
  OldMdl.load (tag "IDPO") Mdl.empty = Err StructError /\
  exists u, unpack_from Mdl.idpo_header_fmt (tag "MDL7" ++ Enc.zeros 80) 0 = Ok u /\
    OldMdl.load (tag "MDL7" ++ Enc.zeros 80) Mdl.empty =
      Ok (Mdl.set_header Mdl.empty (Mdl.HdrQuake (Mdl.idpo_header_of u))).
Proof.
  destruct X11_old_load_edges as [H1 H2].
  split; [apply H1; cbn; lia|].
  apply H2; [cbn; lia | vm_compute; discriminate].
Defined.

(** X12.  For a skin type other than 0 and 2 the old loader always
    stores a group skin, whereas the viewer loader stores a single image
    for types 3 to 5 and skips the skin, having read only its type word,
    for a type outside 0 to 5. *)
Theorem X12_old_skin_types :
  forall data h i m off vs, unpack_from [FI] data off = Ok vs ->
  int_at vs 0 <> 0 -> int_at vs 0 <> 2 ->
  (forall r, OldMdl.old_skin data h i (m, off) = Ok r ->
     exists ts gs, Mdl.skins (fst r) = Mdl.skins m ++ [Mdl.SkinGroup ts gs]) /\
  (3 <= int_at vs 0 <= 5 ->
     exists name bpp,
       ((int_at vs 0 = 3 /\ name = "single_16bit_4444"%string /\ bpp = 2) \/
        (int_at vs 0 = 4 /\ name = "single_24bit_888"%string /\ bpp = 3) \/
        (int_at vs 0 = 5 /\ name = "single_32bit_8888"%string /\ bpp = 4)) /\
       Mdl.idpo_skin data h i (m, off) =
         Ok (Mdl.add_skin m (Mdl.Skin name (slice data (off + 4)
                (off + 4 + Mdl.q_skinwidth h * Mdl.q_skinheight h * bpp))),
             off + 4 + Mdl.q_skinwidth h * Mdl.q_skinheight h * bpp)) /\
  (~ (0 <= int_at vs 0 <= 5) -> Mdl.idpo_skin data h i (m, off) = Ok (m, off + 4)).
Proof.
  intros data h i m off vs Hu H0 H2.
  assert (E0 : (int_at vs 0 =? 0) = false) by (apply Z.eqb_neq; exact H0).
  assert (E2 : (int_at vs 0 =? 2) = false) by (apply Z.eqb_neq; exact H2).
  split; [|split].
  - intros r H. unfold OldMdl.old_skin in H. rewrite Hu in H. cbn [bind] in H.
    cbv zeta in H. rewrite E0, E2 in H.
    apply bind_ok in H as (nb & _ & H). apply bind_ok in H as (tv & _ & H).
    apply bind_ok in H as ([gs o] & _ & H). injection H as <-. cbn. eauto.
  - intros Ht. unfold Mdl.idpo_skin. rewrite Hu. cbn [bind]. rewrite E0, E2.
    destruct (Z.eq_dec (int_at vs 0) 3) as [E3 | N3].
    { rewrite E3. cbn. exists "single_16bit_4444"%string, 2. split; [left; auto | reflexivity]. }
    rewrite (proj2 (Z.eqb_neq _ _) N3).
    destruct (Z.eq_dec (int_at vs 0) 4) as [E4 | N4].
    { rewrite E4. cbn. exists "single_24bit_888"%string, 3. split; [right; left; auto | reflexivity]. }
    rewrite (proj2 (Z.eqb_neq _ _) N4).
    assert (E5 : int_at vs 0 = 5) by lia. rewrite E5.
    cbn. exists "single_32bit_8888"%string, 4. split; [right; right; auto | reflexivity].
  - intros Ht. unfold Mdl.idpo_skin. rewrite Hu. cbn [bind].
    repeat match goal with
           | |- context [int_at vs 0 =? ?k] =>
               rewrite (proj2 (Z.eqb_neq (int_at vs 0) k)) by lia
           end.
    reflexivity.
Qed.

Lemma X12_witness :
  Mdl.idpo_skin (Enc.u32 3 ++ Enc.zeros 8) (Mdl.idpo_header_of []) 0 (Mdl.empty, 0) =
    Ok (Mdl.add_skin Mdl.empty (Mdl.Skin "single_16bit_4444"%string []), 4).
Proof.
  assert (Hu : unpack_from [FI] (Enc.u32 3 ++ Enc.zeros 8) 0 = Ok [PInt 3]) by (vm_compute; reflexivity).
  destruct (X12_old_skin_types _ (Mdl.idpo_header_of []) 0 Mdl.empty 0 _ Hu
              ltac:(cbn; lia) ltac:(cbn; lia)) as (_ & H & _).
  destruct (H ltac:(cbn; lia)) as (name & bpp & Hc & E). rewrite E.
  destruct Hc as [(_ & -> & ->) | [(Hc & _) | (Hc & _)]]; [vm_compute; reflexivity | discriminate | discriminate].
Defined.

Lemma old_skin_step data h i m off r :
  OldMdl.old_skin data h i (m, off) = Ok r ->
  exists k, Mdl.skins (fst r) = Mdl.skins m ++ [k] /\
    (is_single k -> Mdl.idpo_skin data h i (m, off) = Ok r).
Proof.
  unfold OldMdl.old_skin, Mdl.idpo_skin. intros H.
  apply bind_ok in H as (vs & Hu & H). rewrite Hu. cbn [bind]. cbv zeta in *.
  destruct (int_at vs 0 =? 0).
  { injection H as <-. cbn. eexists. split; [reflexivity | auto]. }
  destruct (int_at vs 0 =? 2).
  { injection H as <-. cbn. eexists. split; [reflexivity | auto]. }
  apply bind_ok in H as (nb & _ & H). apply bind_ok in H as (tv & _ & H).
  apply bind_ok in H as ([gs o] & _ & H). injection H as <-. cbn.
  eexists. split; [reflexivity | intros []].
Qed.

Lemma old_skin_loop data h xs :
  forall s r, for_each (OldMdl.old_skin data h) xs s = Ok r ->
  Forall is_single (Mdl.skins (fst r)) ->
  for_each (Mdl.idpo_skin data h) xs s = Ok r.
Proof.
  induction xs as [|x xs IH]; cbn [for_each]; intros [m off] r H Hf; [exact H|].
  apply bind_ok in H as (s1 & H1 & H2).
  assert (Hr := H2).
  apply (for_each_appends (fun s => Mdl.skins (fst s)) (fun _ => True)) in Hr as (ys & Hys & _).
  2:{ intros y [ma oa] sb _ Hb. apply old_skin_step in Hb as (k & Hk & _). eauto. }
  destruct (old_skin_step _ _ _ _ _ _ H1) as (k & Hk & Hs).
  rewrite Hs.
  - cbn [bind]. apply IH; assumption.
  - rewrite Hys, Hk, <- app_assoc in Hf. apply Forall_app in Hf as [_ Hf].
    inversion Hf; assumption.
Qed.

(** X13.  On an IDPO file that the old loader reads without error and
    whose skins it stores as single images only (so every skin type it
    met was 0 or 2), the viewer's [MDL.load] builds the same model. *)
Theorem X13_old_viewer_agree :
  forall data m m', firstn 4 data = tag "IDPO" ->
  OldMdl.load data m = Ok m' -> Forall is_single (Mdl.skins m') ->
  Mdl.load data m = Ok m'.
Proof.
  intros data m m' Hid H Hs. unfold OldMdl.load in H.
  apply bind_ok in H as (u & Hu & H).
  destruct (idpo_header_unpack _ _ Hu) as [Hl Hi]. rewrite Hi, Hid, bytes_eqb_refl in H.
  cbn [negb] in H.
  set (h := Mdl.idpo_header_of u) in *.
  apply bind_ok in H as (s1 & Hsk & H).
  assert (Hrest : Mdl.skins m' = Mdl.skins (fst s1)).
  { apply bind_ok in H as ([m2 o2] & Htc & H).
    apply (for_each_inv (fun s => Mdl.skins (fst s) = Mdl.skins (fst s1))) in Htc; [|reflexivity|].
    2:{ intros x [ma oa] sb _ Hp Hb. unfold Mdl.idpo_texcoord in Hb.
        apply bind_ok in Hb as (st & _ & Hb). injection Hb as <-. exact Hp. }
    apply bind_ok in H as ([m3 o3] & Htr & H).
    apply (for_each_inv (fun s => Mdl.skins (fst s) = Mdl.skins (fst s1))) in Htr; [|exact Htc|].
    2:{ intros x [ma oa] sb _ Hp Hb. unfold Mdl.idpo_triangle in Hb.
        apply bind_ok in Hb as (t & _ & Hb). injection Hb as <-. exact Hp. }
    apply bind_ok in H as ([m4 o4] & Hfr & H). injection H as <-.
    apply load_frames_idpo_loop_spec in Hfr as (_ & Hs4 & _). cbn in *. congruence. }
  rewrite Hrest in Hs. apply old_skin_loop in Hsk; [|exact Hs].
  unfold Mdl.load. rewrite unpack_from_fits by (cbn; lia). cbn [bind].
  change (bytes_at (decode_fields [Fs 4] (firstn (Z.to_nat (calcsize [Fs 4]))
                                              (skipn (Z.to_nat 0) data))) 0)
    with (firstn 4 (firstn 4 data)).
  rewrite firstn_firstn. cbn [Nat.min]. rewrite Hid, bytes_eqb_refl.
  unfold Mdl.load_idpo. rewrite Hu. cbn [bind]. fold h. rewrite Hsk. cbn [bind]. exact H.
Qed.

Lemma X13_witness :
  exists m', OldMdl.load idpo_one_skin Mdl.empty = Ok m' /\ Mdl.load idpo_one_skin Mdl.empty = Ok m'.
Proof.
  set (m' := ok_or Mdl.empty (OldMdl.load idpo_one_skin Mdl.empty)).
  assert (H : OldMdl.load idpo_one_skin Mdl.empty = Ok m') by (vm_compute; reflexivity).
  exists m'. split; [exact H|].
  apply X13_old_viewer_agree; [vm_compute; reflexivity | exact H |].
  vm_compute. repeat constructor.
Defined.

Ltac step_app Hb :=
  repeat (apply bind_ok in Hb as (? & _ & Hb)); injection Hb as <-; cbn; eauto.

(** X14.  The fixed-size record readers of WMB4/WMB6 leave the state
    unchanged for an empty list, and otherwise append [length / 64]
    texinfo records, [length / 12] vertices and [(length - 8) / 8] edges;
    the surfedge reader replaces the surfedges by exactly [length / 4]
    values. *)
Theorem X14_wmb6_record_counts :
  forall data w w' l,
  (Wmb.get_lump w "materials"%string = Ok l -> Wmb.load_wmb6_texinfo data w = Ok w' ->
     (Wmb.l_length l = 0 -> w' = w) /\
     (Wmb.l_length l <> 0 -> exists new, Wmb.texinfo w' = Wmb.texinfo w ++ new /\
        List.length new = Z.to_nat (Wmb.l_length l / 64))) /\
  (Wmb.get_lump w "vertices"%string = Ok l -> Wmb.load_wmb6_vertices data w = Ok w' ->
     (Wmb.l_length l = 0 -> w' = w) /\
     (Wmb.l_length l <> 0 -> exists new, Wmb.vertices w' = Wmb.vertices w ++ new /\
        List.length new = Z.to_nat (Wmb.l_length l / 12))) /\
  (Wmb.get_lump w "edges"%string = Ok l -> Wmb.load_wmb6_edges data w = Ok w' ->
     (Wmb.l_length l = 0 -> w' = w) /\
     (Wmb.l_length l <> 0 -> exists new, Wmb.edges w' = Wmb.edges w ++ new /\
        List.length new = Z.to_nat ((Wmb.l_length l - 8) / 8))) /\
  (Wmb.get_lump w "skins"%string = Ok l -> Wmb.load_wmb6_surfedges data w = Ok w' ->
     (Wmb.l_length l = 0 -> w' = w) /\
     (Wmb.l_length l <> 0 -> List.length (Wmb.surfedges w') = Z.to_nat (Wmb.l_length l / 4))).
Proof.
  intros data w w' l. split; [|split; [|split]]; intros Hl H.
  - unfold Wmb.load_wmb6_texinfo in H. rewrite Hl in H. cbn [bind] in H.
    destruct (Z.eqb_spec (Wmb.l_length l) 0) as [E|E].
    + injection H as <-. split; [reflexivity | contradiction].
    + split; [contradiction|]. intros _.
      apply bind_ok in H as (r & Hr & H). injection H as <-.
      apply (for_each_appends (fun s => Wmb.texinfo (fst s)) (fun _ => True)) in Hr
        as (new & Hn & Hlen & _).
      * exists new. split; [exact Hn|]. rewrite Hlen. apply length_range.
      * intros x [wa oa] sb _ Hb. step_app Hb.
  - unfold Wmb.load_wmb6_vertices in H. rewrite Hl in H. cbn [bind] in H.
    destruct (Z.eqb_spec (Wmb.l_length l) 0) as [E|E].
    + injection H as <-. split; [reflexivity | contradiction].
    + split; [contradiction|]. intros _.
      apply bind_ok in H as (r & Hr & H). injection H as <-.
      apply (for_each_appends (fun s => Wmb.vertices (fst s)) (fun _ => True)) in Hr
        as (new & Hn & Hlen & _).
      * exists new. split; [exact Hn|]. rewrite Hlen. apply length_range.
      * intros x [wa oa] sb _ Hb. step_app Hb.
  - unfold Wmb.load_wmb6_edges in H. rewrite Hl in H. cbn [bind] in H.
    destruct (Z.eqb_spec (Wmb.l_length l) 0) as [E|E].
    + injection H as <-. split; [reflexivity | contradiction].
    + split; [contradiction|]. intros _.
      apply bind_ok in H as (r & Hr & H). injection H as <-.
      apply (for_each_appends (fun s => Wmb.edges (fst s)) (fun _ => True)) in Hr
        as (new & Hn & Hlen & _).
      * exists new. split; [exact Hn|]. rewrite Hlen. apply length_range.
      * intros x [wa oa] sb _ Hb. step_app Hb.
  - unfold Wmb.load_wmb6_surfedges in H. rewrite Hl in H. cbn [bind] in H.
    destruct (Z.eqb_spec (Wmb.l_length l) 0) as [E|E].
    + injection H as <-. split; [reflexivity | contradiction].
    + split; [contradiction|]. intros _.
      apply bind_ok in H as (r & Hr & H). injection H as <-.
      apply (for_each_appends (fun s => Wmb.surfedges (fst s)) (fun _ => True)) in Hr
        as (new & Hn & Hlen & _).
      * rewrite Hn. cbn. rewrite Hlen. apply length_range.
      * intros x [wa oa] sb _ Hb. step_app Hb.
Qed.

Lemma X14_witness :
  exists w', Wmb.load_wmb6_vertices (Enc.zeros 30)
               (Wmb.set_w_lists Wmb.empty
                  [("vertices"%string, {| Wmb.l_offset := 0; Wmb.l_length := 25 |})]) = Ok w' /\
    List.length (Wmb.vertices w') = 2%nat.
Proof.
  set (w0 := Wmb.set_w_lists Wmb.empty
               [("vertices"%string, {| Wmb.l_offset := 0; Wmb.l_length := 25 |})]).
  set (w' := ok_or w0 (Wmb.load_wmb6_vertices (Enc.zeros 30) w0)).
  assert (H : Wmb.load_wmb6_vertices (Enc.zeros 30) w0 = Ok w') by (vm_compute; reflexivity).
  exists w'. split; [exact H|].
  destruct (X14_wmb6_record_counts (Enc.zeros 30) w0 w'
              {| Wmb.l_offset := 0; Wmb.l_length := 25 |}) as (_ & Hv & _).
  destruct (Hv ltac:(reflexivity) H) as [_ Hn].
  destruct (Hn ltac:(cbn; lia)) as (new & Hn' & Hl). rewrite Hn', length_app, Hl. reflexivity.
Defined.

(** X15.  [_load_materials] and [_load_lightmaps] of WMB7 leave the state
    unchanged for an empty list, and otherwise append [length / 64]
    material names and [length / (1024 * 1024 * 3)] 1024x1024 lightmaps. *)
Theorem X15_wmb7_record_counts :
  forall data w w' l,
  (Wmb.get_lump w "materials"%string = Ok l -> Wmb.load_materials data w = Ok w' ->
     (Wmb.l_length l = 0 -> w' = w) /\
     (Wmb.l_length l <> 0 -> exists new, Wmb.materials w' = Wmb.materials w ++ new /\
        List.length new = Z.to_nat (Wmb.l_length l / 64))) /\
  (Wmb.get_lump w "lightmaps"%string = Ok l -> Wmb.load_lightmaps data w = Ok w' ->
     (Wmb.l_length l = 0 -> w' = w) /\
     (Wmb.l_length l <> 0 -> exists new, Wmb.lightmaps w' = Wmb.lightmaps w ++ new /\
        List.length new = Z.to_nat (Wmb.l_length l / (1024 * 1024 * 3)) /\
        Forall (fun lm => Wmb.lm_width lm = 1024 /\ Wmb.lm_height lm = 1024) new)).
Proof.
  intros data w w' l. split; intros Hl H.
  - unfold Wmb.load_materials in H. rewrite Hl in H. cbn [bind] in H.
    destruct (Z.eqb_spec (Wmb.l_length l) 0) as [E|E].
    + injection H as <-. split; [reflexivity | contradiction].
    + split; [contradiction|]. intros _.
      apply bind_ok in H as (r & Hr & H). injection H as <-.
      apply (for_each_appends (fun s => Wmb.materials (fst s)) (fun _ => True)) in Hr
        as (new & Hn & Hlen & _).
      * exists new. split; [exact Hn|]. rewrite Hlen. apply length_range.
      * intros x [wa oa] sb _ Hb. step_app Hb.
  - unfold Wmb.load_lightmaps in H. rewrite Hl in H. cbn [bind] in H.
    destruct (Z.eqb_spec (Wmb.l_length l) 0) as [E|E].
    + injection H as <-. split; [reflexivity | contradiction].
    + split; [contradiction|]. intros _.
      apply bind_ok in H as (r & Hr & H). injection H as <-.
      apply (for_each_appends (fun s => Wmb.lightmaps (fst s))
               (fun lm => Wmb.lm_width lm = 1024 /\ Wmb.lm_height lm = 1024)) in Hr
        as (new & Hn & Hlen & Hf).
      * exists new. split; [exact Hn|]. rewrite Hlen, length_range. split; [reflexivity | exact Hf].
      * intros x [wa oa] sb _ Hb. injection Hb as <-. cbn. eexists; split; [reflexivity|]. cbn; auto.
Qed.

Lemma X15_witness :
  exists w', Wmb.load_materials (Enc.zeros 200)
               (Wmb.set_w_lists Wmb.empty
                  [("materials"%string, {| Wmb.l_offset := 0; Wmb.l_length := 130 |})]) = Ok w' /\
    List.length (Wmb.materials w') = 2%nat.
Proof.
  set (w0 := Wmb.set_w_lists Wmb.empty
               [("materials"%string, {| Wmb.l_offset := 0; Wmb.l_length := 130 |})]).
  set (w' := ok_or w0 (Wmb.load_materials (Enc.zeros 200) w0)).
  assert (H : Wmb.load_materials (Enc.zeros 200) w0 = Ok w') by (vm_compute; reflexivity).
  exists w'. split; [exact H|].
  destruct (X15_wmb7_record_counts (Enc.zeros 200) w0 w'
              {| Wmb.l_offset := 0; Wmb.l_length := 130 |}) as (Hm & _).
  destruct (Hm ltac:(reflexivity) H) as [_ Hn].
  destruct (Hn ltac:(cbn; lia)) as (new & Hn' & Hl). rewrite Hn', length_app, Hl. reflexivity.
Defined.

Lemma list_loop_appends {B} (g : list pyval -> B) fmt k data xs :
  forall acc o r,
  for_each (fun (_ : Z) (s : list B * Z) => let '(acc, o) := s in
              let* v := unpack_from fmt data o in Ok (acc ++ [g v], o + k)) xs (acc, o) = Ok r ->
  List.length (fst r) = (List.length acc + List.length xs)%nat /\
  snd r = o + k * Z.of_nat (List.length xs).
Proof.
  induction xs as [|x xs IH]; cbn [for_each]; intros acc o r H.
  - injection H as <-. cbn. split; lia.
  - apply bind_ok in H as ([a1 o1] & H1 & H2). apply bind_ok in H1 as (v & _ & H1).
    injection H1 as <- <-. apply IH in H2 as [Hl Ho]. rewrite length_app in Hl.
    cbn [List.length]. split; [cbn in Hl; lia | rewrite Ho; lia].
Qed.

Lemma skin_loop_appends data xs :
  forall acc o r,
  for_each (fun (_ : Z) (s : list Wmb.bskin * Z) => let '(acc, o) := s in
               let* a := unpack_from [Fh; Fh; FI] data o in
               let* b := unpack_from [Ff; Ff] data (o + 8) in
               let* c := unpack_from [FI] data (o + 16) in
               Ok (acc ++ [{| Wmb.bs_texture := int_at a 0; Wmb.bs_lightmap := int_at a 1;
                              Wmb.bs_material := int_at a 2; Wmb.bs_ambient := float_at b 0;
                              Wmb.bs_albedo := float_at b 1; Wmb.bs_flags := int_at c 0 |}],
                   o + 20)) xs (acc, o) = Ok r ->
  List.length (fst r) = (List.length acc + List.length xs)%nat /\
  snd r = o + 20 * Z.of_nat (List.length xs).
Proof.
  induction xs as [|x xs IH]; cbn [for_each]; intros acc o r H.
  - injection H as <-. cbn. split; lia.
  - apply bind_ok in H as ([a1 o1] & H1 & H2). apply bind_ok in H1 as (a & _ & H1).
    apply bind_ok in H1 as (b & _ & H1). apply bind_ok in H1 as (c & _ & H1).
    injection H1 as <- <-. apply IH in H2 as [Hl Ho]. rewrite length_app in Hl.
    cbn [List.length]. split; [cbn in Hl; lia | rewrite Ho; lia].
Qed.

(** X16.  One block record of [_load_blocks] advances the offset by
    [40 + 28 num_verts + 12 num_tris + 20 num_skins] (counts being
    unsigned) and appends one block whose vertex, triangle and skin lists
    have exactly the declared lengths. *)
Theorem X16_block_layout :
  forall data i w off w' off', Wmb.block_at data i (w, off) = Ok (w', off') ->
  exists bd, unpack_from (rep 6 Ff ++ rep 4 FI) data off = Ok bd /\
    let nv := int_at bd 7 in let nt := int_at bd 8 in let ns := int_at bd 9 in
    off' = off + 40 + 28 * Z.of_nat (Z.to_nat nv) + 12 * Z.of_nat (Z.to_nat nt)
               + 20 * Z.of_nat (Z.to_nat ns) /\
    exists b, Wmb.blocks w' = Wmb.blocks w ++ [b] /\
      Wmb.b_num_verts b = nv /\ Wmb.b_num_tris b = nt /\ Wmb.b_num_skins b = ns /\
      List.length (Wmb.b_vertices b) = Z.to_nat nv /\
      List.length (Wmb.b_triangles b) = Z.to_nat nt /\
      List.length (Wmb.b_skins b) = Z.to_nat ns.
Proof.
  intros data i w off w' off' H. unfold Wmb.block_at in H.
  apply bind_ok in H as (bd & Hbd & H). exists bd. split; [exact Hbd|]. cbv zeta in *.
  apply bind_ok in H as ([vs o1] & Hv & H).
  apply bind_ok in H as ([ts o2] & Ht & H).
  apply bind_ok in H as ([ss o3] & Hs & H).
  injection H as <- <-.
  apply list_loop_appends in Hv as [Hvl Hvo].
  apply list_loop_appends in Ht as [Htl Hto].
  apply skin_loop_appends in Hs as [Hsl Hso].
  cbn [fst snd List.length] in Hvl, Hvo, Htl, Hto, Hsl, Hso. rewrite length_range in *.
  split; [lia|].
  eexists. split; [reflexivity|]. cbn. repeat split; assumption.
Qed.

Lemma X16_witness :
  exists w' off', Wmb.block_at (Enc.zeros 28 ++ Enc.u32 1 ++ Enc.zeros 8 ++ Enc.zeros 28)
                    0 (Wmb.empty, 0) = Ok (w', off') /\ off' = 68.
Proof.
  set (r := ok_or (Wmb.empty, 0)
              (Wmb.block_at (Enc.zeros 28 ++ Enc.u32 1 ++ Enc.zeros 8 ++ Enc.zeros 28)
                 0 (Wmb.empty, 0))).
  assert (H : Wmb.block_at (Enc.zeros 28 ++ Enc.u32 1 ++ Enc.zeros 8 ++ Enc.zeros 28)
                0 (Wmb.empty, 0) = Ok (fst r, snd r)) by (vm_compute; reflexivity).
  exists (fst r), (snd r). split; [exact H|].
  destruct (X16_block_layout _ _ _ _ _ _ H) as (bd & Hbd & Ho & _).
  rewrite Ho. revert Hbd. vm_compute. intros Hbd. injection Hbd as <-. vm_compute. reflexivity.
Defined.

(** X17.  [_load_blocks] does nothing when the directory has no
    ['blocks'] entry, when the entry is empty, or when its offset is not
    before the end of the file (it looks the entry up with [.get]). *)
Theorem X17_blocks_skipped :
  forall data w,
  (Wmb.assoc "blocks"%string (Wmb.w_lists w) = None \/
   exists l, Wmb.assoc "blocks"%string (Wmb.w_lists w) = Some l /\
     (Wmb.l_length l = 0 \/ Z.of_nat (List.length data) <= Wmb.l_offset l)) ->
  Wmb.load_blocks data w = Ok w.
Proof.
  intros data w [H | (l & H & Hl)]; unfold Wmb.load_blocks; rewrite H; [reflexivity|].
  replace ((Wmb.l_length l =? 0) || (Wmb.l_offset l >=? Wmb.len data)) with true; [reflexivity|].
  symmetry. apply orb_true_iff. unfold Wmb.len.
  destruct Hl as [Hl | Hl]; [left; apply Z.eqb_eq; exact Hl | right; rewrite Z.geb_leb; apply Z.leb_le; lia].
Qed.

Lemma X17_witness :
  Wmb.load_blocks (Enc.zeros 4) all_lumps_empty = Ok all_lumps_empty.
Proof.
  apply X17_blocks_skipped. right. exists {| Wmb.l_offset := 0; Wmb.l_length := 0 |}.
  split; [vm_compute; reflexivity | left; reflexivity].
Defined.

Lemma object_loop_info data base ps :
  forall w w', for_each (Wmb.object_at data base) ps w = Ok w' ->
  exists new, Wmb.objects w' = Wmb.objects w ++ new /\
              Wmb.info w' = last_info new (Wmb.info w).
Proof.
  induction ps as [|[i o] ps IH]; cbn [for_each]; intros w w' H.
  - injection H as <-. exists []. rewrite app_nil_r. auto.
  - apply bind_ok in H as (w1 & H1 & H2). unfold Wmb.object_at in H1.
    apply bind_ok in H1 as (t & _ & H1). apply bind_ok in H1 as (k & _ & H1).
    injection H1 as <-.
    destruct (IH _ _ H2) as (new & Hobj & Hinf).
    exists ({| Wmb.o_type := int_at t 0; Wmb.o_index := i; Wmb.o_kind := k |} :: new).
    split.
    + rewrite Hobj. destruct (int_at t 0 =? 5); cbn; rewrite <- app_assoc; reflexivity.
    + rewrite Hinf. unfold last_info. cbn [fold_left Wmb.o_type].
      destruct (int_at t 0 =? 5); reflexivity.
Qed.

(** X18.  After [_load_objects], [self.info] is the last object of type 5
    (WMB_INFO) among the newly appended objects, and is left unchanged
    when none of them has type 5. *)
Theorem X18_objects_info_last :
  forall data w w', Wmb.load_objects data w = Ok w' ->
  exists new, Wmb.objects w' = Wmb.objects w ++ new /\
              Wmb.info w' = last_info new (Wmb.info w).
Proof.
  intros data w w' H. unfold Wmb.load_objects in H.
  apply bind_ok in H as (l & _ & H).
  destruct (Wmb.l_length l =? 0).
  - injection H as <-. exists []. rewrite app_nil_r. auto.
  - apply bind_ok in H as (cnt & _ & H). apply bind_ok in H as (r & _ & H).
    exact (object_loop_info _ _ _ _ _ H).
Qed.

Lemma X18_witness :
  exists w', Wmb.load_objects (Enc.u32 1 ++ Enc.u32 8 ++ Enc.u32 5 ++ Enc.zeros 20)
      (Wmb.set_w_lists Wmb.empty [("objects"%string, {| Wmb.l_offset := 0; Wmb.l_length := 1 |})])
    = Ok w' /\
    exists o, Wmb.info w' = Some o /\ Wmb.o_type o = 5 /\ In o (Wmb.objects w').
Proof.
  set (data := Enc.u32 1 ++ Enc.u32 8 ++ Enc.u32 5 ++ Enc.zeros 20).
  set (w := Wmb.set_w_lists Wmb.empty
              [("objects"%string, {| Wmb.l_offset := 0; Wmb.l_length := 1 |})]).
  set (w' := ok_or w (Wmb.load_objects data w)).
  assert (Hw : Wmb.load_objects data w = Ok w') by (vm_compute; reflexivity).
  exists w'. split; [exact Hw|].
  destruct (X18_objects_info_last data w w' Hw) as (new & Ho & Hi).
  cbn in Ho. rewrite Hi, Ho.
  exists (nth 0 new {| Wmb.o_type := 0; Wmb.o_index := 0; Wmb.o_kind := Wmb.ObjUnknown |}).
  assert (Hn : new = Wmb.objects w') by exact (eq_sym Ho).
  rewrite Hn. vm_compute. split; [reflexivity|]. split; [reflexivity | left; reflexivity].
Defined.

Lemma texture_at_format data w base off t :
  Wmb.texture_at data w base off = Ok t ->
  (Wmb.t_data t = None <-> Wmb.t_format t = "unknown"%string).
Proof.
  intros H. unfold Wmb.texture_at in H.
  apply bind_ok in H as (nm & _ & H). apply bind_ok in H as (wht & _ & H).
  cbv zeta in H.
  repeat match type of H with
  | (if ?c then _ else _) = Ok _ => destruct c
  | bind _ _ = Ok _ => apply bind_ok in H as (? & _ & H)
  end;
  injection H as <-; cbn; split; intro E; try discriminate; reflexivity.
Qed.

(** X19.  When the textures lump is non-empty and [_load_textures]
    succeeds, it appends exactly as many textures as the count stored at
    the lump's start, and a texture has no pixel data exactly when its
    format is ['unknown']. *)
Theorem X19_textures_count_and_format :
  forall data w w' l, Wmb.get_lump w "textures"%string = Ok l -> Wmb.l_length l <> 0 ->
  Wmb.load_textures data w = Ok w' ->
  exists cnt new, unpack_from [FI] data (Wmb.l_offset l) = Ok cnt /\
    Wmb.textures w' = Wmb.textures w ++ new /\
    List.length new = Z.to_nat (int_at cnt 0) /\
    Forall (fun t => Wmb.t_data t = None <-> Wmb.t_format t = "unknown"%string) new.
Proof.
  intros data w w' l Hl Hne H. unfold Wmb.load_textures in H. rewrite Hl in H.
  cbn [bind] in H.
  replace (Wmb.l_length l =? 0) with false in H by (symmetry; apply Z.eqb_neq; exact Hne).
  apply bind_ok in H as (cnt & Hcnt & H). apply bind_ok in H as (r & Hr & H).
  apply read_offsets_length in Hr. exists cnt. rewrite <- Hr. clear Hr.
  clear Hl Hne. revert w H. generalize (fst r) as offs.
  induction offs as [|o offs IH]; cbn [for_each]; intros w H.
  - injection H as <-. exists []. rewrite app_nil_r. auto.
  - apply bind_ok in H as (w1 & H1 & H2). apply bind_ok in H1 as (t & Ht & H1).
    injection H1 as <-. destruct (IH _ H2) as (new & Hcnt' & Ht' & Hlen & Hf).
    exists (t :: new). split; [exact Hcnt'|]. split.
    + rewrite Ht'. cbn. rewrite <- app_assoc. reflexivity.
    + split; [cbn; rewrite Hlen; reflexivity|].
      constructor; [exact (texture_at_format _ _ _ _ _ Ht) | exact Hf].
Qed.

Lemma X19_witness :
  exists w', Wmb.load_textures
      (Enc.u32 1 ++ Enc.u32 8 ++ Enc.zeros 16 ++ Enc.u32 2 ++ Enc.u32 2 ++ Enc.u32 0 ++ Enc.zeros 8)
      (Wmb.set_w_lists Wmb.empty [("textures"%string, {| Wmb.l_offset := 0; Wmb.l_length := 1 |})])
    = Ok w' /\ List.length (Wmb.textures w') = 1%nat.
Proof.
  set (data := Enc.u32 1 ++ Enc.u32 8 ++ Enc.zeros 16 ++ Enc.u32 2 ++ Enc.u32 2 ++ Enc.u32 0
               ++ Enc.zeros 8).
  set (w := Wmb.set_w_lists Wmb.empty
              [("textures"%string, {| Wmb.l_offset := 0; Wmb.l_length := 1 |})]).
  set (w' := ok_or w (Wmb.load_textures data w)).
  assert (Hw : Wmb.load_textures data w = Ok w') by (vm_compute; reflexivity).
  exists w'. split; [exact Hw|].
  destruct (X19_textures_count_and_format data w w' {| Wmb.l_offset := 0; Wmb.l_length := 1 |}
              ltac:(vm_compute; reflexivity) ltac:(discriminate) Hw) as (cnt & new & Hc & Ht & Hl & _).
  rewrite Ht, length_app, Hl. revert Hc. vm_compute. intros Hc. injection Hc as <-. reflexivity.
Defined.

Lemma face_step_shape se ed first acc e :
  (surfedge_valid se ed first e = false -> Wmb.face_step se ed first acc e = acc) /\
  (surfedge_valid se ed first e = true ->
   exists p, In p ed /\
     (Wmb.face_step se ed first acc e =
        (if Nat.eqb (List.length acc) 0 then acc ++ [fst p] else acc) ++ [snd p] \/
      Wmb.face_step se ed first acc e =
        (if Nat.eqb (List.length acc) 0 then acc ++ [snd p] else acc) ++ [fst p])).
Proof.
  unfold surfedge_valid, Wmb.face_step.
  destruct (first + e >=? Z.of_nat (List.length se)); cbn [negb andb];
    [split; [reflexivity | discriminate]|].
  set (sf := nth (Z.to_nat (first + e)) se 0).
  destruct ((Z.abs sf - 1 <? 0) || (Z.abs sf - 1 >=? Z.of_nat (List.length ed))) eqn:Hr;
    cbn [negb]; [split; [reflexivity | discriminate]|].
  split; [discriminate|]. intros _.
  apply orb_false_iff in Hr as [H1 H2]. apply Z.ltb_ge in H1.
  rewrite Z.geb_leb in H2. apply Z.leb_gt in H2.
  exists (nth (Z.to_nat (Z.abs sf - 1)) ed (0, 0)). split.
  - apply nth_In. lia.
  - destruct (nth (Z.to_nat (Z.abs sf - 1)) ed (0, 0)) as [v1 v2].
    destruct (sf <? 0); [right | left]; reflexivity.
Qed.

Lemma face_fold_shape se ed first xs :
  forall acc,
  List.length (fold_left (Wmb.face_step se ed first) xs acc) =
    (let k := List.length (filter (surfedge_valid se ed first) xs) in
     if Nat.eqb (List.length acc) 0 then (if Nat.eqb k 0 then 0 else S k)
     else (List.length acc + k))%nat /\
  (forall v, In v (fold_left (Wmb.face_step se ed first) xs acc) ->
     In v acc \/ exists p, In p ed /\ (v = fst p \/ v = snd p)).
Proof.
  induction xs as [|e xs IH]; intros acc; cbn [fold_left filter].
  - split; [|auto]. cbn. destruct (Nat.eqb_spec (List.length acc) 0); lia.
  - destruct (face_step_shape se ed first acc e) as [Hf Ht].
    destruct (surfedge_valid se ed first e) eqn:Hv.
    + destruct (Ht eq_refl) as (p & Hp & Hs). destruct (IH (Wmb.face_step se ed first acc e)) as [Hl Hm].
      assert (Hacc : List.length (Wmb.face_step se ed first acc e) =
                     (if Nat.eqb (List.length acc) 0 then 2 else S (List.length acc))%nat /\
                     forall v, In v (Wmb.face_step se ed first acc e) ->
                       In v acc \/ (v = fst p \/ v = snd p)).
      { destruct (Nat.eqb_spec (List.length acc) 0) as [E|E].
        - apply length_zero_iff_nil in E. subst acc.
          destruct Hs as [-> | ->]; cbn; split; auto; intros v [<- | [<- | []]]; auto.
        - destruct Hs as [-> | ->]; rewrite length_app; cbn; split; try lia;
            intros v Hin; apply in_app_or in Hin as [Hin | [<- | []]]; auto. }
      destruct Hacc as [Hal Ham]. split.
      * rewrite Hl, Hal. cbn [List.length].
        destruct (Nat.eqb_spec (List.length acc) 0); cbn; lia.
      * intros v Hin. apply Hm in Hin as [Hin | Hin]; [|auto].
        apply Ham in Hin as [Hin | Hin]; [auto | right; eauto].
    + rewrite (Hf eq_refl). apply IH.
Qed.

(** X20.  The vertex walk of one face yields no vertex when none of its
    [num_verts] surfedges passes the two range checks, and otherwise one
    vertex more than the number of surfedges that pass; every vertex is an
    endpoint of one of the loaded edges. *)
Theorem X20_face_vertices_count :
  forall se ed first n,
  List.length (Wmb.face_vertices se ed first n) =
    (let k := List.length (filter (surfedge_valid se ed first) (range n)) in
     if Nat.eqb k 0 then 0 else S k)%nat /\
  (forall v, In v (Wmb.face_vertices se ed first n) ->
     exists p, In p ed /\ (v = fst p \/ v = snd p)).
Proof.
  intros se ed first n. unfold Wmb.face_vertices.
  destruct (face_fold_shape se ed first (range n) []) as [Hl Hm]. split.
  - rewrite Hl. reflexivity.
  - intros v Hin. apply Hm in Hin as [[] | H]. exact H.
Qed.

Lemma py_index_in {A} (xs : list A) i :
  0 <= i -> i < Z.of_nat (List.length xs) -> exists x, Viewer.py_index xs i = Ok x.
Proof.
  intros H0 H1. unfold Viewer.py_index.
  replace (i <? 0) with false by (symmetry; apply Z.ltb_ge; lia).
  replace (i <? 0) with false by (symmetry; apply Z.ltb_ge; lia).
  destruct (nth_error xs (Z.to_nat i)) eqn:E; [eauto|].
  apply nth_error_None in E. lia.
Qed.

Lemma face_positions_length w sv so tv to verts :
  forall ps us r,
  for_each (fun v_idx (acc : list Wmb.vec3 * list (Py.float * Py.float)) =>
              let '(positions, uvs) := acc in
              if v_idx <? Z.of_nat (List.length (Wmb.vertices w)) then
                let* pos := Viewer.py_index (Wmb.vertices w) v_idx in
                Ok (positions ++ [pos], uvs ++ [(Viewer.dot_off pos sv so, Viewer.dot_off pos tv to)])
              else Ok (positions ++ [(Viewer.fzero, Viewer.fzero, Viewer.fzero)],
                       uvs ++ [(Viewer.fzero, Viewer.fzero)]))
    verts (ps, us) = Ok r ->
  List.length (fst r) = (List.length ps + List.length verts)%nat.
Proof.
  induction verts as [|v verts IH]; cbn [for_each]; intros ps us r H.
  - injection H as <-. cbn. lia.
  - apply bind_ok in H as ([p1 u1] & H1 & H2).
    destruct (v <? _).
    + apply bind_ok in H1 as (pos & _ & H1). injection H1 as <- <-.
      rewrite (IH _ _ _ H2), length_app. cbn. lia.
    + injection H1 as <- <-. rewrite (IH _ _ _ H2), length_app. cbn. lia.
Qed.

Lemma face_positions_ok w sv so tv to verts :
  Forall (Z.le 0) verts -> exists r, Viewer.face_positions w sv so tv to verts = Ok r.
Proof.
  intros Hv. unfold Viewer.face_positions.
  assert (G : forall (ps : list Wmb.vec3) (us : list (Py.float * Py.float)), exists r,
    for_each (fun v_idx (acc : list Wmb.vec3 * list (Py.float * Py.float)) =>
              let '(positions, uvs) := acc in
              if v_idx <? Z.of_nat (List.length (Wmb.vertices w)) then
                let* pos := Viewer.py_index (Wmb.vertices w) v_idx in
                Ok (positions ++ [pos], uvs ++ [(Viewer.dot_off pos sv so, Viewer.dot_off pos tv to)])
              else Ok (positions ++ [(Viewer.fzero, Viewer.fzero, Viewer.fzero)],
                       uvs ++ [(Viewer.fzero, Viewer.fzero)]))
    verts (ps, us) = Ok r).
  { induction Hv as [|v vs Hv0 _ IHv]; cbn [for_each]; intros ps us; [eauto|].
    destruct (Z.ltb_spec v (Z.of_nat (List.length (Wmb.vertices w)))).
    - destruct (py_index_in (Wmb.vertices w) v) as [pos Ep]; [lia | lia |].
      rewrite Ep. cbn [bind]. apply IHv.
    - cbn [bind]. apply IHv. }
  apply G.
Qed.

Lemma face_triangles_length w f ts :
  Viewer.face_triangles w f = Ok ts -> List.length ts = (List.length (Wmb.f_vertices f) - 2)%nat.
Proof.
  unfold Viewer.face_triangles. destruct (Nat.ltb_spec (List.length (Wmb.f_vertices f)) 3) as [Hl|Hl].
  - intros H. injection H as <-. cbn. lia.
  - intros H. apply bind_ok in H as ([[[[tx sv] so] tv] to] & _ & H).
    apply bind_ok in H as ([ps us] & Hp & H). injection H as <-.
    unfold Viewer.face_positions in Hp. apply face_positions_length in Hp.
    cbn in Hp. rewrite length_map, length_seq, Hp. reflexivity.
Qed.

(** X21.  [triangulate_faces] turns the loaded faces into
    [sum (len(vertices) - 2)] triangles: a face with fewer than three
    vertices gives none, a face with [k >= 3] vertices gives a fan of
    [k - 2]. *)
Theorem X21_triangle_count :
  forall w ts, Viewer.triangulate_faces w = Ok ts ->
  List.length ts = list_sum (map (fun f => List.length (Wmb.f_vertices f) - 2)%nat (Wmb.faces w)).
Proof.
  intros w ts. unfold Viewer.triangulate_faces.
  assert (G : forall fs acc ts,
    for_each (fun f triangles => let* ts := Viewer.face_triangles w f in Ok (triangles ++ ts))
      fs acc = Ok ts ->
    List.length ts = (List.length acc +
      list_sum (map (fun f => List.length (Wmb.f_vertices f) - 2)%nat fs))%nat).
  { induction fs as [|f fs IH]; cbn [for_each map list_sum fold_right]; intros acc ts' H.
    - injection H as <-. lia.
    - apply bind_ok in H as (a1 & H1 & H2). apply bind_ok in H1 as (t & Ht & H1).
      injection H1 as <-. apply IH in H2. apply face_triangles_length in Ht.
      rewrite length_app in H2. unfold list_sum in *. lia. }
  intros H. apply G in H. exact H.
Qed.

Lemma X21_witness :
  exists ts, Viewer.triangulate_faces quad_world = Ok ts /\ List.length ts = 2%nat.
Proof.
  set (ts := ok_or [] (Viewer.triangulate_faces quad_world)).
  assert (H : Viewer.triangulate_faces quad_world = Ok ts) by (vm_compute; reflexivity).
  exists ts. split; [exact H|]. rewrite (X21_triangle_count _ _ H). reflexivity.
Defined.

(** X22.  [triangulate_faces] raises no [IndexError] when every face's
    texinfo index and vertex indices are non-negative (as the WMB6 loader
    produces them from unsigned fields). *)
Theorem X22_triangulate_no_error :
  forall w, Forall (fun f => 0 <= Wmb.f_tex_idx f /\ Forall (Z.le 0) (Wmb.f_vertices f)) (Wmb.faces w) ->
  exists ts, Viewer.triangulate_faces w = Ok ts.
Proof.
  intros w Hf. unfold Viewer.triangulate_faces. generalize (@nil Viewer.tri) as acc.
  induction Hf as [|f fs [Ht Hv] _ IH]; cbn [for_each]; intros acc; [eauto|].
  assert (Hface : exists t, Viewer.face_triangles w f = Ok t).
  { unfold Viewer.face_triangles. destruct (Nat.ltb _ 3); [eauto|].
    assert (Hti : exists ti, Viewer.face_texinfo w f = Ok ti).
    { unfold Viewer.face_texinfo. destruct (Z.ltb_spec (Wmb.f_tex_idx f) (Z.of_nat (List.length (Wmb.texinfo w)))).
      - destruct (py_index_in (Wmb.texinfo w) (Wmb.f_tex_idx f)) as [ti E]; [lia | lia |].
        rewrite E. cbn. eauto.
      - eauto. }
    destruct Hti as [[[[[tx sv] so] tv] to] E]. rewrite E. cbn [bind].
    assert (Hp : exists r, Viewer.face_positions w sv so tv to (Wmb.f_vertices f) = Ok r)
      by (apply face_positions_ok; exact Hv).
    destruct Hp as [[ps us] Ep]. rewrite Ep. cbn. eauto. }
  destruct Hface as [t Et]. rewrite Et. cbn [bind]. apply IH.
Qed.

Lemma X22_witness :
  Forall (fun f => 0 <= Wmb.f_tex_idx f /\ Forall (Z.le 0) (Wmb.f_vertices f)) (Wmb.faces quad_world) /\
  exists ts, Viewer.triangulate_faces quad_world = Ok ts.
Proof.
  split; [repeat constructor; cbn; lia | apply X22_triangulate_no_error;
                                          repeat constructor; cbn; lia].
Defined.

End Extra.
